(** * Proxmox MCP adapter (index.js): shallow embedding and verified properties.

    The development follows the layout of the source file:
    - [Runtime]: the JavaScript built-ins the program relies on
      (double arithmetic, [Math.log], number printing, [toFixed],
      [parseFloat], [trim], stable [sort]);
    - the formatter helpers [formatUptime] and [formatBytes];
    - the backend client [proxmoxRequest] over a tree of HTTP interactions;
    - the seven handlers and the dispatcher of [setupToolHandlers];
    - the start-up code: the .env loader and the constructor;
    - the theorems.

    Numbers.  JavaScript numbers are IEEE 754 binary64 values.  The fields
    of a response hold the numerals of the JSON text: integral quantities
    (seconds, byte counts, core counts, identifiers) as [Z], fractions as
    [Q]; [of_Z] and [of_Q] give the double such a numeral is read as.
    Products, quotients and sums of fractions are computed on doubles, with
    the operations of the standard library's SpecFloat at precision 53, and
    [Math.log] follows the algorithm V8 uses.  Arithmetic on integers is
    done in [Z]: it is the arithmetic of doubles as long as every value
    stays below 2^53, the range the statements about numbers are made for.

    Text.  A string is the sequence of the bytes of its UTF-8 encoding. *)

From Stdlib Require Import ZArith QArith Qround Qabs List String Ascii Bool Lia Lqa.
From Stdlib Require Import Sorted Permutation SpecFloat.
Import ListNotations.

Local Open Scope Z_scope.

(** ** JavaScript built-ins *)

Module Runtime.

Definition nl : string := String (ascii_of_nat 10) EmptyString.

(** *** Decimal digits *)

Definition digit (d : Z) : ascii := ascii_of_nat (48 + Z.to_nat d).

Definition is_digit (c : ascii) : bool :=
  let n := nat_of_ascii c in (48 <=? n)%nat && (n <=? 57)%nat.

Definition digit_val (c : ascii) : Z := Z.of_nat (nat_of_ascii c - 48).

(** Digits of [n], most significant first, put in front of [acc]. *)
Fixpoint digits_go (fuel : nat) (n : Z) (acc : string) : string :=
  match fuel with
  | O => acc
  | S fuel' =>
      let acc' := String (digit (n mod 10)) acc in
      if n <? 10 then acc' else digits_go fuel' (n / 10) acc'
  end.

Definition digits (n : Z) : string :=
  digits_go (S (Z.to_nat (Z.log2 n))) n EmptyString.

(** [String(z)] for an integral number. *)
Definition Z_to_string (z : Z) : string :=
  if z <? 0 then String "-" (digits (- z)) else digits z.

(** Exactly [w] digits of [f], for [0 <= f < 10^w]. *)
Fixpoint frac_digits (w : nat) (f : Z) : string :=
  match w with
  | O => EmptyString
  | S w' => String (digit (f / 10 ^ Z.of_nat w')) (frac_digits w' (f mod 10 ^ Z.of_nat w'))
  end.

(** *** Numbers *)

(** A JavaScript number: a binary64 value.  The arithmetic is that of
    IEEE 754 with rounding to nearest, ties to even. *)
Definition double : Type := spec_float.

Definition fadd : double -> double -> double := SFadd 53 1024.
Definition fsub : double -> double -> double := SFsub 53 1024.
Definition fmul : double -> double -> double := SFmul 53 1024.
Definition fdiv : double -> double -> double := SFdiv 53 1024.

(** The double an integer numeral is read as. *)
Definition of_Z (z : Z) : double := binary_normalize 53 1024 z 0 false.

(** The double a fractional numeral is read as: the quotient, rounded
    once. *)
Definition of_Q (q : Q) : double :=
  match Qnum q with
  | Z0 => S754_zero false
  | Zpos n => fdiv (S754_finite false n 0) (S754_finite false (Qden q) 0)
  | Zneg n => fdiv (S754_finite true n 0) (S754_finite false (Qden q) 0)
  end.

(** The double with a given 64-bit pattern (not a NaN or an infinity). *)
Definition of_bits (h : Z) : double :=
  let s := Z.testbit h 63 in
  let ex := Z.land (Z.shiftr h 52) 2047 in
  let fr := Z.land h (2 ^ 52 - 1) in
  if ex =? 0 then binary_normalize 53 1024 (if s then - fr else fr) (-1074) s
  else binary_normalize 53 1024 (if s then - (fr + 2 ^ 52) else fr + 2 ^ 52) (ex - 1075) s.

(** The numbers that count as false: both zeros and NaN. *)
Definition falsy (x : double) : bool :=
  match x with
  | S754_zero _ | S754_nan => true
  | _ => false
  end.

(** The exact value of a number. *)
Inductive number : Type :=
| Fin (q : Q)
| NaN
| Infinity (negative : bool).

Definition value (x : double) : number :=
  match x with
  | S754_zero _ => Fin 0
  | S754_finite s m e =>
      let n := if s then Zneg m else Zpos m in
      Fin (if e <? 0 then Qmake n (Z.to_pos (2 ^ (- e))) else inject_Z (n * 2 ^ e))
  | S754_nan => NaN
  | S754_infinity s => Infinity s
  end.

(** *** Math.log *)

(** The natural logarithm as V8 computes it (the algorithm of fdlibm's
    e_log.c): the argument is brought to 2^k * (1 + f) with 1 + f between
    sqrt(2)/2 and sqrt(2), log(1 + f) comes from a polynomial in
    s = f / (2 + f), and k * ln 2 is added in two parts. *)
Definition ln2_hi : double := of_bits 0x3fe62e42fee00000.
Definition ln2_lo : double := of_bits 0x3dea39ef35793c76.
Definition Lg1 : double := of_bits 0x3fe5555555555593.
Definition Lg2 : double := of_bits 0x3fd999999997fa04.
Definition Lg3 : double := of_bits 0x3fd2492494229359.
Definition Lg4 : double := of_bits 0x3fcc71c51d8e78af.
Definition Lg5 : double := of_bits 0x3fc7466496cb03de.
Definition Lg6 : double := of_bits 0x3fc39a09d078c69f.
Definition Lg7 : double := of_bits 0x3fc2f112df3e5244.

(** The logarithm of [m * 2^e] for a mantissa [m] of 53 bits; [hx] is the
    upper 20 bits of the fraction. *)
Definition log_normal (m : positive) (e : Z) : double :=
  let hx := Z.shiftr (Zpos m - 2 ^ 52) 32 in
  let i := Z.land (hx + 0x95f64) 0x100000 in
  let x := S754_finite false m (if i =? 0 then -52 else -53) in
  let k := e + 52 + Z.shiftr i 20 in
  let f := fsub x (of_Z 1) in
  let dk := of_Z k in
  let half := of_bits 0x3fe0000000000000 in
  if Z.land 0xfffff (2 + hx) <? 3 then
    match f with
    | S754_zero _ =>
        if k =? 0 then S754_zero false
        else fadd (fmul dk ln2_hi) (fmul dk ln2_lo)
    | _ =>
        let R := fmul (fmul f f) (fsub half (fmul (of_bits 0x3fd5555555555555) f)) in
        if k =? 0 then fsub f R
        else fsub (fmul dk ln2_hi) (fsub (fsub R (fmul dk ln2_lo)) f)
    end
  else
    let s := fdiv f (fadd (of_Z 2) f) in
    let z := fmul s s in
    let w := fmul z z in
    let t1 := fmul w (fadd Lg2 (fmul w (fadd Lg4 (fmul w Lg6)))) in
    let t2 := fmul z (fadd Lg1 (fmul w (fadd Lg3 (fmul w (fadd Lg5 (fmul w Lg7)))))) in
    let R := fadd t2 t1 in
    if (0x6147a <=? hx) && (hx <=? 0x6b851) then
      let hfsq := fmul (fmul half f) f in
      if k =? 0 then fsub f (fsub hfsq (fmul s (fadd hfsq R)))
      else fsub (fmul dk ln2_hi)
             (fsub (fsub hfsq (fadd (fmul s (fadd hfsq R)) (fmul dk ln2_lo))) f)
    else
      if k =? 0 then fsub f (fmul s (fsub f R))
      else fsub (fmul dk ln2_hi) (fsub (fsub (fmul s (fsub f R)) (fmul dk ln2_lo)) f).

(** [Math.log(x)]: NaN below zero, minus infinity at zero; a subnormal
    argument is scaled to a full mantissa first. *)
Definition Math_log (x : double) : double :=
  match x with
  | S754_nan => S754_nan
  | S754_zero _ => S754_infinity true
  | S754_infinity s => if s then S754_nan else x
  | S754_finite true _ _ => S754_nan
  | S754_finite false m e =>
      let d := 53 - Zpos (digits2_pos m) in
      log_normal (Z.to_pos (Z.shiftl (Zpos m) d)) (e - d)
  end.

(** Nearest integer, the larger one on a tie. *)
Definition round_half_up (x : Q) : Z := Qfloor (x + (1 # 2)).

(** [Number.prototype.toFixed] on a finite number below 1e21: the integer
    [n] nearest to [|x| * 10^f] (the larger on a tie), written with exactly
    [f] digits after the point. *)
Definition toFixed (x : Q) (f : nat) : string :=
  let n := round_half_up (Qabs x * inject_Z (10 ^ Z.of_nat f)) in
  let body :=
    (digits (n / 10 ^ Z.of_nat f) ++
     match f with
     | O => EmptyString
     | _ => String "." (frac_digits f (n mod 10 ^ Z.of_nat f))
     end)%string in
  if Qle_bool 0 x then body else String "-" body.

Definition number_toFixed (x : number) (f : nat) : string :=
  match x with
  | Fin q => toFixed q f
  | NaN => "NaN"%string
  | Infinity false => "Infinity"%string
  | Infinity true => "-Infinity"%string
  end.

(** [x.toFixed(f)] for a double [x]: the digits come from its exact
    value. *)
Definition double_toFixed (x : double) (f : nat) : string :=
  number_toFixed (value x) f.

(** Fraction digits of [r / den] by long division, until the remainder
    vanishes. *)
Fixpoint frac_expand (fuel : nat) (r den : Z) : string :=
  match fuel with
  | O => EmptyString
  | S fuel' =>
      if r =? 0 then EmptyString
      else String (digit (10 * r / den)) (frac_expand fuel' ((10 * r) mod den) den)
  end.

(** [String(x)] for a finite number with a short decimal expansion: the
    expansion itself, without trailing zeros (the shortest decimal that
    reads back as the same double). *)
Definition Q_to_string (x : Q) : string :=
  let a := Qabs x in
  let ip := Qnum a / Zpos (Qden a) in
  let r := Qnum a mod Zpos (Qden a) in
  let body :=
    (digits ip ++
     (if (r =? 0)%Z then EmptyString
      else String "." (frac_expand 20 r (Zpos (Qden a)))))%string in
  if Qle_bool 0 x then body else String "-" body.

Definition number_to_string (x : number) : string :=
  match x with
  | Fin q => Q_to_string q
  | NaN => "NaN"%string
  | Infinity false => "Infinity"%string
  | Infinity true => "-Infinity"%string
  end.

(** *** parseFloat *)

(** Longest run of digits at the head of [s]: their value on top of [acc],
    their count on top of [cnt], and what follows them. *)
Fixpoint read_digits (s : string) (acc : Z) (cnt : nat) : Z * nat * string :=
  match s with
  | String c s' =>
      if is_digit c then read_digits s' (10 * acc + digit_val c) (S cnt)
      else (acc, cnt, s)
  | EmptyString => (acc, cnt, s)
  end.

(** White space, as [trim] and [parseFloat] take it: the WhiteSpace and
    LineTerminator characters of ECMAScript.  In UTF-8 these are the bytes
    9 to 13 and 32, the two bytes of U+00A0, and the three bytes of U+1680,
    U+2000 to U+200A, U+2028, U+2029, U+202F, U+205F, U+3000 and U+FEFF. *)
Definition is_space (c : ascii) : bool :=
  let n := nat_of_ascii c in
  (n =? 32)%nat || ((9 <=? n)%nat && (n <=? 13)%nat).

Definition space_lead (c : ascii) : bool :=
  let n := nat_of_ascii c in
  (n =? 194)%nat || (n =? 225)%nat || (n =? 226)%nat || (n =? 227)%nat || (n =? 239)%nat.

Definition space2 (c c1 : ascii) : bool :=
  (nat_of_ascii c =? 194)%nat && (nat_of_ascii c1 =? 160)%nat.

Definition space3 (c c1 c2 : ascii) : bool :=
  let n := nat_of_ascii c in
  let n1 := nat_of_ascii c1 in
  let n2 := nat_of_ascii c2 in
  ((n =? 225) && (n1 =? 154) && (n2 =? 128))%nat
  || ((n =? 226) && (n1 =? 128)
      && (((128 <=? n2) && (n2 <=? 138)) || (n2 =? 168) || (n2 =? 169) || (n2 =? 175)))%nat
  || ((n =? 226) && (n1 =? 129) && (n2 =? 159))%nat
  || ((n =? 227) && (n1 =? 128) && (n2 =? 128))%nat
  || ((n =? 239) && (n1 =? 187) && (n2 =? 191))%nat.

Fixpoint skip_spaces (s : string) : string :=
  match s with
  | String c s1 =>
      if is_space c then skip_spaces s1
      else if space_lead c then
        match s1 with
        | String c1 s2 =>
            if space2 c c1 then skip_spaces s2
            else match s2 with
                 | String c2 s3 => if space3 c c1 c2 then skip_spaces s3 else s
                 | EmptyString => s
                 end
        | EmptyString => s
        end
      else s
  | EmptyString => s
  end.

(** Nothing but white space. *)
Definition is_blank (s : string) : bool := (skip_spaces s =? EmptyString)%string.

(** [s.trim()] *)
Fixpoint trim_end (s : string) : string :=
  match s with
  | EmptyString => EmptyString
  | String c s' => if is_blank s then EmptyString else String c (trim_end s')
  end.

Definition trim (s : string) : string := trim_end (skip_spaces s).

(** Unsigned decimal literal at the head of [s]: digits, then optionally a
    point and more digits.  At least one digit is needed. *)
Definition read_decimal (s : string) : number :=
  let '(ip, ci, rest) := read_digits s 0 O in
  let '(fp, cf, _) :=
    match rest with
    | String "." rest' => read_digits rest' 0 O
    | _ => (0, O, rest)
    end in
  match ci, cf with
  | O, O => NaN
  | _, _ => Fin (inject_Z ip + inject_Z fp / inject_Z (10 ^ Z.of_nat cf))
  end.

(** [parseFloat]: leading white space is skipped and the longest prefix that
    is a decimal literal is read; NaN when there is none.  Exponents and the
    literal [Infinity] do not occur in what this program parses and are not
    read. *)
Definition parseFloat (s : string) : number :=
  match skip_spaces s with
  | String "-" s' =>
      match read_decimal s' with
      | Fin q => Fin (- q)
      | other => other
      end
  | String "+" s' => read_decimal s'
  | s' => read_decimal s'
  end.

(** *** Array.prototype.sort *)

(** The sort is stable; with a consistent comparator every stable sort
    yields the same array.  [cmp a b > 0] means that [a] goes after [b]. *)
Section Sort.

Context {A : Type} (cmp : A -> A -> Z).

Fixpoint insert_sorted (x : A) (l : list A) : list A :=
  match l with
  | [] => [x]
  | y :: l' => if 0 <? cmp x y then y :: insert_sorted x l' else x :: l
  end.

Definition sort (l : list A) : list A :=
  fold_right insert_sorted [] l.

End Sort.

End Runtime.

Import Runtime.

Local Open Scope string_scope.
Local Open Scope Z_scope.

(** ** Formatter helpers *)

(** [formatUptime(seconds)] for an integral number of seconds below 2^53,
    where a double holds every integer: [%] is the remainder with the sign
    of the dividend, [Z.rem], and [Math.floor(a / b)] is the integer
    quotient [a / b] (the double quotient lies closer to the true quotient
    than the true quotient to the next integer). *)
Definition formatUptime (seconds : Z) : string :=
  let days := seconds / 86400 in
  let hours := Z.rem seconds 86400 / 3600 in
  let minutes := Z.rem seconds 3600 / 60 in
  if days >? 0 then
    Z_to_string days ++ "d " ++ Z_to_string hours ++ "h " ++ Z_to_string minutes ++ "m"
  else if hours >? 0 then
    Z_to_string hours ++ "h " ++ Z_to_string minutes ++ "m"
  else
    Z_to_string minutes ++ "m".

Definition sizes : list string := ["B"; "KB"; "MB"; "GB"; "TB"].

(** [Math.log(bytes) / Math.log(k)] *)
Definition log_ratio (bytes : Z) : number :=
  value (fdiv (Math_log (of_Z bytes)) (Math_log (of_Z 1024))).

(** [sizes[i]] and [`${sizes[i]}`] *)
Definition size_at (i : Z) : option string :=
  if i <? 0 then None else nth_error sizes (Z.to_nat i).

Definition size_text (i : Z) : string :=
  match size_at i with Some unit => unit | None => "undefined" end.

(** [Math.pow(k, i)], a power of two. *)
Definition pow_k (i : Z) : Q :=
  if i <? 0 then (1 / inject_Z (1024 ^ (- i)))%Q else inject_Z (1024 ^ i).

(** [formatBytes(bytes)] for an integral byte count below 2^53 in size.
    The index comes from the quotient of two logarithms, computed on
    doubles, and [Math.floor] of it is [Qfloor] of its exact value; the
    division of [bytes] by a power of two is exact.  For a negative count
    [Math.log] is NaN, which propagates to the index, the quotient and the
    text: NaN, a space, and the missing array element; so does the infinite
    index of an infinite count.  An index outside [sizes] prints as
    [undefined]. *)
Definition formatBytes (bytes : Z) : string :=
  if bytes =? 0 then "0 B"
  else
    match log_ratio bytes with
    | Fin q =>
        let i := Qfloor q in
        number_to_string (parseFloat (toFixed (inject_Z bytes / pow_k i) 2))
          ++ " " ++ size_text i
    | _ => "NaN undefined"
    end.

(** ** Data model *)

(** JavaScript errors: [name] and [message]. *)
Record error : Type := mkError { error_name : string; message : string }.

Definition Error (msg : string) : error := mkError "Error" msg.
Definition SyntaxError (msg : string) : error := mkError "SyntaxError" msg.
Definition TypeError (msg : string) : error := mkError "TypeError" msg.

(** What V8 reports when property [p] is read on [undefined]. *)
Definition undefined_read (p : string) : error :=
  TypeError ("Cannot read properties of undefined (reading '" ++ p ++ "')").

(** Response objects.  A field is a value of the type the backend gives it,
    or absent ([undefined]): [option].  The fields that identify an entry
    (a node's [node], a storage's [storage], a guest's [vmid]) are always
    there.  Counts are integers, the CPU load is a fraction. *)

(** [`${o}`] *)
Definition show (o : option string) : string :=
  match o with Some s => s | None => "undefined" end.

Definition truthyS (o : option string) : bool :=
  match o with Some s => negb (s =? EmptyString)%string | None => false end.

Definition truthyZ (o : option Z) : bool :=
  match o with Some z => negb (z =? 0)%Z | None => false end.

(** [o === s] *)
Definition strict_eq (o : option string) (s : string) : bool :=
  match o with Some s' => (s' =? s)%string | None => false end.

(** [v || 0] *)
Definition orZ (o : option Z) : Z := match o with Some z => z | None => 0%Z end.
Definition orQ (o : option Q) : double :=
  match o with
  | Some q => if falsy (of_Q q) then of_Z 0 else of_Q q
  | None => of_Z 0
  end.

Definition toUpperCase (s : string) : string :=
  let up (c : ascii) :=
    let n := nat_of_ascii c in
    if (97 <=? n)%nat && (n <=? 122)%nat then ascii_of_nat (n - 32) else c in
  string_of_list_ascii (map up (list_ascii_of_string s)).

Record Node : Type := mkNode {
  node_name : string;              (* node.node *)
  node_status : option string;
  node_uptime : option Z;
  node_cpu : option Q;
  node_maxcpu : option Z;
  node_mem : option Z;
  node_maxmem : option Z;
  node_loadavg : option (list Q)
}.

Record Guest : Type := mkGuest {
  vmid : Z;                        (* a number or its decimal text *)
  vm_name : option string;
  vm_status : option string;
  vm_type : option string;
  vm_node : option string;
  vm_uptime : option Z;
  vm_cpu : option Q;
  vm_mem : option Z;
  vm_maxmem : option Z;
  vm_diskread : option Z;
  vm_diskwrite : option Z;
  vm_netin : option Z;
  vm_netout : option Z
}.

Record Storage : Type := mkStorage {
  storage_name : string;           (* storage.storage *)
  storage_node : option string;
  storage_type : option string;
  storage_content : option string;
  storage_enabled : option Z;
  storage_used : option Z;
  storage_total : option Z
}.

Record Usage : Type := mkUsage { used : Z; total : Z }.

Record NodeStatus : Type := mkNodeStatus {
  ns_uptime : option Z;
  ns_loadavg : option (list string);
  ns_cpu : option Q;
  ns_memory : option Usage;
  ns_rootfs : option Usage
}.

(** The [data] member of a parsed response, seen through the shape of the
    endpoint that was asked: a list endpoint answers with its kind of list,
    an object endpoint with its kind of object, an execution endpoint with
    an object holding [pid] or with text, and [NoData] stands for a response
    without [data].  An array is taken to hold the kind of object its
    endpoint lists. *)
Inductive data : Type :=
| NoData
| Nodes (l : list Node)
| Guests (l : list Guest)
| GuestCurrent (g : Guest)
| NodeStatusData (s : NodeStatus)
| Storages (l : list Storage)
| ExecPid (pid : option Z)
| Text (s : string).

(** Result payload. *)
Record ContentItem : Type := mkItem { type : string; text : string }.
Record ToolResult : Type := mkResult { content : list ContentItem }.

Definition text_result (s : string) : ToolResult :=
  {| content := [ {| type := "text"; text := s |} ] |}.

(** Arguments of a tool call. *)
Record Arguments : Type := mkArgs {
  arg_node : option string;
  arg_vmid : option string;
  arg_type : option string;
  arg_command : option string
}.

(** Connection configuration, read from the environment in the constructor. *)
Record Config : Type := mkConfig {
  proxmoxHost : string;
  proxmoxUser : string;
  proxmoxTokenName : string;
  proxmoxTokenValue : option string;
  proxmoxPort : string;
  allowElevated : bool
}.

(** ** HTTP interactions *)

(** The [options] of one [fetch] call; [body] holds the command of the
    object that [JSON.stringify] serialises. *)
Record request : Type := mkRequest {
  url : string;
  method : string;
  headers : list (string * string);
  body : option (option string)
}.

Inductive fetch_result : Type :=
| NetworkFailure (e : error)
| Response (status : Z) (body_text : string).

(** An asynchronous computation: it returns, throws, or awaits one [fetch]
    and goes on with its outcome. *)
Inductive proc (A : Type) : Type :=
| Ret (a : A)
| Throw (e : error)
| Fetch (r : request) (k : fetch_result -> proc A).

Arguments Ret {A} a.
Arguments Throw {A} e.
Arguments Fetch {A} r k.

Fixpoint bind {A B : Type} (p : proc A) (f : A -> proc B) : proc B :=
  match p with
  | Ret a => f a
  | Throw e => Throw e
  | Fetch r k => Fetch r (fun x => bind (k x) f)
  end.

(** [try { p } catch (error) { h error }] *)
Fixpoint try_catch {A : Type} (p : proc A) (h : error -> proc A) : proc A :=
  match p with
  | Ret a => Ret a
  | Throw e => h e
  | Fetch r k => Fetch r (fun x => try_catch (k x) h)
  end.

Notation "x <- p ;; q" := (bind p (fun x => q))
  (at level 61, p at next level, right associativity).

(** [for (const x of l) { body }] with loop state [s]. *)
Fixpoint for_each {A S : Type} (l : list A) (s : S) (body : A -> S -> proc S) : proc S :=
  match l with
  | [] => Ret s
  | x :: l' => s' <- body x s ;; for_each l' s' body
  end.

(** Running a computation against a backend.  The backend answers a request
    knowing the requests made before it.  The outcome comes with the log of
    the requests made, oldest first. *)
Definition backend : Type := list request -> request -> fetch_result.

Inductive outcome (A : Type) : Type :=
| Returned (a : A)
| Thrown (e : error).

Arguments Returned {A} a.
Arguments Thrown {A} e.

Fixpoint run {A : Type} (b : backend) (log : list request) (p : proc A)
  : outcome A * list request :=
  match p with
  | Ret a => (Returned a, log)
  | Throw e => (Thrown e, log)
  | Fetch r k => run b (log ++ [r])%list (k (b log r))
  end.

Definition calls {A : Type} (b : backend) (p : proc A) : list request :=
  snd (run b [] p).

Definition result {A : Type} (b : backend) (p : proc A) : outcome A :=
  fst (run b [] p).

(** [o ? f(o) : d] for a numeric field [o]. *)
Definition whenZ {A : Type} (o : option Z) (f : Z -> A) (d : A) : A :=
  match o with Some z => if z =? 0 then d else f z | None => d end.

Definition whenQ {A : Type} (o : option Q) (f : double -> A) (d : A) : A :=
  match o with Some q => if falsy (of_Q q) then d else f (of_Q q) | None => d end.

(** [a && b ? f(a, b) : d] for two numeric fields. *)
Definition whenZ2 {A : Type} (a b : option Z) (f : Z -> Z -> A) (d : A) : A :=
  whenZ a (fun x => whenZ b (fun y => f x y) d) d.

(** [((a / b) * 100).toFixed(1)] *)
Definition percent (a b : double) : string :=
  double_toFixed (fmul (fdiv a b) (of_Z 100)) 1.

(** [`${(cpu * 100).toFixed(1)}%`] *)
Definition cpu_text (cpu : double) : string :=
  double_toFixed (fmul cpu (of_Z 100)) 1 ++ "%".

(** ** The server *)

Section Server.

(** [JSON.parse(textResponse)] followed by the read of [.data]: the error
    thrown (a SyntaxError when the text is not JSON), or the data. *)
Variable JSON_parse : string -> error + data.

(** [a.localeCompare(b)]: negative, zero or positive. *)
Variable localeCompare : string -> string -> Z.

Variable this : Config.

(** *** proxmoxRequest *)

Definition ok (status : Z) : bool := (200 <=? status) && (status <=? 299).

(** The [options] handed to [fetch], with the URL. *)
Definition fetch_options (endpoint : string) (method : string)
    (body : option (option string)) : request :=
  let baseUrl := "https://" ++ proxmoxHost this ++ ":" ++ proxmoxPort this ++ "/api2/json" in
  let url := baseUrl ++ endpoint in
  let headers :=
    [ ("Authorization",
       "PVEAPIToken=" ++ proxmoxUser this ++ "!" ++ proxmoxTokenName this
         ++ "=" ++ show (proxmoxTokenValue this));
      ("Content-Type", "application/json") ] in
  {| url := url; method := method; headers := headers; body := body |}.

Definition proxmoxRequest (endpoint : string) (method : string)
    (body : option (option string)) : proc data :=
  let options := fetch_options endpoint method body in
  try_catch
    (Fetch options (fun response =>
       match response with
       | NetworkFailure e => Throw e
       | Response status textResponse =>
           if negb (ok status) then
             Throw (Error ("Proxmox API error: " ++ Z_to_string status ++ " - " ++ textResponse))
           else if is_blank textResponse then
             Throw (Error "Empty response from Proxmox API")
           else
             match JSON_parse textResponse with
             | inl e => Throw e
             | inr d => Ret d
             end
       end))
    (fun error =>
       if (error_name error =? "SyntaxError")%string then
         Throw (Error ("Failed to parse Proxmox API response: " ++ message error))
       else
         Throw (Error ("Failed to connect to Proxmox: " ++ message error))).

Definition GET (endpoint : string) : proc data := proxmoxRequest endpoint "GET" None.

(** What becomes of an answer that is used as a list.  The program does
    not check the shape of what it gets, so a shape it does not expect fails
    where the first operation on it fails, with the message of V8. *)
Definition not_iterable (x : string) : error := TypeError (x ++ " is not iterable").

Definition not_a_function (x : string) : error := TypeError (x ++ " is not a function").

(** The characters of a text: the bytes that do not continue a character. *)
Fixpoint code_points (s : string) : nat :=
  match s with
  | EmptyString => O
  | String c s' =>
      let n := nat_of_ascii c in
      if (128 <=? n)%nat && (n <? 192)%nat then code_points s' else S (code_points s')
  end.

(** What reading the properties of a character gives: every field is
    undefined, and [`${node.node}`] is the text "undefined". *)
Definition undefined_node : Node :=
  mkNode "undefined" None None None None None None None.

(** [for (const node of nodes)]: a text is iterated character by character;
    [undefined] and an object are not iterable. *)
Definition iterate_nodes (d : data) : proc (list Node) :=
  match d with
  | Nodes l => Ret l
  | Text s => Ret (repeat undefined_node (code_points s))
  | _ => Throw (not_iterable "nodes")
  end.

(** [nodes.filter(...)] *)
Definition array_nodes (d : data) : proc (list Node) :=
  match d with
  | Nodes l => Ret l
  | NoData => Throw (undefined_read "filter")
  | _ => Throw (not_a_function "nodes.filter")
  end.

(** [x.map(...)] for the variable named [x]. *)
Definition expect_guests (x : string) (d : data) : proc (list Guest) :=
  match d with
  | Guests l => Ret l
  | NoData => Throw (undefined_read "map")
  | _ => Throw (not_a_function (x ++ ".map"))
  end.

Definition expect_storages (x : string) (d : data) : proc (list Storage) :=
  match d with
  | Storages l => Ret l
  | NoData => Throw (undefined_read "map")
  | _ => Throw (not_a_function (x ++ ".map"))
  end.

(** *** getNodes *)

Definition node_uptime_text (node : Node) : string :=
  whenZ (node_uptime node) formatUptime "N/A".

Definition node_cpuUsage (node : Node) : string :=
  whenQ (node_cpu node) cpu_text "N/A".

Definition node_memUsage (node : Node) : string :=
  whenZ2 (node_mem node) (node_maxmem node)
    (fun mem maxmem =>
       formatBytes mem ++ " / " ++ formatBytes maxmem
         ++ " (" ++ percent (of_Z mem) (of_Z maxmem) ++ "%)")
    "N/A".

Definition node_load (node : Node) : string :=
  match node_loadavg node with
  | Some (x :: _) => double_toFixed (of_Q x) 2
  | _ => "N/A"
  end.

(** What one iteration of the loop of [getNodes] appends. *)
Definition node_block (node : Node) : string :=
  let status := if strict_eq (node_status node) "online" then "🟢" else "🔴" in
  status ++ " **" ++ node_name node ++ "**" ++ nl
    ++ "   • Status: " ++ show (node_status node) ++ nl
    ++ "   • Uptime: " ++ node_uptime_text node ++ nl
    ++ "   • CPU: " ++ node_cpuUsage node ++ nl
    ++ "   • Memory: " ++ node_memUsage node ++ nl
    ++ "   • Load: " ++ node_load node ++ nl ++ nl.

Definition getNodes : proc ToolResult :=
  d <- GET "/nodes" ;;
  nodes <- iterate_nodes d ;;
  let output := "🖥️  **Proxmox Cluster Nodes**" ++ nl ++ nl in
  Ret (text_result (fold_left (fun out node => out ++ node_block node) nodes output)).

(** *** getNodeStatus *)

Definition elevated_node_status_text : string :=
  "⚠️  **Node Status Requires Elevated Permissions**" ++ nl ++ nl
    ++ "To view detailed node status, set `PROXMOX_ALLOW_ELEVATED=true` in your .env file and ensure your API token has Sys.Audit permissions."
    ++ nl ++ nl ++ "**Current permissions**: Basic (node listing only)".

Definition usage_text (u : option Usage) : string :=
  match u with
  | Some u =>
      formatBytes (used u) ++ " / " ++ formatBytes (total u)
        ++ " (" ++ percent (of_Z (used u)) (of_Z (total u)) ++ "%)"
  | None => "N/A"
  end.

(** [status.loadavg?.join(', ') || 'N/A'] *)
Definition loadavg_text (l : option (list string)) : string :=
  match l with
  | Some l => let joined := String.concat ", " l in
              if (joined =? EmptyString)%string then "N/A" else joined
  | None => "N/A"
  end.

Definition node_status_text (node : option string) (status : NodeStatus) : string :=
  "🖥️  **Node " ++ show node ++ " Status**" ++ nl ++ nl
    ++ "• **Status**: " ++ whenZ (ns_uptime status) (fun _ => "🟢 Online") "🔴 Offline" ++ nl
    ++ "• **Uptime**: " ++ whenZ (ns_uptime status) formatUptime "N/A" ++ nl
    ++ "• **Load Average**: " ++ loadavg_text (ns_loadavg status) ++ nl
    ++ "• **CPU Usage**: "
    ++ whenQ (ns_cpu status) cpu_text "N/A" ++ nl
    ++ "• **Memory**: " ++ usage_text (ns_memory status) ++ nl
    ++ "• **Root Disk**: " ++ usage_text (ns_rootfs status) ++ nl.

Definition no_node_status : NodeStatus := mkNodeStatus None None None None None.

Definition getNodeStatus (node : option string) : proc ToolResult :=
  if negb (allowElevated this) then
    Ret (text_result elevated_node_status_text)
  else
    d <- GET ("/nodes/" ++ show node ++ "/status") ;;
    match d with
    | NoData => Throw (undefined_read "uptime")
    | NodeStatusData status => Ret (text_result (node_status_text node status))
    | _ => Ret (text_result (node_status_text node no_node_status))
    end.

(** *** getVMs *)

(** [{ ...vm, type: ty, node: n }] *)
Definition tag (ty : string) (n : option string) (vm : Guest) : Guest :=
  mkGuest (vmid vm) (vm_name vm) (vm_status vm) (Some ty) n
    (vm_uptime vm) (vm_cpu vm) (vm_mem vm) (vm_maxmem vm)
    (vm_diskread vm) (vm_diskwrite vm) (vm_netin vm) (vm_netout vm).

Definition status_glyph (status : option string) : string :=
  if strict_eq status "running" then "🟢"
  else if strict_eq status "stopped" then "🔴" else "🟡".

Definition vm_uptime_text (vm : Guest) : string :=
  whenZ (vm_uptime vm) formatUptime "N/A".

Definition vm_cpuUsage (vm : Guest) : string :=
  whenQ (vm_cpu vm) cpu_text "N/A".

Definition vm_memUsage (vm : Guest) : string :=
  whenZ2 (vm_mem vm) (vm_maxmem vm)
    (fun mem maxmem => formatBytes mem ++ " / " ++ formatBytes maxmem) "N/A".

(** What one iteration of the output loop of [getVMs] appends. *)
Definition vm_block (vm : Guest) : string :=
  let typeIcon := if strict_eq (vm_type vm) "qemu" then "🖥️" else "📦" in
  status_glyph (vm_status vm) ++ " " ++ typeIcon ++ " **"
    ++ (if truthyS (vm_name vm) then show (vm_name vm) else "VM-" ++ Z_to_string (vmid vm))
    ++ "** (ID: " ++ Z_to_string (vmid vm) ++ ")" ++ nl
    ++ "   • Node: " ++ show (vm_node vm) ++ nl
    ++ "   • Status: " ++ show (vm_status vm) ++ nl
    ++ "   • Type: " ++ toUpperCase (show (vm_type vm)) ++ nl
    ++ (if strict_eq (vm_status vm) "running" then
          "   • Uptime: " ++ vm_uptime_text vm ++ nl
            ++ "   • CPU: " ++ vm_cpuUsage vm ++ nl
            ++ "   • Memory: " ++ vm_memUsage vm ++ nl
        else EmptyString)
    ++ nl.

Definition vms_text (vms : list Guest) : string :=
  let output := "💻 **Virtual Machines**" ++ nl ++ nl in
  match vms with
  | [] => output ++ "No virtual machines found." ++ nl
  | _ =>
      fold_left (fun out vm => out ++ vm_block vm)
        (sort (fun a b => vmid a - vmid b) vms) output
  end.

Definition getVMs (nodeFilter typeFilter : option string) : proc ToolResult :=
  let typeFilter := match typeFilter with Some t => t | None => "all" end in
  let wants (ty : string) := ((typeFilter =? "all") || (typeFilter =? ty))%string in
  vms <-
    (if truthyS nodeFilter then
       d1 <- GET ("/nodes/" ++ show nodeFilter ++ "/qemu") ;;
       d2 <- GET ("/nodes/" ++ show nodeFilter ++ "/lxc") ;;
       vms1 <-
         (if wants "qemu" then
            nodeVMs <- expect_guests "nodeVMs" d1 ;;
            Ret (map (tag "qemu" nodeFilter) nodeVMs)
          else Ret []) ;;
       (if wants "lxc" then
          nodeLXCs <- expect_guests "nodeLXCs" d2 ;;
          Ret (vms1 ++ map (tag "lxc" nodeFilter) nodeLXCs)%list
        else Ret vms1)
     else
       d <- GET "/nodes" ;;
       nodes <- iterate_nodes d ;;
       for_each nodes [] (fun node vms =>
         vms1 <-
           (if wants "qemu" then
              d1 <- GET ("/nodes/" ++ node_name node ++ "/qemu") ;;
              nodeVMs <- expect_guests "nodeVMs" d1 ;;
              Ret (vms ++ map (tag "qemu" (Some (node_name node))) nodeVMs)%list
            else Ret vms) ;;
         (if wants "lxc" then
            d2 <- GET ("/nodes/" ++ node_name node ++ "/lxc") ;;
            nodeLXCs <- expect_guests "nodeLXCs" d2 ;;
            Ret (vms1 ++ map (fun vm =>
                   tag "lxc" (if truthyS (vm_node vm) then vm_node vm
                              else Some (node_name node)) vm) nodeLXCs)%list
          else Ret vms1))) ;;
  Ret (text_result (vms_text vms)).

(** *** getVMStatus *)

Definition no_guest : Guest :=
  mkGuest 0 None None None None None None None None None None None None.

Definition vm_status_text (node vmid : option string) (type : string) (vmStatus : Guest)
  : string :=
  let typeIcon := if (type =? "qemu")%string then "🖥️" else "📦" in
  status_glyph (vm_status vmStatus) ++ " " ++ typeIcon ++ " **"
    ++ (if truthyS (vm_name vmStatus) then show (vm_name vmStatus) else "VM-" ++ show vmid)
    ++ "** (ID: " ++ show vmid ++ ")" ++ nl ++ nl
    ++ "• **Node**: " ++ show node ++ nl
    ++ "• **Status**: " ++ show (vm_status vmStatus) ++ nl
    ++ "• **Type**: " ++ toUpperCase type ++ nl
    ++ (if strict_eq (vm_status vmStatus) "running" then
          "• **Uptime**: " ++ whenZ (vm_uptime vmStatus) formatUptime "N/A" ++ nl
            ++ "• **CPU Usage**: "
            ++ whenQ (vm_cpu vmStatus) cpu_text "N/A" ++ nl
            ++ "• **Memory**: "
            ++ whenZ2 (vm_mem vmStatus) (vm_maxmem vmStatus)
                 (fun mem maxmem =>
                    formatBytes mem ++ " / " ++ formatBytes maxmem
                      ++ " (" ++ percent (of_Z mem) (of_Z maxmem) ++ "%)")
                 "N/A" ++ nl
            ++ "• **Disk Read**: " ++ whenZ (vm_diskread vmStatus) formatBytes "N/A" ++ nl
            ++ "• **Disk Write**: " ++ whenZ (vm_diskwrite vmStatus) formatBytes "N/A" ++ nl
            ++ "• **Network In**: " ++ whenZ (vm_netin vmStatus) formatBytes "N/A" ++ nl
            ++ "• **Network Out**: " ++ whenZ (vm_netout vmStatus) formatBytes "N/A" ++ nl
        else EmptyString).

Definition getVMStatus (node vmid type : option string) : proc ToolResult :=
  let type := match type with Some t => t | None => "qemu" end in
  d <- GET ("/nodes/" ++ show node ++ "/" ++ type ++ "/" ++ show vmid ++ "/status/current") ;;
  match d with
  | NoData => Throw (undefined_read "status")
  | GuestCurrent vmStatus => Ret (text_result (vm_status_text node vmid type vmStatus))
  | _ => Ret (text_result (vm_status_text node vmid type no_guest))
  end.

(** *** executeVMCommand *)

Definition elevated_exec_text (command : option string) : string :=
  "⚠️  **VM Command Execution Requires Elevated Permissions**" ++ nl ++ nl
    ++ "To execute commands on VMs, set `PROXMOX_ALLOW_ELEVATED=true` in your .env file and ensure your API token has appropriate VM permissions."
    ++ nl ++ nl ++ "**Current permissions**: Basic (VM listing only)" ++ nl
    ++ "**Requested command**: `" ++ show command ++ "`".

(** [String(x)] of an array of objects. *)
Definition objects_to_string {A : Type} (l : list A) : string :=
  String.concat "," (map (fun _ => "[object Object]") l).

(** [result || 'Command executed successfully'], as text *)
Definition lxc_output (result : data) : string :=
  match result with
  | NoData => "Command executed successfully"
  | Text s => if (s =? EmptyString)%string then "Command executed successfully" else s
  | Nodes l => objects_to_string l
  | Guests l => objects_to_string l
  | Storages l => objects_to_string l
  | _ => "[object Object]"
  end.

Definition executeVMCommand (node vmid command type : option string) : proc ToolResult :=
  let type := match type with Some t => t | None => "qemu" end in
  if negb (allowElevated this) then
    Ret (text_result (elevated_exec_text command))
  else
    try_catch
      (if (type =? "qemu")%string then
         result <- proxmoxRequest
                     ("/nodes/" ++ show node ++ "/qemu/" ++ show vmid ++ "/agent/exec")
                     "POST" (Some command) ;;
         pid <- match result with
                | NoData => Throw (undefined_read "pid")
                | ExecPid pid => Ret (whenZ pid Z_to_string "N/A")
                | _ => Ret "N/A"
                end ;;
         Ret (text_result
                ("💻 **Command executed on VM " ++ show vmid ++ "**" ++ nl ++ nl
                   ++ "**Command**: `" ++ show command ++ "`" ++ nl
                   ++ "**Result**: Command submitted to guest agent" ++ nl
                   ++ "**PID**: " ++ pid ++ nl ++ nl
                   ++ "*Note: Use guest agent status to check command completion*"))
       else
         result <- proxmoxRequest
                     ("/nodes/" ++ show node ++ "/lxc/" ++ show vmid ++ "/exec")
                     "POST" (Some command) ;;
         Ret (text_result
                ("📦 **Command executed on LXC " ++ show vmid ++ "**" ++ nl ++ nl
                   ++ "**Command**: `" ++ show command ++ "`" ++ nl
                   ++ "**Output**:" ++ nl ++ "```" ++ nl ++ lxc_output result ++ nl ++ "```")))
      (fun error =>
         Ret (text_result
                ("❌ **Failed to execute command on VM " ++ show vmid ++ "**" ++ nl ++ nl
                   ++ "Error: " ++ message error ++ nl ++ nl
                   ++ "*Note: Make sure the VM has guest agent installed and running*"))).

(** *** getStorage *)

(** [{ ...storage, node: n }] *)
Definition on_node (n : option string) (storage : Storage) : Storage :=
  mkStorage (storage_name storage) n (storage_type storage) (storage_content storage)
    (storage_enabled storage) (storage_used storage) (storage_total storage).

Definition storage_key (storage : Storage) : string :=
  storage_name storage ++ "-" ++ show (storage_node storage).

Definition has (seen : list string) (key : string) : bool :=
  existsb (String.eqb key) seen.

(** The deduplication loop; the state is ([seen], [uniqueStorages]). *)
Definition unique_step (st : list string * list Storage) (storage : Storage)
  : list string * list Storage :=
  let '(seen, uniqueStorages) := st in
  let key := storage_key storage in
  if negb (has seen key) then (key :: seen, (uniqueStorages ++ [storage])%list)
  else (seen, uniqueStorages).

Definition uniqueStorages (storages : list Storage) : list Storage :=
  snd (fold_left unique_step storages ([], [])).

Definition storage_usagePercent (storage : Storage) : string :=
  whenZ2 (storage_total storage) (storage_used storage)
    (fun total used => percent (of_Z used) (of_Z total)) "N/A".

(** What one iteration of the output loop of [getStorage] appends. *)
Definition storage_block (storage : Storage) : string :=
  let enabled := if truthyZ (storage_enabled storage) then "🟢" else "🔴" in
  enabled ++ " **" ++ storage_name storage ++ "**" ++ nl
    ++ "   • Node: " ++ show (storage_node storage) ++ nl
    ++ "   • Type: "
    ++ (if truthyS (storage_type storage) then show (storage_type storage) else "N/A") ++ nl
    ++ "   • Content: "
    ++ (if truthyS (storage_content storage) then show (storage_content storage) else "N/A")
    ++ nl
    ++ whenZ2 (storage_total storage) (storage_used storage)
         (fun total used =>
            "   • Usage: " ++ formatBytes used ++ " / " ++ formatBytes total
              ++ " (" ++ storage_usagePercent storage ++ "%)" ++ nl)
         EmptyString
    ++ "   • Status: "
    ++ (if truthyZ (storage_enabled storage) then "Enabled" else "Disabled") ++ nl ++ nl.

(** The entries that are formatted, in output order. *)
Definition listed_storages (storages : list Storage) : list Storage :=
  sort (fun a b => localeCompare (storage_name a) (storage_name b))
    (uniqueStorages storages).

Definition storages_text (storages : list Storage) : string :=
  let output := "💾 **Storage Pools**" ++ nl ++ nl in
  match storages with
  | [] => output ++ "No storage found." ++ nl
  | _ => fold_left (fun out storage => out ++ storage_block storage)
           (listed_storages storages) output
  end.

(** The gathering phase of [getStorage]. *)
Definition gather_storages (nodeFilter : option string) : proc (list Storage) :=
  if truthyS nodeFilter then
    d <- GET ("/nodes/" ++ show nodeFilter ++ "/storage") ;;
    storages <- expect_storages "storages" d ;;
    Ret (map (on_node nodeFilter) storages)
  else
    d <- GET "/nodes" ;;
    nodes <- iterate_nodes d ;;
    for_each nodes [] (fun node storages =>
      d <- GET ("/nodes/" ++ node_name node ++ "/storage") ;;
      nodeStorages <- expect_storages "nodeStorages" d ;;
      Ret (storages ++ map (on_node (Some (node_name node))) nodeStorages)%list).

Definition getStorage (nodeFilter : option string) : proc ToolResult :=
  storages <- gather_storages nodeFilter ;;
  Ret (text_result (storages_text storages)).

(** *** getClusterStatus *)

Definition online (n : Node) : bool := strict_eq (node_status n) "online".

(** The accumulators of the resource loop:
    ([totalCpu], [usedCpu], [totalMem], [usedMem]). *)
Definition resource_step (acc : Z * double * Z * Z) (node : Node)
  : Z * double * Z * Z :=
  let '(totalCpu, usedCpu, totalMem, usedMem) := acc in
  if online node then
    (totalCpu + orZ (node_maxcpu node),
     fadd usedCpu (fmul (orQ (node_cpu node)) (of_Z (orZ (node_maxcpu node)))),
     totalMem + orZ (node_maxmem node),
     usedMem + orZ (node_mem node))
  else acc.

Definition resources (nodes : list Node) : Z * double * Z * Z :=
  fold_left resource_step nodes (0, of_Z 0, 0, 0).

Definition cpuPercent (nodes : list Node) : string :=
  let '(totalCpu, usedCpu, _, _) := resources nodes in
  if totalCpu >? 0 then percent usedCpu (of_Z totalCpu) else "N/A".

Definition memPercent (nodes : list Node) : string :=
  let '(_, _, totalMem, usedMem) := resources nodes in
  if totalMem >? 0 then percent (of_Z usedMem) (of_Z totalMem) else "N/A".

Definition resource_usage_text (nodes : list Node) : string :=
  let '(totalCpu, usedCpu, totalMem, usedMem) := resources nodes in
  "**Resource Usage**:" ++ nl
    ++ "• CPU: " ++ cpuPercent nodes ++ "% (" ++ double_toFixed usedCpu 1 ++ "/"
    ++ Z_to_string totalCpu ++ " cores)" ++ nl
    ++ "• Memory: " ++ memPercent nodes ++ "% (" ++ formatBytes usedMem ++ "/"
    ++ formatBytes totalMem ++ ")" ++ nl ++ nl.

Definition cluster_text (nodes : list Node) : string :=
  let onlineNodes := Z.of_nat (List.length (filter online nodes)) in
  let totalNodes := Z.of_nat (List.length nodes) in
  "🏗️  **Proxmox Cluster Status**" ++ nl ++ nl
    ++ "**Cluster Health**: "
    ++ (if onlineNodes =? totalNodes then "🟢 Healthy" else "🟡 Warning") ++ nl
    ++ "**Nodes**: " ++ Z_to_string onlineNodes ++ "/" ++ Z_to_string totalNodes
    ++ " online" ++ nl ++ nl
    ++ (if allowElevated this then resource_usage_text nodes
        else "⚠️  **Limited Information**: Resource usage requires elevated permissions"
               ++ nl ++ nl)
    ++ fold_left
         (fun out node =>
            out ++ (if online node then "🟢" else "🔴") ++ " " ++ node_name node
              ++ " - " ++ show (node_status node) ++ nl)
         (sort (fun a b => localeCompare (node_name a) (node_name b)) nodes)
         ("**Node Details**:" ++ nl).

Definition getClusterStatus : proc ToolResult :=
  try_catch
    (d <- GET "/nodes" ;;
     _ <- (if allowElevated this then
             try_catch (clusterStatus <- GET "/cluster/status" ;; Ret tt)
               (fun error => Ret tt)
           else Ret tt) ;;
     nodes <- array_nodes d ;;
     Ret (text_result (cluster_text nodes)))
    (fun error =>
       Ret (text_result
              ("❌ **Failed to get cluster status**" ++ nl ++ nl
                 ++ "Error: " ++ message error))).

(** *** The catalog (the ListTools handler of setupToolHandlers) *)

Record Property : Type := mkProperty {
  prop_name : string;
  prop_type : string;
  prop_enum : list string;
  prop_default : option string
}.

Record Tool : Type := mkTool {
  tool_name : string;
  description : string;
  properties : list Property;
  required : list string
}.

Definition string_prop (name : string) : Property := mkProperty name "string" [] None.

Definition tools : list Tool :=
  [ mkTool "proxmox_get_nodes"
      "List all Proxmox cluster nodes with their status and resources" [] [];
    mkTool "proxmox_get_node_status"
      "Get detailed status information for a specific Proxmox node"
      [string_prop "node"] ["node"];
    mkTool "proxmox_get_vms"
      "List all virtual machines across the cluster with their status"
      [string_prop "node"; mkProperty "type" "string" ["qemu"; "lxc"; "all"] (Some "all")] [];
    mkTool "proxmox_get_vm_status"
      "Get detailed status information for a specific VM"
      [string_prop "node"; string_prop "vmid";
       mkProperty "type" "string" ["qemu"; "lxc"] (Some "qemu")]
      ["node"; "vmid"];
    mkTool "proxmox_execute_vm_command"
      "Execute a shell command on a virtual machine via Proxmox API"
      [string_prop "node"; string_prop "vmid"; string_prop "command";
       mkProperty "type" "string" ["qemu"; "lxc"] (Some "qemu")]
      ["node"; "vmid"; "command"];
    mkTool "proxmox_get_storage"
      "List all storage pools and their usage across the cluster"
      [string_prop "node"] [];
    mkTool "proxmox_get_cluster_status"
      "Get overall cluster status including nodes and resource usage" [] [] ].

(** *** The dispatcher (the CallTool handler of setupToolHandlers) *)

(** Reading a property of [args]: with no arguments object the first read,
    of [node], throws. *)
Definition with_args {A : Type} (args : option Arguments) (f : Arguments -> proc A)
  : proc A :=
  match args with
  | Some a => f a
  | None => Throw (undefined_read "node")
  end.

Definition CallTool (name : string) (args : option Arguments) : proc ToolResult :=
  try_catch
    (if (name =? "proxmox_get_nodes")%string then
       getNodes
     else if (name =? "proxmox_get_node_status")%string then
       with_args args (fun args => getNodeStatus (arg_node args))
     else if (name =? "proxmox_get_vms")%string then
       with_args args (fun args => getVMs (arg_node args) (arg_type args))
     else if (name =? "proxmox_get_vm_status")%string then
       with_args args (fun args =>
         getVMStatus (arg_node args) (arg_vmid args) (arg_type args))
     else if (name =? "proxmox_execute_vm_command")%string then
       with_args args (fun args =>
         executeVMCommand (arg_node args) (arg_vmid args) (arg_command args) (arg_type args))
     else if (name =? "proxmox_get_storage")%string then
       with_args args (fun args => getStorage (arg_node args))
     else if (name =? "proxmox_get_cluster_status")%string then
       getClusterStatus
     else
       Throw (Error ("Unknown tool: " ++ name)))
    (fun error => Ret (text_result ("Error: " ++ message error))).

End Server.

Arguments proxmoxRequest JSON_parse this endpoint method body : simpl never.

(** ** Start-up: the .env file and the constructor *)

(** *** String built-ins *)

(** [s.split(sep)] for a one-character separator. *)
Fixpoint split (sep : ascii) (s : string) : list string :=
  match s with
  | EmptyString => [EmptyString]
  | String c s' =>
      if Ascii.eqb c sep then EmptyString :: split sep s'
      else match split sep s' with
           | piece :: pieces => String c piece :: pieces
           | [] => [String c EmptyString]
           end
  end.

(** [s.includes(c)] for a one-character [c]. *)
Fixpoint includes (c : ascii) (s : string) : bool :=
  match s with
  | EmptyString => false
  | String c' s' => Ascii.eqb c' c || includes c s'
  end.

(** *** process.env *)

(** The environment: the latest assignment to a name comes first. *)
Definition Env : Type := list (string * string).

Fixpoint getenv (env : Env) (name : string) : option string :=
  match env with
  | [] => None
  | (k, v) :: env' => if (k =? name)%string then Some v else getenv env' name
  end.

Definition setenv (name value : string) (env : Env) : Env := (name, value) :: env.

Definition equals : ascii := "="%char.
Definition newline : ascii := ascii_of_nat 10.

(** One iteration of the loop over the lines that hold an equals sign. *)
Definition load_line (env : Env) (line : string) : Env :=
  match split equals line with
  | key :: values =>
      if negb (key =? EmptyString)%string && (0 <? Z.of_nat (List.length values)) then
        setenv (trim key) (trim (String.concat "=" values)) env
      else env
  | [] => env
  end.

(** The module-level block that loads the .env file; [None] stands for a
    file that cannot be read (the error is caught and only logged). *)
Definition load_env (envFile : option string) (env : Env) : Env :=
  match envFile with
  | Some envFile =>
      let envVars := filter (includes equals) (split newline envFile) in
      fold_left load_line envVars env
  | None => env
  end.

(** [process.env.NAME || fallback] *)
Definition env_or (env : Env) (name fallback : string) : string :=
  match getenv env name with
  | Some v => if (v =? EmptyString)%string then fallback else v
  | None => fallback
  end.

(** The fields the constructor of [ProxmoxServer] reads from the
    environment. *)
Definition constructor (env : Env) : Config :=
  {| proxmoxHost := env_or env "PROXMOX_HOST" "192.168.6.247";
     proxmoxUser := env_or env "PROXMOX_USER" "root@pam";
     proxmoxTokenName := env_or env "PROXMOX_TOKEN_NAME" "mcpserver";
     proxmoxTokenValue := getenv env "PROXMOX_TOKEN_VALUE";
     proxmoxPort := env_or env "PROXMOX_PORT" "8006";
     allowElevated :=
       match getenv env "PROXMOX_ALLOW_ELEVATED" with
       | Some v => (v =? "true")%string
       | None => false
       end |}.

(** The configuration the server starts with. *)
Definition startup (envFile : option string) (env : Env) : Config :=
  constructor (load_env envFile env).

(** ** Concrete instances used in examples *)

Module Example.

Definition config (elevated : bool) : Config :=
  mkConfig "192.168.6.247" "root@pam" "mcpserver" (Some "secret") "8006" elevated.

(** Code-unit order, one admissible [localeCompare]. *)
Definition compare (a b : string) : Z :=
  match String.compare a b with Lt => -1 | Eq => 0 | Gt => 1 end.

(** A parser that knows a few response texts by name. *)
Definition parse (table : list (string * data)) (s : string) : error + data :=
  match find (fun entry => (fst entry =? s)%string) table with
  | Some entry => inr (snd entry)
  | None => inl (SyntaxError "Unexpected token in JSON")
  end.

Definition no_args : Arguments := mkArgs None None None None.

(** A no-break space (U+00A0) and a byte order mark (U+FEFF), in UTF-8. *)
Definition nbsp : string :=
  String (ascii_of_nat 194) (String (ascii_of_nat 160) EmptyString).

Definition bom : string :=
  String (ascii_of_nat 239) (String (ascii_of_nat 187)
    (String (ascii_of_nat 191) EmptyString)).

(** A backend that answers every request with the same response. *)
Definition always (r : fetch_result) : backend := fun _ _ => r.

(** A node [pve1] with one virtual machine and one container. *)
Definition vm100 : Guest :=
  mkGuest 100 (Some "web") (Some "running") None None
    (Some 90061) (Some (1 # 4)) (Some 1073741824) (Some 2147483648) None None None None.

Definition ct200 : Guest :=
  mkGuest 200 (Some "db") (Some "stopped") None None None None None None None None None None.

Definition guests_table : list (string * data) :=
  [("nodes", Nodes [mkNode "pve1" (Some "online") None None None None None None]);
   ("qemu-list", Guests [vm100]); ("lxc-list", Guests [ct200])].

Definition guests_backend : backend := fun _ r =>
  if (url r =? "https://192.168.6.247:8006/api2/json/nodes")%string then
    Response 200 "nodes"
  else if (url r =? "https://192.168.6.247:8006/api2/json/nodes/pve1/qemu")%string then
    Response 200 "qemu-list"
  else if (url r =? "https://192.168.6.247:8006/api2/json/nodes/pve1/lxc")%string then
    Response 200 "lxc-list"
  else Response 404 "not found".

(** The two online nodes of the cluster-status scenario. *)
Definition nodeA : Node :=
  mkNode "pve1" (Some "online") None (Some (1 # 2)) (Some 2) (Some 500) (Some 1000) None.

Definition nodeB : Node :=
  mkNode "pve2" (Some "online") None (Some (1 # 4)) (Some 2) (Some 250) (Some 1000) None.

(** An online node that uses 23 of 80 bytes of memory. *)
Definition idle_node : Node :=
  mkNode "pve1" (Some "online") (Some 0) (Some 0%Q) None (Some 0) (Some 0) (Some [0%Q]).

Definition node23 : Node :=
  mkNode "pve1" (Some "online") None None (Some 1) (Some 23) (Some 80) None.

(** The same node when its container listing is out of order. *)
Definition no_lxc_backend : backend := fun log r =>
  if (url r =? "https://192.168.6.247:8006/api2/json/nodes/pve1/lxc")%string then
    Response 500 "lxc unavailable"
  else guests_backend log r.

(** Two nodes whose storage entries differ in name and in node, yet share
    the text of their key. *)
Definition local_zfs : Storage :=
  mkStorage "local-zfs" None (Some "zfspool") (Some "images") (Some 1) None None.

Definition local_dir : Storage :=
  mkStorage "local" None (Some "dir") (Some "iso") (Some 1) None None.

Definition storage_table : list (string * data) :=
  [("nodes", Nodes [mkNode "pve" (Some "online") None None None None None None;
                    mkNode "zfs-pve" (Some "online") None None None None None None]);
   ("storage of pve", Storages [local_zfs]);
   ("storage of zfs-pve", Storages [local_dir])].

Definition storage_backend : backend := fun _ r =>
  if (url r =? "https://192.168.6.247:8006/api2/json/nodes")%string then
    Response 200 "nodes"
  else if (url r =? "https://192.168.6.247:8006/api2/json/nodes/pve/storage")%string then
    Response 200 "storage of pve"
  else if (url r =? "https://192.168.6.247:8006/api2/json/nodes/zfs-pve/storage")%string then
    Response 200 "storage of zfs-pve"
  else Response 404 "not found".

End Example.

(** ** Auxiliary notions for the statements *)

(** The first request a computation makes, if it makes one. *)
Definition first_request {A : Type} (p : proc A) : option request :=
  match p with
  | Fetch r _ => Some r
  | _ => None
  end.

(** The same configuration with the elevated-access flag set to [e]. *)
Definition set_elevated (e : bool) (c : Config) : Config :=
  mkConfig (proxmoxHost c) (proxmoxUser c) (proxmoxTokenName c)
    (proxmoxTokenValue c) (proxmoxPort c) e.

Definition tool_names : list string := map tool_name tools.

(** A required parameter of [tool] is absent from [args]. *)
Definition argument (args : Arguments) (name : string) : option string :=
  if (name =? "node")%string then arg_node args
  else if (name =? "vmid")%string then arg_vmid args
  else if (name =? "type")%string then arg_type args
  else if (name =? "command")%string then arg_command args
  else None.

Definition misses_required (tool : Tool) (args : Arguments) : Prop :=
  exists name, In name (required tool) /\ argument args name = None.

(** The dispatcher answers with an error payload without having awaited
    anything. *)
Definition rejects_locally (p : proc ToolResult) : Prop :=
  exists msg, p = Ret (text_result ("Error: " ++ msg)).

(** Sums over the online nodes, in the words of the specification. *)
Definition sumZ (l : list Z) : Z := fold_right Z.add 0 l.

Definition cpu_capacity (nodes : list Node) : Z :=
  sumZ (map (fun n => orZ (node_maxcpu n)) (filter online nodes)).

(** The CPU in use: the products cpu * maxcpu of the online nodes, added
    up from the first node on, each operation rounded to a double. *)
Definition cpu_used (nodes : list Node) : double :=
  fold_left fadd
    (map (fun n => fmul (orQ (node_cpu n)) (of_Z (orZ (node_maxcpu n))))
       (filter online nodes))
    (of_Z 0).

Definition mem_capacity (nodes : list Node) : Z :=
  sumZ (map (fun n => orZ (node_maxmem n)) (filter online nodes)).

Definition mem_used (nodes : list Node) : Z :=
  sumZ (map (fun n => orZ (node_mem n)) (filter online nodes)).

(** Figures as the backend reports them: no count is negative, the CPU
    load is a fraction between 0 and 1, and the sums over the online nodes
    stay below 2^53, where the additions of doubles are exact. *)
Definition fraction (o : option Q) : Prop :=
  match o with Some q => (0 <= q <= 1)%Q | None => True end.

Definition counts_in_range (nodes : list Node) : Prop :=
  Forall (fun n => 0 <= orZ (node_maxcpu n) /\ 0 <= orZ (node_maxmem n)
                   /\ 0 <= orZ (node_mem n) /\ fraction (node_cpu n)) nodes /\
  cpu_capacity nodes < 2 ^ 53 /\ mem_capacity nodes < 2 ^ 53 /\ mem_used nodes < 2 ^ 53.

(** The cluster text before and after the resource summary. *)
Definition cluster_overview (nodes : list Node) : string :=
  "🏗️  **Proxmox Cluster Status**" ++ nl ++ nl
    ++ "**Cluster Health**: "
    ++ (if Z.of_nat (List.length (filter online nodes)) =? Z.of_nat (List.length nodes)
        then "🟢 Healthy" else "🟡 Warning") ++ nl
    ++ "**Nodes**: " ++ Z_to_string (Z.of_nat (List.length (filter online nodes)))
    ++ "/" ++ Z_to_string (Z.of_nat (List.length nodes)) ++ " online" ++ nl ++ nl.

Definition node_details (localeCompare : string -> string -> Z) (nodes : list Node)
  : string :=
  fold_left
    (fun out node =>
       out ++ (if online node then "🟢" else "🔴") ++ " " ++ node_name node
         ++ " - " ++ show (node_status node) ++ nl)
    (sort (fun a b => localeCompare (node_name a) (node_name b)) nodes)
    ("**Node Details**:" ++ nl).

(** The percentage of [used] in [capacity] as exact arithmetic gives it,
    rounded to one decimal. *)
Definition exact_percent (used capacity : Z) : string :=
  toFixed (inject_Z used / inject_Z capacity * 100) 1.

(** A numeric field that holds exactly zero, made absent. *)
Definition absentZ (o : option Z) : option Z :=
  match o with Some z => if z =? 0 then None else o | None => None end.

Definition absentQ (o : option Q) : option Q :=
  match o with Some q => if falsy (of_Q q) then None else o | None => None end.

Definition node_zeros_absent (n : Node) : Node :=
  mkNode (node_name n) (node_status n) (absentZ (node_uptime n)) (absentQ (node_cpu n))
    (absentZ (node_maxcpu n)) (absentZ (node_mem n)) (absentZ (node_maxmem n))
    (node_loadavg n).

Definition guest_zeros_absent (g : Guest) : Guest :=
  mkGuest (vmid g) (vm_name g) (vm_status g) (vm_type g) (vm_node g)
    (absentZ (vm_uptime g)) (absentQ (vm_cpu g)) (absentZ (vm_mem g))
    (absentZ (vm_maxmem g)) (absentZ (vm_diskread g)) (absentZ (vm_diskwrite g))
    (absentZ (vm_netin g)) (absentZ (vm_netout g)).

Definition status_zeros_absent (s : NodeStatus) : NodeStatus :=
  mkNodeStatus (absentZ (ns_uptime s)) (ns_loadavg s) (absentQ (ns_cpu s))
    (ns_memory s) (ns_rootfs s).

Definition storage_zeros_absent (s : Storage) : Storage :=
  mkStorage (storage_name s) (storage_node s) (storage_type s) (storage_content s)
    (absentZ (storage_enabled s)) (absentZ (storage_used s)) (absentZ (storage_total s)).

(** The block of a storage entry without a usage line. *)
Definition storage_block_without_usage (storage : Storage) : string :=
  (if truthyZ (storage_enabled storage) then "🟢" else "🔴")
    ++ " **" ++ storage_name storage ++ "**" ++ nl
    ++ "   • Node: " ++ show (storage_node storage) ++ nl
    ++ "   • Type: "
    ++ (if truthyS (storage_type storage) then show (storage_type storage) else "N/A") ++ nl
    ++ "   • Content: "
    ++ (if truthyS (storage_content storage) then show (storage_content storage) else "N/A")
    ++ nl
    ++ "   • Status: "
    ++ (if truthyZ (storage_enabled storage) then "Enabled" else "Disabled") ++ nl ++ nl.

(** The unit index the code computes for a byte count, when it is a
    number: the floor of the double quotient of the two logarithms. *)
Definition unit_index (b : Z) : option Z :=
  match log_ratio b with
  | Fin q => Some (Qfloor q)
  | _ => None
  end.

(** The floor of the base-1024 logarithm of a positive count. *)
Definition floor_log1024 (b : Z) : Z := Z.log2 b / 10.

(** The count scaled to the unit of index [i], and that value in
    hundredths, rounded. *)
Definition scaled (b i : Z) : Q := inject_Z b / inject_Z (1024 ^ i).

Definition hundredths (b i : Z) : Z := round_half_up (scaled b i * 100).

(** The shortest decimal that equals [n] hundredths, for [0 <= n]: no
    fraction when there is none, else one digit when that is enough, else
    two. *)
Definition shortest_decimal (n : Z) : string :=
  let ip := digits (n / 100) in
  let d1 := digit (n mod 100 / 10) in
  let d2 := digit (n mod 10) in
  if n mod 100 =? 0 then ip
  else if n mod 10 =? 0 then ip ++ "." ++ String d1 EmptyString
  else ip ++ "." ++ String d1 (String d2 EmptyString).

(** Properties of a computation that hold whatever the backend answers:
    every request it can make satisfies [P]; every value it can return
    satisfies [Q]; it cannot throw. *)
Fixpoint every_request {A : Type} (P : request -> Prop) (p : proc A) : Prop :=
  match p with
  | Fetch r k => P r /\ forall x, every_request P (k x)
  | _ => True
  end.

Fixpoint every_return {A : Type} (Q : A -> Prop) (p : proc A) : Prop :=
  match p with
  | Ret a => Q a
  | Throw _ => True
  | Fetch _ k => forall x, every_return Q (k x)
  end.

Fixpoint never_throws {A : Type} (p : proc A) : Prop :=
  match p with
  | Ret _ => True
  | Throw _ => False
  | Fetch _ k => forall x, never_throws (k x)
  end.

(** A payload with exactly one text item. *)
Definition is_text_result (r : ToolResult) : Prop := exists s, r = text_result s.

(** The headers of every request. *)
Definition auth_headers (this : Config) : list (string * string) :=
  [ ("Authorization",
     "PVEAPIToken=" ++ proxmoxUser this ++ "!" ++ proxmoxTokenName this
       ++ "=" ++ show (proxmoxTokenValue this));
    ("Content-Type", "application/json") ].

(** An answer the client accepts: a 2xx status, a body that is not blank
    and parses to [d]. *)
Definition accepted (JSON_parse : string -> error + data) (x : fetch_result) (d : data)
  : Prop :=
  match x with
  | Response status txt =>
      ok status = true /\ is_blank txt = false /\ JSON_parse txt = inr d
  | NetworkFailure _ => False
  end.

(** The text of a listing: the header and then one block per entry. *)
Definition blocks {A : Type} (block : A -> string) (l : list A) : string :=
  fold_right (fun x rest => block x ++ rest) EmptyString l.

(** The texts with which cluster-status and guest-exec report a failure,
    and the endpoint a command is posted to. *)
Definition cluster_failure (msg : string) : string :=
  "❌ **Failed to get cluster status**" ++ nl ++ nl ++ "Error: " ++ msg.

Definition exec_failure (vmid : option string) (msg : string) : string :=
  "❌ **Failed to execute command on VM " ++ show vmid ++ "**" ++ nl ++ nl
    ++ "Error: " ++ msg ++ nl ++ nl
    ++ "*Note: Make sure the VM has guest agent installed and running*".

Definition exec_endpoint (node vmid type : option string) : string :=
  if (match type with Some t => t | None => "qemu" end =? "qemu")%string
  then "/nodes/" ++ show node ++ "/qemu/" ++ show vmid ++ "/agent/exec"
  else "/nodes/" ++ show node ++ "/lxc/" ++ show vmid ++ "/exec".

(** * Properties *)

(** ** formatUptime *)

Lemma formatUptime_parts (s : Z) :
  0 <= s ->
  let days := s / 86400 in
  let hours := (s mod 86400) / 3600 in
  let minutes := (s mod 3600) / 60 in
  0 <= days /\ 0 <= hours < 24 /\ 0 <= minutes < 60 /\
  days * 86400 + hours * 3600 + minutes * 60 <= s
    < days * 86400 + hours * 3600 + minutes * 60 + 60.
Proof.
  intros Hs; cbv zeta.
  Z.div_mod_to_equations; lia.
Qed.

(** C7.  For every duration of [s] whole seconds with 0 <= s < 2^53 (the
    integers a double holds exactly), with days = floor(s/86400),
    hours = floor((s mod 86400)/3600) and minutes = floor((s mod 3600)/60):
    days*86400 + hours*3600 + minutes*60 <= s < that + 60, and
    [formatUptime s] is "<d>d <h>h <m>m" when days > 0, "<h>h <m>m" when
    days = 0 and hours > 0, and "<m>m" otherwise; seconds never appear. *)
Theorem C7_formatUptime (s : Z) :
  0 <= s < 2 ^ 53 ->
  let days := s / 86400 in
  let hours := (s mod 86400) / 3600 in
  let minutes := (s mod 3600) / 60 in
  (days * 86400 + hours * 3600 + minutes * 60 <= s
     < days * 86400 + hours * 3600 + minutes * 60 + 60) /\
  (0 < days ->
     formatUptime s =
       Z_to_string days ++ "d " ++ Z_to_string hours ++ "h " ++ Z_to_string minutes ++ "m") /\
  (days = 0 -> 0 < hours ->
     formatUptime s = Z_to_string hours ++ "h " ++ Z_to_string minutes ++ "m") /\
  (days = 0 -> hours = 0 ->
     formatUptime s = Z_to_string minutes ++ "m").
Proof.
  intros [Hs _] days hours minutes.
  destruct (formatUptime_parts s Hs) as (Hd & Hh & Hm & Hb).
  fold days hours minutes in Hd, Hh, Hm, Hb.
  split; [exact Hb|].
  unfold formatUptime.
  rewrite !Z.rem_mod_nonneg by lia.
  fold days hours minutes.
  repeat split; intros.
  - destruct (Z.gtb_spec days 0); [reflexivity | lia].
  - destruct (Z.gtb_spec days 0); [lia|].
    destruct (Z.gtb_spec hours 0); [reflexivity | lia].
  - destruct (Z.gtb_spec days 0); [lia|].
    destruct (Z.gtb_spec hours 0); [lia | reflexivity].
Qed.

Lemma C7_formatUptime_witness :
  0 <= 90061 < 2 ^ 53 /\ formatUptime 90061 = "1d 1h 1m".
Proof.
  split; [lia|].
  exact (proj1 (proj2 (C7_formatUptime 90061 ltac:(lia))) ltac:(reflexivity)).
Defined.

(** ** The dispatcher *)

Section Dispatch.

Variable JSON_parse : string -> error + data.
Variable localeCompare : string -> string -> Z.
Variable this : Config.

Lemma GET_unfold (endpoint : string) :
  GET JSON_parse this endpoint =
    Fetch (fetch_options this endpoint "GET" None) (fun response =>
      try_catch
        match response with
        | NetworkFailure e => Throw e
        | Response status textResponse =>
            if negb (ok status) then
              Throw (Error ("Proxmox API error: " ++ Z_to_string status ++ " - "
                              ++ textResponse))
            else if is_blank textResponse then
              Throw (Error "Empty response from Proxmox API")
            else
              match JSON_parse textResponse with
              | inl e => Throw e
              | inr d => Ret d
              end
        end
        (fun error =>
           if (error_name error =? "SyntaxError")%string then
             Throw (Error ("Failed to parse Proxmox API response: " ++ message error))
           else
             Throw (Error ("Failed to connect to Proxmox: " ++ message error)))).
Proof. reflexivity. Qed.

(** C9.  For every operation name that is not in the catalog, the
    dispatcher returns, without throwing and without any backend call, the
    payload whose single text element is "Error: Unknown tool: <name>". *)
Theorem C9_unknown_tool (name : string) (args : option Arguments) :
  ~ In name tool_names ->
  CallTool JSON_parse localeCompare this name args = Ret (text_result ("Error: Unknown tool: " ++ name)).
Proof.
  intros Hname.
  unfold CallTool.
  repeat match goal with
  | |- context [String.eqb name ?s] =>
      destruct (String.eqb_spec name s) as [-> | _];
      [ exfalso; apply Hname; unfold tool_names; simpl; tauto | ]
  end.
  reflexivity.
Qed.

(** C3.  When the backend answers the request for [/nodes] with status 500
    and body "permission denied", list-nodes returns the payload with text
    "Error: Failed to connect to Proxmox: Proxmox API error: 500 - permission denied". *)
Theorem C3_http_500 (b : backend) (args : option Arguments) :
  b [] (fetch_options this "/nodes" "GET" None) = Response 500 "permission denied" ->
  run b [] (CallTool JSON_parse localeCompare this "proxmox_get_nodes" args) =
    (Returned (text_result
       "Error: Failed to connect to Proxmox: Proxmox API error: 500 - permission denied"),
     [fetch_options this "/nodes" "GET" None]).
Proof.
  intros Hb.
  unfold CallTool, getNodes.
  rewrite GET_unfold. simpl. rewrite Hb. reflexivity.
Qed.

End Dispatch.

Lemma C9_unknown_tool_witness :
  ~ In "proxmox_reboot" tool_names /\
  CallTool (Example.parse []) Example.compare (Example.config false)
    "proxmox_reboot" None
  = Ret (text_result "Error: Unknown tool: proxmox_reboot").
Proof.
  assert (H : ~ In "proxmox_reboot" tool_names).
  { unfold tool_names; simpl. intros H.
    repeat (destruct H as [H | H]; [discriminate H|]). exact H. }
  split; [exact H|].
  exact (C9_unknown_tool (Example.parse []) Example.compare (Example.config false)
           "proxmox_reboot" None H).
Defined.

Lemma C3_http_500_witness :
  result (Example.always (Response 500 "permission denied"))
    (CallTool (Example.parse []) Example.compare (Example.config false)
       "proxmox_get_nodes" None)
  = Returned (text_result
      "Error: Failed to connect to Proxmox: Proxmox API error: 500 - permission denied").
Proof.
  unfold result.
  rewrite (C3_http_500 (Example.parse []) Example.compare (Example.config false)
             (Example.always (Response 500 "permission denied")) None eq_refl).
  reflexivity.
Defined.

(** ** Gating *)

Section Gating.

Variable JSON_parse : string -> error + data.
Variable localeCompare : string -> string -> Z.
Variable this : Config.

Lemma getNodeStatus_gated (node : option string) :
  allowElevated this = false ->
  getNodeStatus JSON_parse this node = Ret (text_result elevated_node_status_text).
Proof. intros H. unfold getNodeStatus. rewrite H. reflexivity. Qed.

Lemma executeVMCommand_gated (node vmid command type : option string) :
  allowElevated this = false ->
  executeVMCommand JSON_parse this node vmid command type =
    Ret (text_result (elevated_exec_text command)).
Proof. intros H. unfold executeVMCommand. rewrite H. reflexivity. Qed.

Lemma getVMStatus_flag (e : bool) (node vmid type : option string) :
  getVMStatus JSON_parse (set_elevated e this) node vmid type =
  getVMStatus JSON_parse this node vmid type.
Proof. reflexivity. Qed.

Lemma getVMs_flag (e : bool) (nodeFilter typeFilter : option string) :
  getVMs JSON_parse (set_elevated e this) nodeFilter typeFilter =
  getVMs JSON_parse this nodeFilter typeFilter.
Proof. reflexivity. Qed.

(** C4 (as amended).  With the elevated-access flag false, node-status and
    guest-exec make no backend call, whatever the backend.  When the call
    carries an arguments object they return their instructional text; when
    it carries none, reading [args.node] fails before the handler is
    entered and the payload is the "Error: " text of that failure.
    guest-status and list-guests are the same computation whether the flag
    is true or false. *)
Theorem C4_gating :
  (allowElevated this = false ->
   forall b : backend,
     (forall args : Arguments,
        run b [] (CallTool JSON_parse localeCompare this
                    "proxmox_get_node_status" (Some args))
          = (Returned (text_result elevated_node_status_text), []) /\
        run b [] (CallTool JSON_parse localeCompare this
                    "proxmox_execute_vm_command" (Some args))
          = (Returned (text_result (elevated_exec_text (arg_command args))), [])) /\
     run b [] (CallTool JSON_parse localeCompare this "proxmox_get_node_status" None)
       = (Returned (text_result
            "Error: Cannot read properties of undefined (reading 'node')"), []) /\
     run b [] (CallTool JSON_parse localeCompare this "proxmox_execute_vm_command" None)
       = (Returned (text_result
            "Error: Cannot read properties of undefined (reading 'node')"), [])) /\
  (forall (e : bool) (args : option Arguments),
     CallTool JSON_parse localeCompare (set_elevated e this)
       "proxmox_get_vm_status" args
     = CallTool JSON_parse localeCompare this "proxmox_get_vm_status" args /\
     CallTool JSON_parse localeCompare (set_elevated e this) "proxmox_get_vms" args
     = CallTool JSON_parse localeCompare this "proxmox_get_vms" args).
Proof.
  split.
  - intros H b. split; [| split; reflexivity].
    intros args. unfold CallTool; simpl.
    rewrite getNodeStatus_gated, executeVMCommand_gated by exact H.
    split; reflexivity.
  - intros e [args |]; [| split; reflexivity]. split.
    + change (try_catch
                (with_args (Some args) (fun a =>
                   getVMStatus JSON_parse (set_elevated e this)
                     (arg_node a) (arg_vmid a) (arg_type a)))
                (fun error => Ret (text_result ("Error: " ++ message error)))
              = try_catch
                  (with_args (Some args) (fun a =>
                     getVMStatus JSON_parse this (arg_node a) (arg_vmid a) (arg_type a)))
                  (fun error => Ret (text_result ("Error: " ++ message error)))).
      simpl with_args. rewrite getVMStatus_flag. reflexivity.
    + change (try_catch
                (with_args (Some args) (fun a =>
                   getVMs JSON_parse (set_elevated e this) (arg_node a) (arg_type a)))
                (fun error => Ret (text_result ("Error: " ++ message error)))
              = try_catch
                  (with_args (Some args) (fun a =>
                     getVMs JSON_parse this (arg_node a) (arg_type a)))
                  (fun error => Ret (text_result ("Error: " ++ message error)))).
      simpl with_args. rewrite getVMs_flag. reflexivity.
Qed.

End Gating.

Lemma C4_gating_witness :
  allowElevated (Example.config false) = false /\
  calls (Example.always (Response 200 "{}"))
    (CallTool (Example.parse []) Example.compare (Example.config false)
       "proxmox_execute_vm_command"
       (Some (mkArgs (Some "pve1") (Some "100") None (Some "uptime"))))
  = [].
Proof.
  split; [reflexivity|].
  unfold calls.
  rewrite (proj2 (proj1 (proj1 (C4_gating (Example.parse []) Example.compare
                                  (Example.config false))
                           eq_refl (Example.always (Response 200 "{}")))
                    (mkArgs (Some "pve1") (Some "100") None (Some "uptime")))).
  reflexivity.
Defined.

(** With the flag false, node-status called without an arguments object
    does not return the instructional text. *)
Lemma C4_counterexample :
  allowElevated (Example.config false) = false /\
  result (Example.always (Response 200 "{}"))
    (CallTool (Example.parse []) Example.compare (Example.config false)
       "proxmox_get_node_status" None)
  = Returned (text_result "Error: Cannot read properties of undefined (reading 'node')") /\
  result (Example.always (Response 200 "{}"))
    (CallTool (Example.parse []) Example.compare (Example.config false)
       "proxmox_get_node_status" None)
  <> Returned (text_result elevated_node_status_text).
Proof.
  split; [reflexivity|]. split; [reflexivity|].
  intros H. discriminate H.
Qed.

(** ** Requests made by the handlers *)

Section Requests.

Variable JSON_parse : string -> error + data.
Variable localeCompare : string -> string -> Z.
Variable this : Config.

Lemma run_bind {A B : Type} (b : backend) (p : proc A) (f : A -> proc B) :
  forall log,
    run b log (bind p f) =
      match run b log p with
      | (Returned a, log') => run b log' (f a)
      | (Thrown e, log') => (Thrown e, log')
      end.
Proof.
  induction p as [a | e | r k IH]; intros log; simpl; try reflexivity.
  apply IH.
Qed.

(** A successful answer to a request. *)
Lemma run_proxmoxRequest_ok (b : backend) (log : list request)
    (endpoint method : string) (body : option (option string))
    (status : Z) (txt : string) (d : data) :
  b log (fetch_options this endpoint method body) = Response status txt ->
  ok status = true -> is_blank txt = false -> JSON_parse txt = inr d ->
  run b log (proxmoxRequest JSON_parse this endpoint method body)
  = (Returned d, (log ++ [fetch_options this endpoint method body])%list).
Proof.
  intros Hb Hok Hblank Hparse.
  unfold proxmoxRequest. simpl. rewrite Hb, Hok, Hblank, Hparse. reflexivity.
Qed.

Lemma run_extends {A : Type} (b : backend) (p : proc A) :
  forall log, exists l, snd (run b log p) = (log ++ l)%list.
Proof.
  induction p as [a | e | r k IH]; intros log; simpl.
  - exists []. now rewrite app_nil_r.
  - exists []. now rewrite app_nil_r.
  - destruct (IH (b log r) (log ++ [r])%list) as [l Hl].
    exists (r :: l). rewrite Hl, <- app_assoc. reflexivity.
Qed.

Lemma run_bind_extends {A B : Type} (b : backend) (p : proc A) (f : A -> proc B)
    (log : list request) :
  exists l, snd (run b log (bind p f)) = (snd (run b log p) ++ l)%list.
Proof.
  rewrite run_bind. destruct (run b log p) as [[a | e] log']; simpl.
  - apply run_extends.
  - exists []. now rewrite app_nil_r.
Qed.

(** One request is logged by [proxmoxRequest], whatever the answer. *)
Lemma run_proxmoxRequest_log (b : backend) (log : list request)
    (endpoint method : string) (body : option (option string)) :
  snd (run b log (proxmoxRequest JSON_parse this endpoint method body))
  = (log ++ [fetch_options this endpoint method body])%list.
Proof.
  unfold proxmoxRequest. simpl.
  destruct (b log (fetch_options this endpoint method body)) as [e | status txt]; simpl.
  - destruct (error_name e =? "SyntaxError")%string; reflexivity.
  - destruct (negb (ok status)); simpl; [reflexivity|].
    destruct (is_blank txt); simpl; [reflexivity|].
    destruct (JSON_parse txt) as [e | d]; simpl; [|reflexivity].
    destruct (error_name e =? "SyntaxError")%string; reflexivity.
Qed.

(** With a node filter, the container listing is requested right after the
    machine listing, whatever the type filter. *)
Lemma getVMs_filtered_requests (b : backend) (nodeFilter typeFilter : option string)
    (status : Z) (txt : string) (d : data) :
  truthyS nodeFilter = true ->
  let qemu := fetch_options this ("/nodes/" ++ show nodeFilter ++ "/qemu") "GET" None in
  let lxc := fetch_options this ("/nodes/" ++ show nodeFilter ++ "/lxc") "GET" None in
  b [] qemu = Response status txt ->
  ok status = true -> is_blank txt = false -> JSON_parse txt = inr d ->
  exists l, calls b (getVMs JSON_parse this nodeFilter typeFilter) = qemu :: lxc :: l.
Proof.
  intros Hfilter qemu lxc Hb Hok Hblank Hparse.
  unfold calls, getVMs. rewrite Hfilter.
  match goal with
  | |- exists l, snd (run b [] (bind ?X ?G)) = _ =>
      destruct (run_bind_extends b X G []) as [l1 ->]
  end.
  rewrite run_bind. unfold GET.
  rewrite (run_proxmoxRequest_ok b [] _ _ _ status txt d Hb Hok Hblank Hparse).
  rewrite app_nil_l.
  match goal with
  | |- exists l, (snd (run b ?log (bind ?X ?G)) ++ l1)%list = _ =>
      destruct (run_bind_extends b X G log) as [l2 ->]
  end.
  unfold GET. rewrite run_proxmoxRequest_log.
  exists (l2 ++ l1)%list. reflexivity.
Qed.

(** Without a node filter the same type filter leads to the machine listing
    only. *)
Lemma getVMs_unfiltered_requests :
  run Example.guests_backend []
    (CallTool (Example.parse Example.guests_table) Example.compare (Example.config false)
       "proxmox_get_vms" (Some (mkArgs None None (Some "qemu") None)))
  = (Returned (text_result (vms_text [tag "qemu" (Some "pve1") Example.vm100])),
     [fetch_options (Example.config false) "/nodes" "GET" None;
      fetch_options (Example.config false) "/nodes/pve1/qemu" "GET" None]).
Proof. reflexivity. Qed.

(** A failing container listing fails a filtered request for machines. *)
Lemma getVMs_filtered_needs_lxc :
  result Example.no_lxc_backend
    (CallTool (Example.parse Example.guests_table) Example.compare (Example.config false)
       "proxmox_get_vms" (Some (mkArgs (Some "pve1") None (Some "qemu") None)))
  = Returned (text_result
      "Error: Failed to connect to Proxmox: Proxmox API error: 500 - lxc unavailable").
Proof. reflexivity. Qed.

(** C1.  At node filter "pve1" and type filter "qemu" the handler requests
    the container listing of the node as well: both listing endpoints are
    called, and only the formatting honours the type filter. *)
Theorem C1_filtered_listing_calls_both :
  run Example.guests_backend []
    (CallTool (Example.parse Example.guests_table) Example.compare (Example.config false)
       "proxmox_get_vms" (Some (mkArgs (Some "pve1") None (Some "qemu") None)))
  = (Returned (text_result (vms_text [tag "qemu" (Some "pve1") Example.vm100])),
     [fetch_options (Example.config false) "/nodes/pve1/qemu" "GET" None;
      fetch_options (Example.config false) "/nodes/pve1/lxc" "GET" None]).
Proof. reflexivity. Qed.

(** C2 (as amended).  The dispatcher makes no required-field check.  With an
    arguments object, a missing parameter reaches the handler as
    [undefined]: guest-status, and with elevated access node-status and
    guest-exec, start by requesting the endpoint whose path holds the text
    of each argument, "undefined" for a missing one.  Only a call without
    an arguments object fails locally, for each operation that reads
    arguments. *)
Theorem C2_no_required_check (args : Arguments) :
  first_request (CallTool JSON_parse localeCompare this
                   "proxmox_get_vm_status" (Some args))
    = Some (fetch_options this
              ("/nodes/" ++ show (arg_node args) ++ "/"
                 ++ match arg_type args with Some t => t | None => "qemu" end
                 ++ "/" ++ show (arg_vmid args) ++ "/status/current")
              "GET" None) /\
  (allowElevated this = true ->
   first_request (CallTool JSON_parse localeCompare this
                    "proxmox_get_node_status" (Some args))
     = Some (fetch_options this ("/nodes/" ++ show (arg_node args) ++ "/status")
               "GET" None) /\
   first_request (CallTool JSON_parse localeCompare this
                    "proxmox_execute_vm_command" (Some args))
     = Some (fetch_options this
               (if (match arg_type args with Some t => t | None => "qemu" end
                      =? "qemu")%string
                then "/nodes/" ++ show (arg_node args) ++ "/qemu/"
                       ++ show (arg_vmid args) ++ "/agent/exec"
                else "/nodes/" ++ show (arg_node args) ++ "/lxc/"
                       ++ show (arg_vmid args) ++ "/exec")
               "POST" (Some (arg_command args)))) /\
  (forall name,
     In name ["proxmox_get_node_status"; "proxmox_get_vms"; "proxmox_get_vm_status";
              "proxmox_execute_vm_command"; "proxmox_get_storage"] ->
     CallTool JSON_parse localeCompare this name None
       = Ret (text_result
                "Error: Cannot read properties of undefined (reading 'node')")).
Proof.
  split; [reflexivity|]. split.
  - intros He. split.
    + unfold CallTool; simpl. unfold getNodeStatus. rewrite He. reflexivity.
    + unfold CallTool; simpl. unfold executeVMCommand. rewrite He. simpl.
      destruct (match arg_type args with Some t => t | None => "qemu" end =? "qemu")%string;
        reflexivity.
  - intros name Hin. simpl in Hin.
    repeat (destruct Hin as [<- | Hin]; [reflexivity|]). destruct Hin.
Qed.

End Requests.

Lemma C2_counterexample :
  In (mkTool "proxmox_get_vm_status"
        "Get detailed status information for a specific VM"
        [string_prop "node"; string_prop "vmid";
         mkProperty "type" "string" ["qemu"; "lxc"] (Some "qemu")]
        ["node"; "vmid"]) tools /\
  misses_required
    (mkTool "proxmox_get_vm_status"
        "Get detailed status information for a specific VM"
        [string_prop "node"; string_prop "vmid";
         mkProperty "type" "string" ["qemu"; "lxc"] (Some "qemu")]
        ["node"; "vmid"]) Example.no_args /\
  ~ rejects_locally
      (CallTool (Example.parse []) Example.compare (Example.config false)
         "proxmox_get_vm_status" (Some Example.no_args)) /\
  calls (Example.always (Response 404 "not found"))
    (CallTool (Example.parse []) Example.compare (Example.config false)
       "proxmox_get_vm_status" (Some Example.no_args))
  = [fetch_options (Example.config false)
       "/nodes/undefined/qemu/undefined/status/current" "GET" None].
Proof.
  split; [simpl; tauto|]. split.
  - exists "node". split; [simpl; tauto | reflexivity].
  - split; [|reflexivity].
    intros [msg H]. discriminate H.
Qed.

Lemma C2_no_required_check_witness :
  allowElevated (Example.config true) = true /\
  first_request (CallTool (Example.parse []) Example.compare (Example.config true)
                   "proxmox_get_node_status" (Some Example.no_args))
  = Some (fetch_options (Example.config true) "/nodes/undefined/status" "GET" None).
Proof.
  split; [reflexivity|].
  exact (proj1 (proj1 (proj2 (C2_no_required_check (Example.parse []) Example.compare
                                (Example.config true) Example.no_args)) eq_refl)).
Defined.

(** ** Text *)

Lemma append_assoc (a b c : string) : (a ++ b) ++ c = a ++ (b ++ c).
Proof. induction a as [| x a IH]; simpl; [reflexivity | now rewrite IH]. Qed.

(** ** Storage listing *)

Section StorageListing.

Variable localeCompare : string -> string -> Z.

Lemma has_In (seen : list string) (key : string) :
  has seen key = true <-> In key seen.
Proof.
  unfold has. rewrite existsb_exists. split.
  - intros (k & Hin & E). apply String.eqb_eq in E. now subst.
  - intros Hin. exists key. split; [exact Hin | apply String.eqb_refl].
Qed.

(** The loop keeps [seen] equal to the keys of [uniqueStorages], which
    stay pairwise different, and only ever appends gathered entries. *)
Lemma unique_loop_invariant (storages : list Storage) :
  forall seen kept,
    (forall k, In k seen <-> In k (map storage_key kept)) ->
    NoDup (map storage_key kept) ->
    let '(seen', kept') := fold_left unique_step storages (seen, kept) in
    (forall k, In k seen' <-> In k (map storage_key kept')) /\
    NoDup (map storage_key kept') /\
    (exists added, kept' = (kept ++ added)%list /\ incl added storages) /\
    (forall s, In s storages -> In (storage_key s) seen').
Proof.
  induction storages as [| s storages IH]; intros seen kept Hseen Hnd.
  - simpl. repeat split; try apply Hseen; try assumption.
    + exists []. split; [now rewrite app_nil_r | intros x []].
    + intros x [].
  - cbn [fold_left]. unfold unique_step at 2.
    destruct (has seen (storage_key s)) eqn:Hhas; cbn [negb].
    + specialize (IH seen kept Hseen Hnd).
      destruct (fold_left unique_step storages (seen, kept)) as [seen' kept'].
      destruct IH as (I1 & I2 & (added & I3 & I4) & I5).
      repeat split; try apply I1; try assumption.
      * exists added. split; [exact I3 | intros x Hx; right; now apply I4].
      * intros x [<- | Hx]; [| now apply I5].
        apply has_In in Hhas.
        apply I1. rewrite I3, map_app. apply in_or_app. left. now apply Hseen.
    + assert (Hnew : ~ In (storage_key s) seen).
      { intros Hin. apply has_In in Hin. congruence. }
      assert (Hseen2 : forall k, In k (storage_key s :: seen)
                                 <-> In k (map storage_key (kept ++ [s]))).
      { intros k. rewrite map_app, in_app_iff. simpl. rewrite Hseen. tauto. }
      assert (Hnd2 : NoDup (map storage_key (kept ++ [s]))).
      { rewrite map_app. simpl.
        apply NoDup_app; [exact Hnd | repeat constructor; intros [] | ].
        intros k Hk [<- | []]. apply Hnew. now apply Hseen. }
      specialize (IH (storage_key s :: seen) (kept ++ [s])%list Hseen2 Hnd2).
      destruct (fold_left unique_step storages (storage_key s :: seen, (kept ++ [s])%list))
        as [seen' kept'].
      destruct IH as (I1 & I2 & (added & I3 & I4) & I5).
      repeat split; try apply I1; try assumption.
      * exists (s :: added). split.
        -- rewrite I3, <- app_assoc. reflexivity.
        -- intros x [<- | Hx]; [now left | right; now apply I4].
      * intros x [<- | Hx]; [| now apply I5].
        apply I1. rewrite I3, !map_app, !in_app_iff. left. right. now left.
Qed.

(** Deduplication by key: the kept entries are gathered entries, their keys
    are pairwise different, and every gathered key is kept. *)
Lemma uniqueStorages_spec (storages : list Storage) :
  NoDup (map storage_key (uniqueStorages storages)) /\
  incl (uniqueStorages storages) storages /\
  (forall s, In s storages ->
     In (storage_key s) (map storage_key (uniqueStorages storages))).
Proof.
  unfold uniqueStorages.
  pose proof (unique_loop_invariant storages [] []
                (fun k => conj (fun H => H) (fun H => H)) (NoDup_nil _)) as H.
  destruct (fold_left unique_step storages ([], [])) as [seen kept].
  destruct H as (I1 & I2 & (added & I3 & I4) & I5). simpl in *.
  subst kept. repeat split; try assumption.
  intros s Hs. apply I1. now apply I5.
Qed.

(** The first gathered entry is always kept. *)
Lemma uniqueStorages_head (s : Storage) (storages : list Storage) :
  exists rest, uniqueStorages (s :: storages) = s :: rest.
Proof.
  unfold uniqueStorages. cbn [fold_left]. unfold unique_step at 2. cbn.
  pose proof (unique_loop_invariant storages [storage_key s] [s]) as H.
  destruct (fold_left unique_step storages ([storage_key s], [s])) as [seen kept].
  destruct H as (_ & _ & (added & I3 & _) & _).
  - intros k. reflexivity.
  - repeat constructor. intros [].
  - exists added. exact I3.
Qed.

Lemma insert_sorted_perm {A : Type} (cmp : A -> A -> Z) (x : A) (l : list A) :
  Permutation (insert_sorted cmp x l) (x :: l).
Proof.
  induction l as [| y l IH]; simpl; [reflexivity|].
  destruct (0 <? cmp x y); [| reflexivity].
  rewrite IH. apply perm_swap.
Qed.

Lemma sort_perm {A : Type} (cmp : A -> A -> Z) (l : list A) :
  Permutation (sort cmp l) l.
Proof.
  induction l as [| x l IH]; simpl; [reflexivity|].
  unfold sort in IH. rewrite insert_sorted_perm. now constructor.
Qed.

(** With a comparator that orders any two elements one way or the other,
    the sorted array has each element before or equal to its successor. *)
Lemma insert_sorted_Sorted {A : Type} (cmp : A -> A -> Z) (x : A) (l : list A) :
  (forall a b, 0 < cmp a b -> cmp b a <= 0) ->
  Sorted (fun a b => cmp a b <= 0) l ->
  Sorted (fun a b => cmp a b <= 0) (insert_sorted cmp x l).
Proof.
  intros Htotal Hs. induction Hs as [| y l Hl IH Hhd]; simpl.
  - repeat constructor.
  - destruct (Z.ltb_spec 0 (cmp x y)) as [Hgt | Hle].
    + constructor; [exact IH|].
      destruct Hhd as [| z l Hyz]; simpl.
      * constructor. now apply Htotal.
      * destruct (0 <? cmp x z); constructor; [exact Hyz | now apply Htotal].
    + constructor; [now constructor | now constructor].
Qed.

Lemma sort_Sorted {A : Type} (cmp : A -> A -> Z) (l : list A) :
  (forall a b, 0 < cmp a b -> cmp b a <= 0) ->
  Sorted (fun a b => cmp a b <= 0) (sort cmp l).
Proof.
  intros Htotal. induction l as [| x l IH]; simpl; [constructor|].
  now apply insert_sorted_Sorted.
Qed.

(** The listing: a rearrangement of the deduplicated entries, ordered by
    name according to [localeCompare]. *)
Lemma listed_storages_spec (storages : list Storage) :
  (forall a b, 0 < localeCompare a b -> localeCompare b a <= 0) ->
  Permutation (listed_storages localeCompare storages) (uniqueStorages storages) /\
  Sorted (fun a b => localeCompare (storage_name a) (storage_name b) <= 0)
    (listed_storages localeCompare storages).
Proof.
  intros Htotal. unfold listed_storages. split.
  - apply sort_perm.
  - apply (sort_Sorted (fun a b => localeCompare (storage_name a) (storage_name b))).
    intros a b. apply Htotal.
Qed.

End StorageListing.

(** C8.  Storage "local-zfs" on node "pve" and storage "local" on node
    "zfs-pve" are two distinct (name, node) pairs, but both have the key
    text "local-zfs-pve": the listing keeps the first and drops the second,
    so the output has one entry for two distinct pairs. *)
Theorem C8_key_collision :
  (storage_name Example.local_zfs, Some "pve")
    <> (storage_name Example.local_dir, Some "zfs-pve") /\
  run Example.storage_backend []
    (gather_storages (Example.parse Example.storage_table) (Example.config false) None)
  = (Returned [on_node (Some "pve") Example.local_zfs;
               on_node (Some "zfs-pve") Example.local_dir],
     [fetch_options (Example.config false) "/nodes" "GET" None;
      fetch_options (Example.config false) "/nodes/pve/storage" "GET" None;
      fetch_options (Example.config false) "/nodes/zfs-pve/storage" "GET" None]) /\
  storage_key (on_node (Some "pve") Example.local_zfs)
    = storage_key (on_node (Some "zfs-pve") Example.local_dir) /\
  listed_storages Example.compare
    [on_node (Some "pve") Example.local_zfs; on_node (Some "zfs-pve") Example.local_dir]
  = [on_node (Some "pve") Example.local_zfs] /\
  result Example.storage_backend
    (CallTool (Example.parse Example.storage_table) Example.compare (Example.config false)
       "proxmox_get_storage" (Some Example.no_args))
  = Returned (text_result
      ("💾 **Storage Pools**" ++ nl ++ nl
         ++ storage_block (on_node (Some "pve") Example.local_zfs))).
Proof.
  split; [discriminate|].
  repeat split.
Qed.

(** ** Decimal printing and reading *)

Lemma digit_cases (d : Z) :
  0 <= d < 10 ->
  d = 0 \/ d = 1 \/ d = 2 \/ d = 3 \/ d = 4 \/ d = 5 \/ d = 6 \/ d = 7 \/ d = 8 \/ d = 9.
Proof. lia. Qed.

Ltac each_digit H :=
  apply digit_cases in H;
  repeat (destruct H as [H | H]; [subst | ]); subst.

Lemma digit_is_digit (d : Z) :
  0 <= d < 10 ->
  is_digit (digit d) = true /\ digit_val (digit d) = d /\
  is_space (digit d) = false /\ digit d <> "-"%char /\ digit d <> "+"%char.
Proof.
  intros H. each_digit H; repeat split; try reflexivity; discriminate.
Qed.

Lemma read_digit (d : Z) (s : string) (a : Z) (c : nat) :
  0 <= d < 10 ->
  read_digits (String (digit d) s) a c = read_digits s (10 * a + d) (S c).
Proof.
  intros H. destruct (digit_is_digit d H) as (E1 & E2 & _).
  cbn [read_digits]. now rewrite E1, E2.
Qed.

Lemma digits_go_app (fuel : nat) :
  forall n acc, digits_go fuel n acc = digits_go fuel n EmptyString ++ acc.
Proof.
  induction fuel as [| f IH]; intros n acc; cbn [digits_go]; [reflexivity|].
  destruct (n <? 10); [reflexivity|].
  rewrite (IH _ (String _ acc)), (IH _ (String _ EmptyString)), append_assoc.
  reflexivity.
Qed.

Lemma digits_go_head (fuel : nat) :
  forall n acc, 0 <= n ->
    exists d s, 0 <= d < 10 /\ digits_go (S fuel) n acc = String (digit d) s.
Proof.
  induction fuel as [| f IH]; intros n acc Hn.
  - exists (n mod 10), acc. split; [apply Z.mod_pos_bound; lia|].
    cbn [digits_go]. destruct (n <? 10); reflexivity.
  - change (digits_go (S (S f)) n acc)
      with (if n <? 10 then String (digit (n mod 10)) acc
            else digits_go (S f) (n / 10) (String (digit (n mod 10)) acc)).
    destruct (n <? 10).
    + exists (n mod 10), acc. split; [apply Z.mod_pos_bound; lia | reflexivity].
    + apply IH. apply Z.div_pos; lia.
Qed.

Lemma read_digits_go (fuel : nat) :
  forall n, 0 <= n < 2 ^ Z.of_nat (S fuel) ->
    exists k, forall acc a c,
      read_digits (digits_go (S fuel) n acc) a c
      = read_digits acc (a * 10 ^ Z.of_nat (S k) + n) (c + S k)%nat.
Proof.
  induction fuel as [| f IH]; intros n Hn.
  - exists O. intros acc a c.
    assert (n < 10) by (change (2 ^ Z.of_nat 1) with 2 in Hn; lia).
    cbn [digits_go]. destruct (Z.ltb_spec n 10); [|lia].
    rewrite Z.mod_small by lia. rewrite read_digit by lia.
    f_equal; [|lia]. change (10 ^ Z.of_nat 1) with 10. lia.
  - change (digits_go (S (S f)) n)
      with (fun acc => if n <? 10 then String (digit (n mod 10)) acc
                       else digits_go (S f) (n / 10) (String (digit (n mod 10)) acc)).
    cbv beta.
    destruct (Z.ltb_spec n 10) as [Hlt | Hge].
    + exists O. intros acc a c.
      rewrite Z.mod_small by lia. rewrite read_digit by lia.
      f_equal; [|lia]. change (10 ^ Z.of_nat 1) with 10. lia.
    + assert (Hdiv : 0 <= n / 10 < 2 ^ Z.of_nat (S f)).
      { split; [apply Z.div_pos; lia|].
        apply Z.div_lt_upper_bound; [lia|].
        rewrite (Nat2Z.inj_succ (S f)), Z.pow_succ_r in Hn by lia. lia. }
      destruct (IH (n / 10) Hdiv) as [k Hk].
      exists (S k). intros acc a c.
      rewrite Hk. rewrite read_digit by (apply Z.mod_pos_bound; lia).
      f_equal; [|lia].
      rewrite (Nat2Z.inj_succ (S k)), Z.pow_succ_r by lia.
      pose proof (Z.div_mod n 10 ltac:(lia)). lia.
Qed.

(** Reading back the digits of [n]. *)
Lemma read_digits_digits (n : Z) (rest : string) :
  0 <= n ->
  exists k, forall a c,
    read_digits (digits n ++ rest) a c
    = read_digits rest (a * 10 ^ Z.of_nat (S k) + n) (c + S k)%nat.
Proof.
  intros Hn. unfold digits.
  assert (Hb : 0 <= n < 2 ^ Z.of_nat (S (Z.to_nat (Z.log2 n)))).
  { split; [exact Hn|].
    rewrite Nat2Z.inj_succ, Z2Nat.id by apply Z.log2_nonneg.
    destruct (Z.eq_dec n 0) as [-> | Hnz]; [reflexivity|].
    apply Z.log2_spec. lia. }
  destruct (read_digits_go _ n Hb) as [k Hk].
  exists k. intros a c. rewrite <- digits_go_app. apply Hk.
Qed.

Lemma digits_head (n : Z) :
  0 <= n -> exists d s, 0 <= d < 10 /\ digits n = String (digit d) s.
Proof. intros Hn. apply digits_go_head. exact Hn. Qed.

(** ** formatBytes *)

Lemma frac_digits_2 (f : Z) :
  frac_digits 2 f = String (digit (f / 10)) (String (digit (f mod 10)) EmptyString).
Proof.
  cbn [frac_digits].
  change (10 ^ Z.of_nat 1) with 10. change (10 ^ Z.of_nat 0) with 1.
  now rewrite Z.div_1_r.
Qed.

Lemma read_two_digits (f : Z) (rest : string) :
  0 <= f < 100 ->
  read_digits (String (digit (f / 10)) (String (digit (f mod 10)) rest)) 0 0
  = read_digits rest f 2.
Proof.
  intros Hf. rewrite !read_digit.
  - f_equal. pose proof (Z.div_mod f 10 ltac:(lia)). lia.
  - apply Z.mod_pos_bound; lia.
  - split; [apply Z.div_pos; lia | apply Z.div_lt_upper_bound; lia].
Qed.

Lemma read_digits_stop (c : ascii) (s : string) (a : Z) (n : nat) :
  is_digit c = false -> read_digits (String c s) a n = (a, n, String c s).
Proof. intros H. cbn [read_digits]. now rewrite H. Qed.

Lemma parseFloat_digit_head (d : Z) (s : string) :
  0 <= d < 10 -> parseFloat (String (digit d) s) = read_decimal (String (digit d) s).
Proof. intros H. each_digit H; reflexivity. Qed.

Lemma parseFloat_digits (a : Z) (rest : string) :
  0 <= a -> parseFloat (digits a ++ rest) = read_decimal (digits a ++ rest).
Proof.
  intros Ha. destruct (digits_head a Ha) as (d & s & Hd & E).
  rewrite E. cbn [append]. now apply parseFloat_digit_head.
Qed.

(** What [toFixed] writes with two decimals is read back exactly. *)
Lemma parseFloat_fixed2 (a f : Z) :
  0 <= a -> 0 <= f < 100 ->
  parseFloat (digits a ++ String "." (frac_digits 2 f))
  = Fin (inject_Z a + inject_Z f / inject_Z (10 ^ Z.of_nat 2)).
Proof.
  intros Ha Hf. rewrite parseFloat_digits by exact Ha.
  unfold read_decimal.
  destruct (read_digits_digits a (String "." (frac_digits 2 f)) Ha) as [k Hk].
  rewrite Hk, read_digits_stop by reflexivity.
  cbv beta iota zeta.
  rewrite frac_digits_2, read_two_digits by exact Hf.
  cbn [read_digits Nat.add]. cbv beta iota zeta.
  rewrite Z.mul_0_l, Z.add_0_l. reflexivity.
Qed.


Lemma toFixed_2_nonneg (x : Q) :
  (0 <= x)%Q ->
  let n := round_half_up (x * 100) in
  toFixed x 2 = digits (n / 100) ++ String "." (frac_digits 2 (n mod 100)).
Proof.
  intros Hx n. unfold toFixed.
  assert (E : Qle_bool 0 x = true) by (apply Qle_bool_iff; exact Hx).
  rewrite E.
  assert (En : round_half_up (Qabs x * inject_Z (10 ^ Z.of_nat 2)) = n).
  { unfold n, round_half_up. apply Qfloor_comp.
    rewrite (Qabs_pos x Hx). reflexivity. }
  rewrite En. reflexivity.
Qed.


Lemma below_100 (P : Z -> bool) :
  forallb P (map Z.of_nat (seq 0 100)) = true ->
  forall f, 0 <= f < 100 -> P f = true.
Proof.
  intros H f Hf. rewrite forallb_forall in H. apply H.
  apply in_map_iff. exists (Z.to_nat f). split; [lia | apply in_seq; lia].
Qed.

(** Long division of [f / 100] yields the one or two digits that matter. *)
Lemma frac_expand_hundredths (f : Z) :
  0 <= f < 100 ->
  frac_expand 20 f 100 =
    if f =? 0 then EmptyString
    else if f mod 10 =? 0 then String (digit (f / 10)) EmptyString
    else String (digit (f / 10)) (String (digit (f mod 10)) EmptyString).
Proof.
  intros Hf. apply String.eqb_eq.
  revert f Hf.
  apply (below_100 (fun f =>
    String.eqb (frac_expand 20 f 100)
      (if f =? 0 then EmptyString
       else if f mod 10 =? 0 then String (digit (f / 10)) EmptyString
       else String (digit (f / 10)) (String (digit (f mod 10)) EmptyString)))).
  vm_compute. reflexivity.
Qed.

Lemma append_nil_r (s : string) : s ++ EmptyString = s.
Proof. induction s as [| c s IH]; simpl; [reflexivity | now rewrite IH]. Qed.

Lemma Q_to_string_hundredths (a f : Z) :
  0 <= a -> 0 <= f < 100 ->
  Q_to_string (inject_Z a + inject_Z f / inject_Z (10 ^ Z.of_nat 2))
  = shortest_decimal (100 * a + f).
Proof.
  intros Ha Hf.
  change (10 ^ Z.of_nat 2) with 100.
  set (q := (inject_Z a + inject_Z f / inject_Z 100)%Q).
  assert (Hnum : Qnum (Qabs q) = 100 * a + f).
  { change (Qnum (Qabs q)) with (Z.abs (a * 100 + f * 1 * 1)). lia. }
  assert (Hden : Zpos (Qden (Qabs q)) = 100).
  { unfold q, Qabs, Qplus, Qdiv, Qmult, Qinv, inject_Z. reflexivity. }
  assert (Hpos : Qle_bool 0 q = true).
  { change (Qle_bool 0 q) with (0 * 100 <=? (a * 100 + f * 1 * 1) * 1).
    apply Z.leb_le. lia. }
  unfold Q_to_string. rewrite Hpos, Hnum, Hden.
  assert (E1 : (100 * a + f) / 100 = a) by (Z.div_mod_to_equations; lia).
  assert (E2 : (100 * a + f) mod 100 = f) by (Z.div_mod_to_equations; lia).
  assert (E3 : (100 * a + f) mod 10 = f mod 10) by (Z.div_mod_to_equations; lia).
  unfold shortest_decimal. rewrite E1, E2, E3.
  rewrite frac_expand_hundredths by exact Hf.
  destruct (f =? 0); [apply append_nil_r|].
  destruct (f mod 10 =? 0); reflexivity.
Qed.





Lemma floor_log1024_spec (b : Z) :
  0 < b ->
  0 <= floor_log1024 b /\ 1024 ^ floor_log1024 b <= b < 1024 ^ (floor_log1024 b + 1).
Proof.
  intros Hb. unfold floor_log1024.
  destruct (Z.log2_spec b Hb) as [Hlo Hhi].
  pose proof (Z.log2_nonneg b) as Hl.
  set (l := Z.log2 b) in *.
  assert (Hi : 0 <= l / 10) by (apply Z.div_pos; lia).
  assert (Hq : 10 * (l / 10) <= l < 10 * (l / 10) + 10)
    by (Z.div_mod_to_equations; lia).
  change 1024 with (2 ^ 10).
  rewrite <- !Z.pow_mul_r by lia.
  split; [exact Hi|]. split.
  - apply Z.le_trans with (2 ^ l); [|exact Hlo].
    apply Z.pow_le_mono_r; lia.
  - apply Z.lt_le_trans with (2 ^ Z.succ l); [exact Hhi|].
    apply Z.pow_le_mono_r; lia.
Qed.

Lemma scaled_pos (b i : Z) : 0 < b -> 0 <= i -> (0 < scaled b i)%Q.
Proof.
  intros Hb Hi. unfold scaled.
  assert (Hp : 0 < 1024 ^ i) by (apply Z.pow_pos_nonneg; lia).
  apply Qlt_shift_div_l.
  - change 0%Q with (inject_Z 0). now rewrite <- Zlt_Qlt.
  - rewrite Qmult_0_l. change 0%Q with (inject_Z 0). now rewrite <- Zlt_Qlt.
Qed.

Lemma scaled_bounds (b : Z) :
  0 < b -> (1 <= scaled b (floor_log1024 b))%Q /\ (scaled b (floor_log1024 b) < 1024)%Q.
Proof.
  intros Hb. destruct (floor_log1024_spec b Hb) as (Hi & Hlo & Hhi).
  rewrite Z.pow_add_r, Z.pow_1_r in Hhi by lia.
  assert (Hp : 0 < 1024 ^ floor_log1024 b) by (apply Z.pow_pos_nonneg; lia).
  unfold scaled. set (p := 1024 ^ floor_log1024 b) in *.
  assert (Hpq : (0 < inject_Z p)%Q) by (change 0%Q with (inject_Z 0); now rewrite <- Zlt_Qlt).
  split.
  - apply Qle_shift_div_l; [exact Hpq|].
    rewrite Qmult_1_l. now rewrite <- Zle_Qle.
  - apply Qlt_shift_div_r; [exact Hpq|].
    change 1024%Q with (inject_Z 1024). rewrite <- inject_Z_mult, <- Zlt_Qlt. lia.
Qed.

Lemma round_half_up_nonneg (x : Q) : (0 <= x)%Q -> 0 <= round_half_up x.
Proof.
  intros Hx. unfold round_half_up.
  change 0 with (Qfloor 0). apply Qfloor_resp_le. lra.
Qed.

Lemma size_text_nth (i : Z) :
  0 <= i -> size_text i = nth (Z.to_nat i) sizes "undefined".
Proof.
  intros Hi. unfold size_text, size_at.
  destruct (Z.ltb_spec i 0); [lia|].
  destruct (nth_error sizes (Z.to_nat i)) as [unit |] eqn:E.
  - symmetry. now apply nth_error_nth.
  - symmetry. apply nth_overflow. now apply nth_error_None.
Qed.

(** The text that [formatBytes] builds from a positive count whose computed
    index is [i]: the rounded hundredths in their shortest form, a space,
    and the entry of [sizes] at [i]. *)
Lemma formatBytes_indexed (b i : Z) :
  0 < b -> unit_index b = Some i -> 0 <= i ->
  formatBytes b = shortest_decimal (hundredths b i) ++ " " ++ size_text i.
Proof.
  intros Hb Hidx Hi. unfold formatBytes, unit_index in *.
  destruct (Z.eqb_spec b 0) as [|_]; [lia|].
  destruct (log_ratio b) as [q | |]; try discriminate.
  injection Hidx as Hq. cbv zeta. rewrite Hq.
  unfold pow_k. destruct (Z.ltb_spec i 0); [lia|].
  fold (scaled b i).
  pose proof (scaled_pos b i Hb Hi) as Hpos.
  assert (H0 : (0 <= scaled b i)%Q) by lra.
  rewrite (toFixed_2_nonneg (scaled b i) H0). fold (hundredths b i).
  assert (Hn : 0 <= hundredths b i) by (apply round_half_up_nonneg; lra).
  set (n := hundredths b i) in *.
  rewrite parseFloat_fixed2
    by (first [ apply Z.div_pos; lia | apply Z.mod_pos_bound; lia ]).
  cbn [number_to_string].
  rewrite Q_to_string_hundredths
    by (first [ apply Z.div_pos; lia | apply Z.mod_pos_bound; lia ]).
  rewrite <- (Z.div_mod n 100) by lia.
  reflexivity.
Qed.




(** * Further properties of the code *)

(** ** The backend client *)

Section Client.

Variable JSON_parse : string -> error + data.
Variable this : Config.

(** What the catch clause of [proxmoxRequest] makes of an error. *)
Lemma run_proxmoxRequest (b : backend) (log : list request)
    (endpoint method : string) (body : option (option string)) :
  let r := fetch_options this endpoint method body in
  let rethrown (e : error) :=
    Error ((if (error_name e =? "SyntaxError")%string
            then "Failed to parse Proxmox API response: "
            else "Failed to connect to Proxmox: ") ++ message e) in
  run b log (proxmoxRequest JSON_parse this endpoint method body)
  = (match b log r with
     | NetworkFailure e => Thrown (rethrown e)
     | Response status txt =>
         if negb (ok status) then
           Thrown (rethrown (Error ("Proxmox API error: " ++ Z_to_string status
                                      ++ " - " ++ txt)))
         else if is_blank txt then
           Thrown (rethrown (Error "Empty response from Proxmox API"))
         else match JSON_parse txt with
              | inl e => Thrown (rethrown e)
              | inr d => Returned d
              end
     end, (log ++ [r])%list).
Proof.
  cbv zeta. unfold proxmoxRequest. cbn [try_catch run].
  destruct (b log (fetch_options this endpoint method body)) as [e | status txt].
  - cbn [try_catch]. destruct (error_name e =? "SyntaxError")%string; reflexivity.
  - destruct (negb (ok status)); [reflexivity|].
    destruct (is_blank txt); [reflexivity|].
    destruct (JSON_parse txt) as [e | d]; [|reflexivity].
    cbn [try_catch]. destruct (error_name e =? "SyntaxError")%string; reflexivity.
Qed.

(** X1.  One call of [proxmoxRequest] makes exactly one request.  It returns
    [d] exactly when the answer has a 2xx status and a body that is not
    blank and parses to [d].  Whatever it throws is a plain [Error] whose
    message starts with "Failed to connect to Proxmox: " or with
    "Failed to parse Proxmox API response: ". *)
Theorem X1_proxmoxRequest_outcome (b : backend) (log : list request)
    (endpoint method : string) (body : option (option string)) :
  let r := fetch_options this endpoint method body in
  let out := run b log (proxmoxRequest JSON_parse this endpoint method body) in
  snd out = (log ++ [r])%list /\
  (forall d, fst out = Returned d <-> accepted JSON_parse (b log r) d) /\
  (forall e, fst out = Thrown e ->
     error_name e = "Error" /\
     exists m, message e = "Failed to connect to Proxmox: " ++ m \/
               message e = "Failed to parse Proxmox API response: " ++ m).
Proof.
  cbv zeta. rewrite run_proxmoxRequest. cbn [fst snd].
  split; [reflexivity|].
  assert (Hre : forall e0 e,
            Thrown (A := data)
              (Error ((if (error_name e0 =? "SyntaxError")%string
                       then "Failed to parse Proxmox API response: "
                       else "Failed to connect to Proxmox: ") ++ message e0))
            = Thrown e ->
            error_name e = "Error" /\
            exists m, message e = "Failed to connect to Proxmox: " ++ m \/
                      message e = "Failed to parse Proxmox API response: " ++ m).
  { intros e0 e H. injection H as <-. split; [reflexivity|].
    exists (message e0). destruct (error_name e0 =? "SyntaxError")%string; auto. }
  destruct (b log (fetch_options this endpoint method body)) as [e0 | status txt];
    unfold accepted.
  - split; [intros d; split; [discriminate | tauto] | apply Hre].
  - destruct (ok status); cbn [negb].
    + destruct (is_blank txt).
      * split; [intros d; split; [discriminate | intros (_ & H & _); discriminate] | apply Hre].
      * destruct (JSON_parse txt) as [e0 | d0].
        -- split; [intros d; split; [discriminate | intros (_ & _ & H); discriminate]
                  | apply Hre].
        -- split; [| discriminate].
           intros d. split.
           ++ intros H. injection H as <-. auto.
           ++ intros (_ & _ & H). injection H as <-. reflexivity.
    + split; [intros d; split; [discriminate | intros (H & _); discriminate] | apply Hre].
Qed.

(** X2.  The message for each way a request fails.  A transport failure
    with message [m] gives "Failed to connect to Proxmox: m", whatever the
    kind of the error, unless its name is SyntaxError.  A status outside
    200..299 gives the connection prefix around
    "Proxmox API error: <status> - <body>"; a body of nothing but white
    space under a 2xx status gives the connection prefix around
    "Empty response from Proxmox API".  An error of the parser gives
    "Failed to parse Proxmox API response: m" when its name is SyntaxError
    and the connection prefix otherwise. *)
Theorem X2_proxmoxRequest_errors (b : backend) (log : list request)
    (endpoint method : string) (body : option (option string)) :
  let r := fetch_options this endpoint method body in
  let thrown := fst (run b log (proxmoxRequest JSON_parse this endpoint method body)) in
  (forall e, b log r = NetworkFailure e -> error_name e <> "SyntaxError" ->
     thrown = Thrown (Error ("Failed to connect to Proxmox: " ++ message e))) /\
  (forall status txt, b log r = Response status txt -> ~ 200 <= status <= 299 ->
     thrown = Thrown (Error ("Failed to connect to Proxmox: Proxmox API error: "
                               ++ Z_to_string status ++ " - " ++ txt))) /\
  (forall status txt, b log r = Response status txt -> 200 <= status <= 299 ->
     is_blank txt = true ->
     thrown = Thrown (Error ("Failed to connect to Proxmox: "
                               ++ "Empty response from Proxmox API"))) /\
  (forall status txt e, b log r = Response status txt -> 200 <= status <= 299 ->
     is_blank txt = false -> JSON_parse txt = inl e ->
     (error_name e = "SyntaxError" ->
      thrown = Thrown (Error ("Failed to parse Proxmox API response: " ++ message e))) /\
     (error_name e <> "SyntaxError" ->
      thrown = Thrown (Error ("Failed to connect to Proxmox: " ++ message e)))).
Proof.
  cbv zeta. rewrite run_proxmoxRequest. cbn [fst].
  assert (Hok : forall status, 200 <= status <= 299 -> ok status = true).
  { intros status H. unfold ok. apply andb_true_iff. split; apply Z.leb_le; lia. }
  assert (Hnok : forall status, ~ 200 <= status <= 299 -> ok status = false).
  { intros status H. unfold ok. apply andb_false_iff.
    destruct (Z.leb_spec 200 status); [right | left; reflexivity].
    apply Z.leb_gt. lia. }
  split; [| split; [| split]].
  - intros e -> Hn. apply String.eqb_neq in Hn. now rewrite Hn.
  - intros status txt -> H. now rewrite (Hnok status H).
  - intros status txt -> H Hb. now rewrite (Hok status H), Hb.
  - intros status txt e -> H Hb Hp. rewrite (Hok status H), Hb, Hp. cbn [negb].
    split; intros Hn.
    + now rewrite Hn.
    + apply String.eqb_neq in Hn. now rewrite Hn.
Qed.

End Client.

Lemma X1_proxmoxRequest_outcome_witness :
  fst (run (Example.always (Response 200 "qemu-list")) []
         (proxmoxRequest (Example.parse Example.guests_table) (Example.config false)
            "/nodes/pve1/qemu" "GET" None))
  = Returned (Guests [Example.vm100]).
Proof.
  apply (proj1 (proj2 (X1_proxmoxRequest_outcome
                         (Example.parse Example.guests_table) (Example.config false)
                         (Example.always (Response 200 "qemu-list")) []
                         "/nodes/pve1/qemu" "GET" None))).
  repeat split.
Defined.

Lemma X2_proxmoxRequest_errors_witness :
  Example.always (Response 204 (" " ++ Example.nbsp)) []
    (fetch_options (Example.config false) "/nodes" "GET" None)
  = Response 204 (" " ++ Example.nbsp) /\
  200 <= 204 <= 299 /\
  is_blank (" " ++ Example.nbsp) = true /\
  fst (run (Example.always (Response 204 (" " ++ Example.nbsp))) []
         (proxmoxRequest (Example.parse []) (Example.config false) "/nodes" "GET" None))
  = Thrown (Error "Failed to connect to Proxmox: Empty response from Proxmox API").
Proof.
  split; [reflexivity|]. split; [lia|]. split; [reflexivity|].
  exact (proj1 (proj2 (proj2 (X2_proxmoxRequest_errors
                                (Example.parse []) (Example.config false)
                                (Example.always (Response 204 (" " ++ Example.nbsp))) []
                                "/nodes" "GET" None)))
           204 (" " ++ Example.nbsp) eq_refl ltac:(lia) eq_refl).
Defined.

(** ** What holds of a computation whatever the backend answers *)

Section Trees.

Context {A B : Type}.

Lemma every_return_bind (Q : B -> Prop) (p : proc A) (f : A -> proc B) :
  (forall a, every_return Q (f a)) -> every_return Q (bind p f).
Proof. intros Hf. induction p as [a | e | r k IH]; cbn; auto. Qed.

Lemma every_return_try_catch (Q : A -> Prop) (p : proc A) (h : error -> proc A) :
  every_return Q p -> (forall e, every_return Q (h e)) ->
  every_return Q (try_catch p h).
Proof. intros Hp Hh. induction p as [a | e | r k IH]; cbn in *; auto. Qed.

Lemma never_throws_try_catch (p : proc A) (h : error -> proc A) :
  (forall e, never_throws (h e)) -> never_throws (try_catch p h).
Proof. intros Hh. induction p as [a | e | r k IH]; cbn; auto. Qed.

Lemma run_returns (Q : A -> Prop) (p : proc A) :
  never_throws p -> every_return Q p ->
  forall b log, exists a, fst (run b log p) = Returned a /\ Q a.
Proof.
  induction p as [a | e | r k IH]; cbn; intros Hn Hq b log.
  - exists a. auto.
  - destruct Hn.
  - apply IH; auto.
Qed.

Lemma every_request_bind (P : request -> Prop) (p : proc A) (f : A -> proc B) :
  every_request P p -> (forall a, every_request P (f a)) ->
  every_request P (bind p f).
Proof.
  intros Hp Hf. induction p as [a | e | r k IH]; cbn in *; auto.
  destruct Hp as [Hr Hk]. split; auto.
Qed.

Lemma every_request_try_catch (P : request -> Prop) (p : proc A) (h : error -> proc A) :
  every_request P p -> (forall e, every_request P (h e)) ->
  every_request P (try_catch p h).
Proof.
  intros Hp Hh. induction p as [a | e | r k IH]; cbn in *; auto.
  destruct Hp as [Hr Hk]. split; auto.
Qed.

Lemma every_request_run (P : request -> Prop) (p : proc A) :
  every_request P p ->
  forall b log, Forall P log -> Forall P (snd (run b log p)).
Proof.
  induction p as [a | e | r k IH]; cbn; intros Hp b log Hlog; auto.
  destruct Hp as [Hr Hk]. apply IH; [apply Hk|].
  apply Forall_app. split; [exact Hlog | repeat constructor; exact Hr].
Qed.

End Trees.

Lemma every_request_for_each {A S : Type} (P : request -> Prop)
    (l : list A) (body : A -> S -> proc S) :
  (forall x s, every_request P (body x s)) ->
  forall s, every_request P (for_each l s body).
Proof.
  intros Hb. induction l as [| x l IH]; intros s; cbn [for_each]; [exact I|].
  apply every_request_bind; auto.
Qed.

Ltac returns_text :=
  repeat first
    [ progress intros
    | match goal with
      | |- every_return _ (bind _ _) => apply every_return_bind
      | |- every_return _ (try_catch _ _) => apply every_return_try_catch
      | |- every_return _ (if ?c then _ else _) => destruct c
      | |- every_return _ (match ?d with _ => _ end) => destruct d
      | |- every_return _ (Throw _) => exact I
      | |- every_return is_text_result (Ret (text_result ?s)) => exists s; reflexivity
      end ].

(** ** The dispatcher, for every request *)

Section Dispatcher.

Variable JSON_parse : string -> error + data.
Variable localeCompare : string -> string -> Z.
Variable this : Config.

Lemma every_request_proxmoxRequest (P : request -> Prop)
    (endpoint method : string) (body : option (option string)) :
  P (fetch_options this endpoint method body) ->
  every_request P (proxmoxRequest JSON_parse this endpoint method body).
Proof.
  intros HP. unfold proxmoxRequest. cbn [try_catch every_request].
  split; [exact HP|]. intros x. apply every_request_try_catch.
  - destruct x as [e | status txt]; [exact I|].
    destruct (negb (ok status)); [exact I|].
    destruct (is_blank txt); [exact I|].
    destruct (JSON_parse txt); exact I.
  - intros e. destruct (error_name e =? "SyntaxError")%string; exact I.
Qed.

Lemma every_request_GET (P : request -> Prop) (endpoint : string) :
  P (fetch_options this endpoint "GET" None) ->
  every_request P (GET JSON_parse this endpoint).
Proof. apply every_request_proxmoxRequest. Qed.

Ltac requests :=
  repeat first
    [ exact I
    | progress intros
    | match goal with
      | |- every_request _ (GET _ _ _) => apply every_request_GET
      | |- every_request _ (proxmoxRequest _ _ _ _ _) =>
          apply every_request_proxmoxRequest
      | |- every_request _ (bind _ _) => apply every_request_bind
      | |- every_request _ (try_catch _ _) => apply every_request_try_catch
      | |- every_request _ (for_each _ _ _) => apply every_request_for_each
      | |- every_request _ (if ?c then _ else _) => destruct c
      | |- every_request _ (match ?d with _ => _ end) => destruct d
      end ].

(** The requests of a tool call, given that [P] holds of every GET request
    of this client and, where a command may be posted, of every POST. *)
Lemma CallTool_requests (P : request -> Prop) (name : string) (args : option Arguments) :
  (forall endpoint, P (fetch_options this endpoint "GET" None)) ->
  (name = "proxmox_execute_vm_command" -> allowElevated this = true ->
   forall endpoint command, P (fetch_options this endpoint "POST" (Some command))) ->
  every_request P (CallTool JSON_parse localeCompare this name args).
Proof.
  intros Hget Hpost. unfold CallTool.
  apply every_request_try_catch; [| intros e; exact I].
  repeat match goal with
  | |- context [String.eqb name ?s] => destruct (String.eqb_spec name s) as [-> | _]
  end; try exact I.
  - unfold getNodes, iterate_nodes. requests; apply Hget.
  - destruct args as [args |]; [| exact I]. cbn [with_args].
    unfold getNodeStatus. requests; apply Hget.
  - destruct args as [args |]; [| exact I]. cbn [with_args].
    unfold getVMs, iterate_nodes, expect_guests. requests; apply Hget.
  - destruct args as [args |]; [| exact I]. cbn [with_args].
    unfold getVMStatus. requests; apply Hget.
  - destruct args as [args |]; [| exact I]. cbn [with_args].
    unfold executeVMCommand.
    destruct (allowElevated this) eqn:He; cbn [negb]; [| exact I].
    requests; now apply Hpost.
  - destruct args as [args |]; [| exact I]. cbn [with_args].
    unfold getStorage, gather_storages, iterate_nodes, expect_storages.
    requests; apply Hget.
  - unfold getClusterStatus, array_nodes. requests; apply Hget.
Qed.

Lemma CallTool_returns_text (name : string) (args : option Arguments) :
  every_return is_text_result (CallTool JSON_parse localeCompare this name args).
Proof.
  unfold CallTool.
  apply every_return_try_catch; [| intros e; eexists; reflexivity].
  repeat match goal with
  | |- context [String.eqb name ?s] => destruct (String.eqb_spec name s) as [-> | _]
  end; try exact I.
  - unfold getNodes. returns_text.
  - destruct args as [args |]; [| exact I]. cbn [with_args].
    unfold getNodeStatus. returns_text.
  - destruct args as [args |]; [| exact I]. cbn [with_args].
    unfold getVMs. returns_text.
  - destruct args as [args |]; [| exact I]. cbn [with_args].
    unfold getVMStatus. returns_text.
  - destruct args as [args |]; [| exact I]. cbn [with_args].
    unfold executeVMCommand. returns_text.
  - destruct args as [args |]; [| exact I]. cbn [with_args].
    unfold getStorage. returns_text.
  - unfold getClusterStatus. returns_text.
Qed.

(** X3.  Whatever the operation name, the arguments and the answers of the
    backend, the dispatcher returns (it never throws) and what it returns is
    a payload with exactly one item, of type "text". *)
Theorem X3_dispatcher_always_returns_text
    (name : string) (args : option Arguments) (b : backend) :
  exists s,
    result b (CallTool JSON_parse localeCompare this name args)
    = Returned {| content := [ {| type := "text"; text := s |} ] |}.
Proof.
  destruct (run_returns is_text_result
              (CallTool JSON_parse localeCompare this name args)) with (b := b) (log := @nil request)
    as (a & Ha & s & ->).
  - unfold CallTool. apply never_throws_try_catch. intros e. exact I.
  - apply CallTool_returns_text.
  - exists s. exact Ha.
Qed.

(** X4.  Every request of every tool call carries the same two headers:
    the API token built from user, token name and token value (the text
    "undefined" when no value is configured) and the JSON content type. *)
Theorem X4_request_headers
    (name : string) (args : option Arguments) (b : backend) :
  Forall (fun r => headers r = auth_headers this)
    (calls b (CallTool JSON_parse localeCompare this name args)).
Proof.
  apply every_request_run; [| constructor].
  apply CallTool_requests.
  - intros endpoint. reflexivity.
  - intros _ _ endpoint command. reflexivity.
Qed.

(** X5.  Only guest-exec with elevated access enabled can send anything but
    a GET without body: for every other operation, and for guest-exec with
    the flag off, each request made is a GET and has no body. *)
Theorem X5_read_only_unless_elevated_exec
    (name : string) (args : option Arguments) (b : backend) :
  name <> "proxmox_execute_vm_command" \/ allowElevated this = false ->
  Forall (fun r => method r = "GET" /\ body r = None)
    (calls b (CallTool JSON_parse localeCompare this name args)).
Proof.
  intros H. apply every_request_run; [| constructor].
  apply CallTool_requests.
  - intros endpoint. split; reflexivity.
  - intros Hn He. destruct H as [H | H]; [contradiction | congruence].
Qed.

End Dispatcher.

Lemma X5_read_only_unless_elevated_exec_witness :
  ("proxmox_get_vms" <> "proxmox_execute_vm_command" \/
   allowElevated (Example.config true) = false) /\
  Forall (fun r => method r = "GET" /\ body r = None)
    (calls Example.guests_backend
       (CallTool (Example.parse Example.guests_table) Example.compare (Example.config true)
          "proxmox_get_vms" (Some Example.no_args))).
Proof.
  assert (H : "proxmox_get_vms" <> "proxmox_execute_vm_command" \/
              allowElevated (Example.config true) = false) by (left; discriminate).
  split; [exact H|].
  exact (X5_read_only_unless_elevated_exec
           (Example.parse Example.guests_table) Example.compare (Example.config true)
           "proxmox_get_vms" (Some Example.no_args) Example.guests_backend H).
Defined.

(** ** Handlers that report their own failures *)

Lemma run_try_catch {A : Type} (b : backend) (p : proc A) (h : error -> proc A) :
  forall log,
    run b log (try_catch p h) =
      match run b log p with
      | (Returned a, log') => (Returned a, log')
      | (Thrown e, log') => run b log' (h e)
      end.
Proof.
  induction p as [a | e | r k IH]; intros log; cbn; try reflexivity.
  apply IH.
Qed.

Section OwnFailures.

Variable JSON_parse : string -> error + data.
Variable localeCompare : string -> string -> Z.
Variable this : Config.

Lemma run_accepted (b : backend) (log : list request)
    (endpoint method : string) (body : option (option string)) (d : data) :
  accepted JSON_parse (b log (fetch_options this endpoint method body)) d ->
  run b log (proxmoxRequest JSON_parse this endpoint method body)
  = (Returned d, (log ++ [fetch_options this endpoint method body])%list).
Proof.
  intros H. rewrite run_proxmoxRequest. cbv zeta.
  destruct (b log (fetch_options this endpoint method body)) as [e | status txt];
    [destruct H|].
  destruct H as (H1 & H2 & H3). now rewrite H1, H2, H3.
Qed.

Lemma run_thrown (b : backend) (log : list request)
    (endpoint method : string) (body : option (option string)) (e : error) :
  fst (run b log (proxmoxRequest JSON_parse this endpoint method body)) = Thrown e ->
  run b log (proxmoxRequest JSON_parse this endpoint method body)
  = (Thrown e, (log ++ [fetch_options this endpoint method body])%list).
Proof.
  intros H.
  pose proof (run_proxmoxRequest_log JSON_parse this b log endpoint method body) as Hl.
  destruct (run b log (proxmoxRequest JSON_parse this endpoint method body)) as [o l].
  cbn in *. now subst.
Qed.

(** X6.  cluster-status needs the node list only.  When the answer to
    [/nodes] is accepted, the result is the cluster text of those nodes; with
    elevated access one more request, to [/cluster/status], is made, and
    neither its answer nor its failure changes the result. *)
Theorem X6_cluster_status_best_effort (b : backend) (nodes : list Node) :
  accepted JSON_parse (b [] (fetch_options this "/nodes" "GET" None)) (Nodes nodes) ->
  run b [] (getClusterStatus JSON_parse localeCompare this)
  = (Returned (text_result (cluster_text localeCompare this nodes)),
     if allowElevated this
     then [fetch_options this "/nodes" "GET" None;
           fetch_options this "/cluster/status" "GET" None]
     else [fetch_options this "/nodes" "GET" None]).
Proof.
  intros H. unfold getClusterStatus.
  rewrite run_try_catch, run_bind. unfold GET at 1.
  rewrite (run_accepted b [] _ _ _ _ H). rewrite app_nil_l.
  rewrite run_bind.
  destruct (allowElevated this).
  - rewrite run_try_catch, run_bind. unfold GET.
    pose proof (run_proxmoxRequest_log JSON_parse this b
                  [fetch_options this "/nodes" "GET" None] "/cluster/status" "GET" None)
      as Hl.
    destruct (run b [fetch_options this "/nodes" "GET" None]
                (proxmoxRequest JSON_parse this "/cluster/status" "GET" None))
      as [[d | e] l]; cbn in Hl; subst l; reflexivity.
  - reflexivity.
Qed.

(** X7.  cluster-status never throws: it returns the cluster text of some
    node list or its own failure text.  When the request for [/nodes] fails
    with error [e], only that request is made and the text is the failure
    text with the message of [e]. *)
Theorem X7_cluster_status_own_failure (b : backend) :
  (exists s,
     result b (getClusterStatus JSON_parse localeCompare this) = Returned (text_result s)
     /\ ((exists nodes, s = cluster_text localeCompare this nodes) \/
         (exists msg, s = cluster_failure msg))) /\
  (forall e,
     fst (run b [] (proxmoxRequest JSON_parse this "/nodes" "GET" None)) = Thrown e ->
     run b [] (getClusterStatus JSON_parse localeCompare this)
     = (Returned (text_result (cluster_failure (message e))),
        [fetch_options this "/nodes" "GET" None])).
Proof.
  split.
  - destruct (run_returns
                (fun r => exists s, r = text_result s /\
                   ((exists nodes, s = cluster_text localeCompare this nodes) \/
                    (exists msg, s = cluster_failure msg)))
                (getClusterStatus JSON_parse localeCompare this))
      with (b := b) (log := @nil request) as (a & Ha & s & -> & Hs).
    + unfold getClusterStatus. apply never_throws_try_catch. intros e. exact I.
    + unfold getClusterStatus. apply every_return_try_catch.
      * apply every_return_bind. intros d. apply every_return_bind. intros _.
        destruct d; try exact I.
        cbn. eexists. split; [reflexivity|]. left. eexists. reflexivity.
      * intros e. cbn. eexists. split; [reflexivity|]. right. eexists. reflexivity.
    + exists s. split; assumption.
  - intros e He. unfold getClusterStatus.
    rewrite run_try_catch, run_bind. unfold GET at 1.
    rewrite (run_thrown b [] _ _ _ e He). reflexivity.
Qed.

End OwnFailures.

Lemma X6_cluster_status_best_effort_witness :
  run (fun log r =>
         match log with
         | [] => Response 200 "nodes"
         | _ => NetworkFailure (Error "connect ECONNREFUSED")
         end) []
    (getClusterStatus (Example.parse Example.guests_table) Example.compare
       (Example.config true))
  = (Returned (text_result
       (cluster_text Example.compare (Example.config true)
          [mkNode "pve1" (Some "online") None None None None None None])),
     [fetch_options (Example.config true) "/nodes" "GET" None;
      fetch_options (Example.config true) "/cluster/status" "GET" None]).
Proof.
  apply (X6_cluster_status_best_effort
           (Example.parse Example.guests_table) Example.compare (Example.config true)).
  repeat split.
Defined.

Lemma X7_cluster_status_own_failure_witness :
  run (Example.always (Response 401 "no ticket")) []
    (getClusterStatus (Example.parse []) Example.compare (Example.config true))
  = (Returned (text_result
       (cluster_failure
          "Failed to connect to Proxmox: Proxmox API error: 401 - no ticket")),
     [fetch_options (Example.config true) "/nodes" "GET" None]).
Proof.
  exact (proj2 (X7_cluster_status_own_failure
                  (Example.parse []) Example.compare (Example.config true)
                  (Example.always (Response 401 "no ticket")))
           (Error "Failed to connect to Proxmox: Proxmox API error: 401 - no ticket")
           eq_refl).
Defined.

(** ** Cluster resource aggregation *)

Lemma resources_from (nodes : list Node) :
  forall totalCpu usedCpu totalMem usedMem,
    fold_left resource_step nodes (totalCpu, usedCpu, totalMem, usedMem)
    = (totalCpu + cpu_capacity nodes,
       fold_left fadd
         (map (fun n => fmul (orQ (node_cpu n)) (of_Z (orZ (node_maxcpu n))))
            (filter online nodes))
         usedCpu,
       totalMem + mem_capacity nodes, usedMem + mem_used nodes).
Proof.
  unfold cpu_capacity, mem_capacity, mem_used.
  induction nodes as [| n nodes IH]; intros tc uc tm um; cbn [fold_left filter].
  - cbn. now rewrite !Z.add_0_r.
  - unfold resource_step at 2. destruct (online n); [| apply IH].
    rewrite IH. cbn [map sumZ fold_right fold_left]. now rewrite !Z.add_assoc.
Qed.

Section ClusterResources.

Variable JSON_parse : string -> error + data.
Variable localeCompare : string -> string -> Z.
Variable this : Config.

Lemma cluster_text_elevated (nodes : list Node) :
  allowElevated this = true ->
  cluster_text localeCompare this nodes
  = cluster_overview nodes ++ resource_usage_text nodes
      ++ node_details localeCompare nodes.
Proof.
  intros He. unfold cluster_text, cluster_overview, node_details. rewrite He.
  rewrite !append_assoc. reflexivity.
Qed.

(** C5 (as amended).  For every node list whose counts are in range, the
    resource loop of cluster-status leaves in its accumulators the sums over
    the online nodes: of maxcpu, of maxmem, of mem, and of the products
    cpu * maxcpu added up as doubles.  Each percentage is "N/A" when the
    capacity is zero and otherwise [toFixed(1)] of the double
    (used / capacity) * 100.  With elevated access the text that
    cluster-status returns reports these figures.  For the two online nodes
    of the scenario both percentages are "37.5". *)
Theorem C5_cluster_resources (nodes : list Node) :
  counts_in_range nodes ->
  resources nodes
  = (cpu_capacity nodes, cpu_used nodes, mem_capacity nodes, mem_used nodes) /\
  (0 < cpu_capacity nodes ->
     cpuPercent nodes
     = double_toFixed
         (fmul (fdiv (cpu_used nodes) (of_Z (cpu_capacity nodes))) (of_Z 100)) 1) /\
  (cpu_capacity nodes = 0 -> cpuPercent nodes = "N/A") /\
  (0 < mem_capacity nodes ->
     memPercent nodes
     = double_toFixed
         (fmul (fdiv (of_Z (mem_used nodes)) (of_Z (mem_capacity nodes))) (of_Z 100)) 1) /\
  (mem_capacity nodes = 0 -> memPercent nodes = "N/A") /\
  (forall b : backend,
     allowElevated this = true ->
     accepted JSON_parse (b [] (fetch_options this "/nodes" "GET" None)) (Nodes nodes) ->
     result b (getClusterStatus JSON_parse localeCompare this)
     = Returned (text_result
         (cluster_overview nodes
            ++ "**Resource Usage**:" ++ nl
            ++ "• CPU: " ++ cpuPercent nodes ++ "% ("
            ++ double_toFixed (cpu_used nodes) 1 ++ "/"
            ++ Z_to_string (cpu_capacity nodes) ++ " cores)" ++ nl
            ++ "• Memory: " ++ memPercent nodes ++ "% ("
            ++ formatBytes (mem_used nodes) ++ "/" ++ formatBytes (mem_capacity nodes)
            ++ ")" ++ nl ++ nl
            ++ node_details localeCompare nodes))) /\
  cpuPercent [Example.nodeA; Example.nodeB] = "37.5" /\
  memPercent [Example.nodeA; Example.nodeB] = "37.5" /\
  resource_usage_text [Example.nodeA; Example.nodeB]
  = "**Resource Usage**:" ++ nl
      ++ "• CPU: 37.5% (1.5/4 cores)" ++ nl
      ++ "• Memory: 37.5% (750 B/1.95 KB)" ++ nl ++ nl.
Proof.
  intros _.
  pose proof (resources_from nodes 0 (of_Z 0) 0 0) as E.
  fold (resources nodes) in E. fold (cpu_used nodes) in E. rewrite !Z.add_0_l in E.
  split; [exact E|].
  unfold cpuPercent, memPercent. rewrite E.
  split; [| split; [| split; [| split; [| split]]]].
  - intros Hpos. destruct (Z.gtb_spec (cpu_capacity nodes) 0); [reflexivity | lia].
  - intros ->. reflexivity.
  - intros Hpos. destruct (Z.gtb_spec (mem_capacity nodes) 0); [reflexivity | lia].
  - intros ->. reflexivity.
  - intros b He H. unfold result, getClusterStatus.
    rewrite run_try_catch, run_bind. unfold GET at 1.
    rewrite (run_accepted JSON_parse this b [] _ _ _ _ H). rewrite app_nil_l.
    rewrite run_bind, He, run_try_catch, run_bind. unfold GET.
    destruct (run b [fetch_options this "/nodes" "GET" None]
                (proxmoxRequest JSON_parse this "/cluster/status" "GET" None))
      as [[d | e] l]; cbn [run bind array_nodes fst];
      rewrite (cluster_text_elevated nodes He);
      unfold resource_usage_text, cpuPercent, memPercent; rewrite E;
      rewrite !append_assoc; reflexivity.
  - repeat split; vm_compute; reflexivity.
Qed.

End ClusterResources.

Lemma scenario_in_range : counts_in_range [Example.nodeA; Example.nodeB].
Proof.
  split; [| repeat split; vm_compute; reflexivity].
  repeat constructor; try discriminate; exact I.
Qed.

Lemma C5_cluster_resources_witness :
  counts_in_range [Example.nodeA; Example.nodeB] /\
  0 < cpu_capacity [Example.nodeA; Example.nodeB] /\
  cpuPercent [Example.nodeA; Example.nodeB]
  = double_toFixed
      (fmul (fdiv (cpu_used [Example.nodeA; Example.nodeB])
               (of_Z (cpu_capacity [Example.nodeA; Example.nodeB]))) (of_Z 100)) 1.
Proof.
  split; [exact scenario_in_range|]. split; [reflexivity|].
  exact (proj1 (proj2 (C5_cluster_resources (Example.parse []) Example.compare
                         (Example.config true) [Example.nodeA; Example.nodeB]
                         scenario_in_range))
           ltac:(reflexivity)).
Defined.

(** One online node with 23 of 80 bytes in use: the percentage is 28.75,
    which rounds to 28.8; the double (23 / 80) * 100 lies just below 28.75
    and cluster-status reports 28.7. *)
Lemma C5_counterexample :
  counts_in_range [Example.node23] /\
  mem_used [Example.node23] = 23 /\
  mem_capacity [Example.node23] = 80 /\
  exact_percent 23 80 = "28.8" /\
  memPercent [Example.node23] = "28.7" /\
  result (Example.always (Response 200 "nodes"))
    (getClusterStatus (Example.parse [("nodes", Nodes [Example.node23])])
       Example.compare (Example.config true))
  = Returned (text_result
      (cluster_overview [Example.node23]
         ++ "**Resource Usage**:" ++ nl
         ++ "• CPU: 0.0% (0.0/1 cores)" ++ nl
         ++ "• Memory: 28.7% (23 B/80 B)" ++ nl ++ nl
         ++ node_details Example.compare [Example.node23])).
Proof.
  split.
  { split; [| repeat split; vm_compute; reflexivity].
    repeat constructor; try discriminate; exact I. }
  repeat split; vm_compute; reflexivity.
Qed.

Section Exec.

Variable JSON_parse : string -> error + data.
Variable this : Config.

(** X8.  With elevated access, guest-exec makes exactly one request: a POST
    of the command to the guest-agent endpoint when the type is "qemu" (also
    when no type is given) and to the container endpoint for any other type.
    It never throws: when that request fails with error [e] the result is
    the guest-exec failure text with the message of [e]. *)
Theorem X8_guest_exec_one_post (node vmid command type : option string) (b : backend) :
  allowElevated this = true ->
  let post := fetch_options this (exec_endpoint node vmid type) "POST" (Some command) in
  calls b (executeVMCommand JSON_parse this node vmid command type) = [post] /\
  (exists s,
     result b (executeVMCommand JSON_parse this node vmid command type)
     = Returned (text_result s)) /\
  (forall e,
     fst (run b [] (proxmoxRequest JSON_parse this (exec_endpoint node vmid type)
                      "POST" (Some command))) = Thrown e ->
     result b (executeVMCommand JSON_parse this node vmid command type)
     = Returned (text_result (exec_failure vmid (message e)))).
Proof.
  intros He post. unfold calls, result, executeVMCommand, exec_endpoint in *.
  rewrite He. cbn [negb]. rewrite run_try_catch.
  destruct (match type with Some t => t | None => "qemu" end =? "qemu")%string.
  - rewrite run_bind.
    pose proof (run_proxmoxRequest_log JSON_parse this b []
                  ("/nodes/" ++ show node ++ "/qemu/" ++ show vmid ++ "/agent/exec")
                  "POST" (Some command)) as Hl.
    destruct (run b [] (proxmoxRequest JSON_parse this
                          ("/nodes/" ++ show node ++ "/qemu/" ++ show vmid ++ "/agent/exec")
                          "POST" (Some command))) as [[d | e0] l].
    + cbn in Hl. subst l. rewrite run_bind.
      repeat split; try discriminate;
        destruct d; cbn; try reflexivity; eexists; reflexivity.
    + cbn in Hl. subst l. repeat split.
      * eexists. reflexivity.
      * intros e H. injection H as <-. reflexivity.
  - rewrite run_bind.
    pose proof (run_proxmoxRequest_log JSON_parse this b []
                  ("/nodes/" ++ show node ++ "/lxc/" ++ show vmid ++ "/exec")
                  "POST" (Some command)) as Hl.
    destruct (run b [] (proxmoxRequest JSON_parse this
                          ("/nodes/" ++ show node ++ "/lxc/" ++ show vmid ++ "/exec")
                          "POST" (Some command))) as [[d | e0] l].
    + cbn in Hl. subst l.
      repeat split; try discriminate. eexists. reflexivity.
    + cbn in Hl. subst l. repeat split.
      * eexists. reflexivity.
      * intros e H. injection H as <-. reflexivity.
Qed.

End Exec.

Lemma X8_guest_exec_one_post_witness :
  allowElevated (Example.config true) = true /\
  calls (Example.always (Response 500 "agent not running"))
    (executeVMCommand (Example.parse []) (Example.config true)
       (Some "pve1") (Some "100") (Some "uptime") None)
  = [fetch_options (Example.config true) "/nodes/pve1/qemu/100/agent/exec" "POST"
       (Some (Some "uptime"))].
Proof.
  split; [reflexivity|].
  exact (proj1 (X8_guest_exec_one_post (Example.parse []) (Example.config true)
                  (Some "pve1") (Some "100") (Some "uptime") None
                  (Example.always (Response 500 "agent not running")) eq_refl)).
Defined.

(** ** Listings *)

Lemma fold_left_blocks {A : Type} (block : A -> string) (l : list A) :
  forall init,
    fold_left (fun out x => out ++ block x) l init = init ++ blocks block l.
Proof.
  induction l as [| x l IH]; intros init; cbn [fold_left blocks fold_right].
  - now rewrite append_nil_r.
  - rewrite IH, append_assoc. reflexivity.
Qed.

Section Listings.

Variable JSON_parse : string -> error + data.
Variable localeCompare : string -> string -> Z.
Variable this : Config.

(** X9.  list-nodes makes one request and, when the answer is accepted as a
    node list, returns the header followed by one block per node in the
    order of the answer; an empty node list gives the header alone. *)
Theorem X9_list_nodes_blocks (b : backend) (nodes : list Node) :
  accepted JSON_parse (b [] (fetch_options this "/nodes" "GET" None)) (Nodes nodes) ->
  run b [] (CallTool JSON_parse localeCompare this "proxmox_get_nodes" None)
  = (Returned (text_result
       ("🖥️  **Proxmox Cluster Nodes**" ++ nl ++ nl ++ blocks node_block nodes)),
     [fetch_options this "/nodes" "GET" None]).
Proof.
  intros H. unfold CallTool. cbn [String.eqb Ascii.eqb Bool.eqb].
  change (run b [] (try_catch (getNodes JSON_parse this)
            (fun error => Ret (text_result ("Error: " ++ message error)))) = 
          (Returned (text_result
             ("🖥️  **Proxmox Cluster Nodes**" ++ nl ++ nl ++ blocks node_block nodes)),
           [fetch_options this "/nodes" "GET" None])).
  rewrite run_try_catch. unfold getNodes. rewrite run_bind. unfold GET.
  rewrite (run_accepted JSON_parse this b [] _ _ _ _ H).
  cbn [iterate_nodes bind run app]. rewrite fold_left_blocks, !append_assoc.
  reflexivity.
Qed.

(** The loop over the nodes asks nothing when no type is wanted. *)
Lemma for_each_no_type (nodes : list Node) (typeFilter : string) :
  (typeFilter =? "all")%string = false ->
  (typeFilter =? "qemu")%string = false ->
  (typeFilter =? "lxc")%string = false ->
  forall vms : list Guest,
    for_each nodes vms (fun node vms =>
      vms1 <-
        (if ((typeFilter =? "all") || (typeFilter =? "qemu"))%string then
           d1 <- GET JSON_parse this ("/nodes/" ++ node_name node ++ "/qemu") ;;
           nodeVMs <- expect_guests "nodeVMs" d1 ;;
           Ret (vms ++ map (tag "qemu" (Some (node_name node))) nodeVMs)%list
         else Ret vms) ;;
      (if ((typeFilter =? "all") || (typeFilter =? "lxc"))%string then
         d2 <- GET JSON_parse this ("/nodes/" ++ node_name node ++ "/lxc") ;;
         nodeLXCs <- expect_guests "nodeLXCs" d2 ;;
         Ret (vms1 ++ map (fun vm =>
                tag "lxc" (if truthyS (vm_node vm) then vm_node vm
                           else Some (node_name node)) vm) nodeLXCs)%list
       else Ret vms1))
    = Ret vms.
Proof.
  intros E1 E2 E3. rewrite E1, E2, E3. cbn [orb].
  induction nodes as [| n nodes IH]; intros vms; cbn [for_each bind]; auto.
Qed.

(** X10.  A type filter other than "all", "qemu" and "lxc" is not
    rejected: without a node filter list-guests asks for the node list,
    asks nothing per node, and reports that no virtual machines were
    found. *)
Theorem X10_list_guests_unknown_type (b : backend) (nodeFilter : option string)
    (typeFilter : string) (nodes : list Node) :
  truthyS nodeFilter = false ->
  typeFilter <> "all" -> typeFilter <> "qemu" -> typeFilter <> "lxc" ->
  accepted JSON_parse (b [] (fetch_options this "/nodes" "GET" None)) (Nodes nodes) ->
  run b [] (getVMs JSON_parse this nodeFilter (Some typeFilter))
  = (Returned (text_result
       ("💻 **Virtual Machines**" ++ nl ++ nl ++ "No virtual machines found." ++ nl)),
     [fetch_options this "/nodes" "GET" None]).
Proof.
  intros Hf H1 H2 H3 H.
  apply String.eqb_neq in H1, H2, H3.
  unfold getVMs. rewrite Hf. cbv beta iota zeta.
  rewrite !run_bind. unfold GET at 1.
  rewrite (run_accepted JSON_parse this b [] _ _ _ _ H).
  cbv beta iota. cbn [iterate_nodes bind].
  rewrite (for_each_no_type nodes typeFilter H1 H2 H3 []).
  reflexivity.
Qed.

(** X11.  The guests of a non-empty listing are written one block each, in
    ascending order of their numeric id: the blocks follow a rearrangement
    of the gathered guests in which no guest comes before one with a smaller
    id. *)
Theorem X11_list_guests_sorted (vms : list Guest) :
  vms <> [] ->
  exists listed,
    Permutation listed vms /\
    StronglySorted (fun a b => vmid a <= vmid b) listed /\
    vms_text vms = "💻 **Virtual Machines**" ++ nl ++ nl ++ blocks vm_block listed.
Proof.
  intros Hne.
  exists (sort (fun a b => vmid a - vmid b) vms).
  split; [apply sort_perm|]. split.
  - assert (Hs : Sorted (fun a b => vmid a <= vmid b)
                   (sort (fun a b => vmid a - vmid b) vms)).
    { pose proof (sort_Sorted (fun a b => vmid a - vmid b) vms
                    ltac:(intros; lia)) as H.
      induction H as [| x l Hl IH Hhd]; constructor; [exact IH|].
      destruct Hhd; constructor. lia. }
    apply Sorted_StronglySorted; [| exact Hs].
    intros x y z Hxy Hyz. lia.
  - unfold vms_text. destruct vms as [| vm vms]; [contradiction|].
    rewrite fold_left_blocks, !append_assoc. reflexivity.
Qed.

End Listings.

Lemma X9_list_nodes_blocks_witness :
  result (Example.always (Response 200 "empty"))
    (CallTool (Example.parse [("empty", Nodes [])]) Example.compare (Example.config false)
       "proxmox_get_nodes" None)
  = Returned (text_result ("🖥️  **Proxmox Cluster Nodes**" ++ nl ++ nl)).
Proof.
  unfold result.
  rewrite (X9_list_nodes_blocks (Example.parse [("empty", Nodes [])]) Example.compare
             (Example.config false) (Example.always (Response 200 "empty")) []).
  - reflexivity.
  - repeat split.
Defined.

Lemma X10_list_guests_unknown_type_witness :
  calls Example.guests_backend
    (getVMs (Example.parse Example.guests_table) (Example.config false) None (Some "kvm"))
  = [fetch_options (Example.config false) "/nodes" "GET" None].
Proof.
  unfold calls.
  rewrite (X10_list_guests_unknown_type (Example.parse Example.guests_table)
             (Example.config false) Example.guests_backend None "kvm"
             [mkNode "pve1" (Some "online") None None None None None None]).
  - reflexivity.
  - reflexivity.
  - discriminate.
  - discriminate.
  - discriminate.
  - repeat split.
Defined.

Lemma X11_list_guests_sorted_witness :
  exists listed,
    Permutation listed [Example.ct200; Example.vm100] /\
    StronglySorted (fun a b => vmid a <= vmid b) listed /\
    vms_text [Example.ct200; Example.vm100]
    = "💻 **Virtual Machines**" ++ nl ++ nl ++ blocks vm_block listed.
Proof.
  apply (X11_list_guests_sorted [Example.ct200; Example.vm100]). discriminate.
Defined.

(** ** Zero-valued fields *)

Lemma whenZ_absent {A : Type} (o : option Z) (f : Z -> A) (d : A) :
  whenZ (absentZ o) f d = whenZ o f d.
Proof.
  destruct o as [z|]; simpl; [|reflexivity].
  destruct (z =? 0) eqn:E; simpl; [reflexivity | now rewrite E].
Qed.

Lemma whenQ_absent {A : Type} (o : option Q) (f : double -> A) (d : A) :
  whenQ (absentQ o) f d = whenQ o f d.
Proof.
  destruct o as [q|]; cbn [absentQ whenQ]; [|reflexivity].
  destruct (falsy (of_Q q)) eqn:E; cbn [whenQ]; [reflexivity | now rewrite E].
Qed.

Lemma whenZ2_absent {A : Type} (a b : option Z) (f : Z -> Z -> A) (d : A) :
  whenZ2 (absentZ a) (absentZ b) f d = whenZ2 a b f d.
Proof.
  unfold whenZ2. rewrite whenZ_absent.
  destruct a as [x|]; simpl; [|reflexivity].
  destruct (x =? 0); [reflexivity | apply whenZ_absent].
Qed.

Lemma truthyZ_absent (o : option Z) : truthyZ (absentZ o) = truthyZ o.
Proof.
  destruct o as [z|]; simpl; [|reflexivity].
  destruct (z =? 0) eqn:E; simpl; [reflexivity | now rewrite E].
Qed.

Lemma orZ_absent (o : option Z) : orZ (absentZ o) = orZ o.
Proof.
  destruct o as [z|]; simpl; [|reflexivity].
  destruct (Z.eqb_spec z 0); simpl; congruence.
Qed.

Lemma orQ_absent (o : option Q) : orQ (absentQ o) = orQ o.
Proof.
  destruct o as [q|]; cbn [absentQ orQ]; [|reflexivity].
  destruct (falsy (of_Q q)) eqn:E; cbn [orQ]; [reflexivity | now rewrite E].
Qed.

(** The numeral zero is read as the number zero. *)
Lemma of_Q_zero (q : Q) : (q == 0)%Q -> falsy (of_Q q) = true.
Proof.
  intros E. unfold Qeq in E. cbn in E. rewrite Z.mul_1_r in E.
  unfold of_Q. rewrite E. reflexivity.
Qed.

Lemma whenQ_zero {A : Type} (q : Q) (f : double -> A) (d : A) :
  (q == 0)%Q -> whenQ (Some q) f d = d.
Proof. intros E. cbn [whenQ]. now rewrite (of_Q_zero q E). Qed.

Lemma resource_step_zeros_absent (acc : Z * double * Z * Z) (n : Node) :
  resource_step acc (node_zeros_absent n) = resource_step acc n.
Proof.
  destruct acc as [[[tc uc] tm] um]. unfold resource_step.
  change (online (node_zeros_absent n)) with (online n).
  cbn [node_zeros_absent node_maxcpu node_cpu node_maxmem node_mem].
  now rewrite !orZ_absent, orQ_absent.
Qed.

Lemma resource_usage_text_zeros_absent (nodes : list Node) :
  resource_usage_text (map node_zeros_absent nodes) = resource_usage_text nodes.
Proof.
  assert (E : forall acc,
            fold_left resource_step (map node_zeros_absent nodes) acc
            = fold_left resource_step nodes acc).
  { induction nodes as [| n nodes IH]; intros acc; cbn [map fold_left]; [reflexivity|].
    now rewrite resource_step_zeros_absent, IH. }
  unfold resource_usage_text, cpuPercent, memPercent, resources. now rewrite E.
Qed.

Lemma node_block_zeros_absent (n : Node) : node_block (node_zeros_absent n) = node_block n.
Proof.
  unfold node_block, node_uptime_text, node_cpuUsage, node_memUsage, node_load.
  cbn [node_zeros_absent node_name node_status node_uptime node_cpu node_mem
         node_maxmem node_loadavg].
  now rewrite whenZ_absent, whenQ_absent, whenZ2_absent.
Qed.

Lemma blocks_zeros_absent (nodes : list Node) :
  blocks node_block (map node_zeros_absent nodes) = blocks node_block nodes.
Proof.
  induction nodes as [| n nodes IH]; [reflexivity|].
  cbn [map]. unfold blocks in *. cbn [fold_right].
  now rewrite IH, node_block_zeros_absent.
Qed.

Section ZeroFields.

Variable JSON_parse : string -> error + data.
Variable localeCompare : string -> string -> Z.
Variable this : Config.

(** C10 (as amended).  Presence of the numeric fields uptime, cpu, mem,
    maxmem, of the disk and network counters of guest-status and of used
    and total of a storage entry is decided by truthiness, so such a field
    holding exactly 0 is formatted as an absent one: list-nodes,
    guest-status and node-status return the text of the answer with its
    zero fields removed, and the guest block, the storage block and the
    cluster resource summary are unchanged by the removal.  A node with
    cpu = 0 has the line "CPU: N/A", with uptime = 0 the line "Uptime: N/A",
    a running guest with cpu = 0 the line "CPU: N/A", and a storage entry
    with used = 0 or total = 0 has no usage line.  The load average of a
    node and the members of the memory and root-disk objects of node-status
    are not among these fields. *)
Theorem C10_zero_is_absent :
  (forall (b : backend) (nodes : list Node),
     accepted JSON_parse (b [] (fetch_options this "/nodes" "GET" None)) (Nodes nodes) ->
     result b (CallTool JSON_parse localeCompare this "proxmox_get_nodes" None)
     = Returned (text_result
         ("🖥️  **Proxmox Cluster Nodes**" ++ nl ++ nl
            ++ blocks node_block (map node_zeros_absent nodes)))) /\
  (forall (b : backend) (node vmid : option string) (type : string) (g : Guest),
     accepted JSON_parse
       (b [] (fetch_options this
                ("/nodes/" ++ show node ++ "/" ++ type ++ "/" ++ show vmid
                   ++ "/status/current") "GET" None))
       (GuestCurrent g) ->
     result b (getVMStatus JSON_parse this node vmid (Some type))
     = Returned (text_result (vm_status_text node vmid type (guest_zeros_absent g)))) /\
  (forall (b : backend) (node : option string) (st : NodeStatus),
     allowElevated this = true ->
     accepted JSON_parse
       (b [] (fetch_options this ("/nodes/" ++ show node ++ "/status") "GET" None))
       (NodeStatusData st) ->
     result b (getNodeStatus JSON_parse this node)
     = Returned (text_result (node_status_text node (status_zeros_absent st)))) /\
  (forall vm, vm_block (guest_zeros_absent vm) = vm_block vm) /\
  (forall s, storage_block (storage_zeros_absent s) = storage_block s) /\
  (forall nodes,
     resource_usage_text (map node_zeros_absent nodes) = resource_usage_text nodes) /\
  (forall n q, node_cpu n = Some q -> (q == 0)%Q ->
     node_block n
     = (if online n then "🟢" else "🔴") ++ " **" ++ node_name n ++ "**" ++ nl
         ++ "   • Status: " ++ show (node_status n) ++ nl
         ++ "   • Uptime: " ++ node_uptime_text n ++ nl
         ++ "   • CPU: N/A" ++ nl
         ++ "   • Memory: " ++ node_memUsage n ++ nl
         ++ "   • Load: " ++ node_load n ++ nl ++ nl) /\
  (forall n, node_uptime n = Some 0 ->
     node_block n
     = (if online n then "🟢" else "🔴") ++ " **" ++ node_name n ++ "**" ++ nl
         ++ "   • Status: " ++ show (node_status n) ++ nl
         ++ "   • Uptime: N/A" ++ nl
         ++ "   • CPU: " ++ node_cpuUsage n ++ nl
         ++ "   • Memory: " ++ node_memUsage n ++ nl
         ++ "   • Load: " ++ node_load n ++ nl ++ nl) /\
  (forall vm q, vm_status vm = Some "running" -> vm_cpu vm = Some q -> (q == 0)%Q ->
     vm_uptime vm = Some 0 ->
     vm_block vm
     = "🟢 " ++ (if strict_eq (vm_type vm) "qemu" then "🖥️" else "📦") ++ " **"
         ++ (if truthyS (vm_name vm) then show (vm_name vm)
             else "VM-" ++ Z_to_string (vmid vm))
         ++ "** (ID: " ++ Z_to_string (vmid vm) ++ ")" ++ nl
         ++ "   • Node: " ++ show (vm_node vm) ++ nl
         ++ "   • Status: running" ++ nl
         ++ "   • Type: " ++ toUpperCase (show (vm_type vm)) ++ nl
         ++ "   • Uptime: N/A" ++ nl
         ++ "   • CPU: N/A" ++ nl
         ++ "   • Memory: " ++ vm_memUsage vm ++ nl ++ nl) /\
  (forall s, storage_used s = Some 0 \/ storage_total s = Some 0 ->
     storage_block s = storage_block_without_usage s).
Proof.
  split; [| split; [| split; [| split; [| split; [| split; [| split; [| split; [| split]]]]]]]].
  - intros b nodes H. unfold result, CallTool. cbn [String.eqb Ascii.eqb Bool.eqb].
    change (fst (run b [] (try_catch (getNodes JSON_parse this)
                   (fun error => Ret (text_result ("Error: " ++ message error)))))
            = Returned (text_result
                ("🖥️  **Proxmox Cluster Nodes**" ++ nl ++ nl
                   ++ blocks node_block (map node_zeros_absent nodes)))).
    rewrite blocks_zeros_absent.
    rewrite run_try_catch. unfold getNodes. rewrite run_bind. unfold GET.
    rewrite (run_accepted JSON_parse this b [] _ _ _ _ H).
    cbn [iterate_nodes bind run app fst]. rewrite fold_left_blocks, !append_assoc.
    reflexivity.
  - intros b node vmid type g H. unfold result, getVMStatus.
    rewrite run_bind. unfold GET.
    rewrite (run_accepted JSON_parse this b [] _ _ _ _ H). cbn [run fst].
    do 2 f_equal. unfold vm_status_text.
    cbn [guest_zeros_absent vm_name vm_status vm_uptime vm_cpu vm_mem vm_maxmem
           vm_diskread vm_diskwrite vm_netin vm_netout].
    now rewrite !whenZ_absent, whenQ_absent, whenZ2_absent.
  - intros b node st He H. unfold result, getNodeStatus. rewrite He. cbn [negb].
    rewrite run_bind. unfold GET.
    rewrite (run_accepted JSON_parse this b [] _ _ _ _ H). cbn [run fst].
    do 2 f_equal. unfold node_status_text.
    cbn [status_zeros_absent ns_uptime ns_loadavg ns_cpu ns_memory ns_rootfs].
    now rewrite !whenZ_absent, whenQ_absent.
  - intros vm. unfold vm_block, vm_uptime_text, vm_cpuUsage, vm_memUsage.
    simpl. now rewrite whenZ_absent, whenQ_absent, whenZ2_absent.
  - intros s. unfold storage_block, storage_usagePercent.
    simpl. now rewrite !truthyZ_absent, !whenZ2_absent.
  - exact resource_usage_text_zeros_absent.
  - intros n q Hc Hq. unfold node_block, node_cpuUsage, online.
    rewrite Hc, (whenQ_zero q _ _ Hq). reflexivity.
  - intros n Hu. unfold node_block, online. unfold node_uptime_text at 1.
    rewrite Hu. reflexivity.
  - intros vm q Hs Hc Hq Hu.
    unfold vm_block, vm_cpuUsage, vm_uptime_text, status_glyph.
    rewrite Hs, Hc, Hu, (whenQ_zero q _ _ Hq).
    cbn [strict_eq String.eqb Ascii.eqb Bool.eqb whenZ Z.eqb show].
    rewrite !append_assoc. reflexivity.
  - intros s H. unfold storage_block, storage_block_without_usage.
    assert (E : forall f,
              whenZ2 (storage_total s) (storage_used s) f EmptyString = EmptyString).
    { intros f. unfold whenZ2. destruct H as [H | H]; rewrite H.
      - destruct (storage_total s) as [t|]; simpl; [|reflexivity].
        destruct (t =? 0); reflexivity.
      - reflexivity. }
    rewrite E. reflexivity.
Qed.

End ZeroFields.

Lemma C10_zero_is_absent_witness :
  node_cpu Example.idle_node = Some 0%Q /\
  (0 == 0)%Q /\
  node_block Example.idle_node
  = "🟢 **pve1**" ++ nl
      ++ "   • Status: online" ++ nl
      ++ "   • Uptime: N/A" ++ nl
      ++ "   • CPU: N/A" ++ nl
      ++ "   • Memory: N/A" ++ nl
      ++ "   • Load: 0.00" ++ nl ++ nl.
Proof.
  split; [reflexivity|]. split; [reflexivity|].
  rewrite (proj1 (proj2 (proj2 (proj2 (proj2 (proj2 (proj2
             (C10_zero_is_absent (Example.parse []) Example.compare
                (Example.config false))))))))
             Example.idle_node 0%Q eq_refl ltac:(reflexivity)).
  vm_compute. reflexivity.
Defined.

(** A node whose first load average is 0: list-nodes writes "0.00", where
    it writes "N/A" for a node without load averages. *)
Lemma C10_counterexample :
  node_loadavg Example.idle_node = Some [0%Q] /\
  result (Example.always (Response 200 "nodes"))
    (CallTool (Example.parse [("nodes", Nodes [Example.idle_node])]) Example.compare
       (Example.config false) "proxmox_get_nodes" None)
  = Returned (text_result
      ("🖥️  **Proxmox Cluster Nodes**" ++ nl ++ nl
         ++ "🟢 **pve1**" ++ nl
         ++ "   • Status: online" ++ nl
         ++ "   • Uptime: N/A" ++ nl
         ++ "   • CPU: N/A" ++ nl
         ++ "   • Memory: N/A" ++ nl
         ++ "   • Load: 0.00" ++ nl ++ nl)) /\
  node_load (mkNode "pve1" (Some "online") (Some 0) (Some 0%Q) None (Some 0) (Some 0) None)
  = "N/A".
Proof. repeat split; vm_compute; reflexivity. Qed.

(** ** The storage listing, in general *)

Lemma length_append (a b : string) :
  String.length (a ++ b) = (String.length a + String.length b)%nat.
Proof. induction a as [| x a IH]; cbn; [reflexivity | now rewrite IH]. Qed.

Lemma append_inj_r (a b c : string) : a ++ c = b ++ c -> a = b.
Proof.
  revert b. induction a as [| x a IH]; intros b H.
  - destruct b as [| y b]; [reflexivity|].
    exfalso. apply (f_equal String.length) in H.
    rewrite !length_append in H. cbn in H. lia.
  - destruct b as [| y b].
    + exfalso. apply (f_equal String.length) in H.
      rewrite !length_append in H. cbn in H. lia.
    + cbn [append] in H. injection H as -> H. f_equal. now apply IH.
Qed.

Section StorageText.

Variable localeCompare : string -> string -> Z.

Lemma uniqueStorages_first (pre post : list Storage) (s : Storage) :
  ~ In (storage_key s) (map storage_key pre) ->
  In s (uniqueStorages (pre ++ s :: post)).
Proof.
  intros Hnew. unfold uniqueStorages. rewrite fold_left_app.
  pose proof (unique_loop_invariant localeCompare pre [] []
                (fun k => conj (fun H => H) (fun H => H)) (NoDup_nil _)) as Hpre.
  destruct (fold_left unique_step pre ([], [])) as [seen kept].
  destruct Hpre as (I1 & I2 & (added & I3 & I4) & _). cbn [app] in I3. subst kept.
  assert (Hnot : ~ In (storage_key s) seen).
  { intros Hin. apply I1 in Hin. apply in_map_iff in Hin.
    destruct Hin as (x & Hk & Hx). apply Hnew. apply in_map_iff.
    exists x. split; [exact Hk | now apply I4]. }
  cbn [fold_left]. unfold unique_step at 2.
  destruct (has seen (storage_key s)) eqn:Hhas;
    [apply has_In in Hhas; contradiction|]. cbn [negb].
  assert (Hseen2 : forall k, In k (storage_key s :: seen)
                             <-> In k (map storage_key (added ++ [s]))).
  { intros k. rewrite map_app, in_app_iff. cbn. rewrite I1. tauto. }
  assert (Hnd2 : NoDup (map storage_key (added ++ [s]))).
  { rewrite map_app. cbn.
    apply NoDup_app; [exact I2 | repeat constructor; intros [] | ].
    intros k Hk [<- | []]. apply Hnot. now apply I1. }
  pose proof (unique_loop_invariant localeCompare post (storage_key s :: seen) (added ++ [s])%list
                Hseen2 Hnd2) as Hpost.
  destruct (fold_left unique_step post (storage_key s :: seen, (added ++ [s])%list))
    as [seen' kept'].
  destruct Hpost as (_ & _ & (added' & -> & _) & _). cbn [snd].
  rewrite !in_app_iff. left. right. now left.
Qed.

(** X12.  The storage listing of a non-empty gathering writes one block per
    kept entry.  The kept entries are gathered entries with pairwise
    different keys (name, "-", node); every gathered key is kept, by its
    first gathered entry; and, when [localeCompare] orders any two names
    one way or the other, each block's name is not after the next one's. *)
Theorem X12_storage_listing (storages : list Storage) :
  (forall a b, 0 < localeCompare a b -> localeCompare b a <= 0) ->
  storages <> [] ->
  exists listed,
    storages_text localeCompare storages
    = "💾 **Storage Pools**" ++ nl ++ nl ++ blocks storage_block listed /\
    incl listed storages /\
    NoDup (map storage_key listed) /\
    (forall pre s post,
       storages = (pre ++ s :: post)%list ->
       ~ In (storage_key s) (map storage_key pre) -> In s listed) /\
    Sorted (fun a b => localeCompare (storage_name a) (storage_name b) <= 0) listed.
Proof.
  intros Htotal Hne.
  destruct (listed_storages_spec localeCompare storages Htotal) as [Hperm Hsorted].
  destruct (uniqueStorages_spec localeCompare storages) as (Hnd & Hincl & _).
  exists (listed_storages localeCompare storages).
  split; [| split; [| split; [| split]]].
  - unfold storages_text. destruct storages as [| s storages]; [contradiction|].
    rewrite fold_left_blocks, !append_assoc. reflexivity.
  - intros x Hx. apply Hincl. now apply (Permutation_in _ Hperm).
  - apply (Permutation_NoDup (l := map storage_key (uniqueStorages storages)));
      [| exact Hnd].
    apply Permutation_map. now symmetry.
  - intros pre s post -> Hnew.
    apply (Permutation_in _ (Permutation_sym Hperm)).
    now apply uniqueStorages_first.
  - exact Hsorted.
Qed.

Lemma NoDup_names_of_keys (node : option string) (l : list Storage) :
  (forall s, In s l -> storage_node s = node) ->
  NoDup (map storage_key l) -> NoDup (map storage_name l).
Proof.
  induction l as [| s l IH]; intros Hnode Hnd; cbn [map] in *; constructor.
  - inversion Hnd as [| ? ? Hnot _]; subst. intros Hin. apply Hnot.
    apply in_map_iff in Hin. destruct Hin as (x & Hx & Hin).
    apply in_map_iff. exists x. split; [| exact Hin].
    unfold storage_key.
    rewrite (Hnode x (or_intror Hin)), (Hnode s (or_introl eq_refl)), Hx. reflexivity.
  - apply IH; [intros x Hx; apply Hnode; now right | now inversion Hnd].
Qed.

(** X13.  With a node filter every gathered entry is tagged with that node,
    and then no two kept entries have the same storage name and every
    gathered storage name is kept: one entry per storage name. *)
Theorem X13_filtered_storage_names (node : option string) (storages : list Storage) :
  let kept := listed_storages localeCompare (map (on_node node) storages) in
  NoDup (map storage_name kept) /\
  (forall s, In s storages -> In (storage_name s) (map storage_name kept)) /\
  (forall s, In s kept -> storage_node s = node).
Proof.
  cbv zeta.
  pose proof (sort_perm (fun a b => localeCompare (storage_name a) (storage_name b))
                (uniqueStorages (map (on_node node) storages))) as Hperm.
  fold (listed_storages localeCompare (map (on_node node) storages)) in Hperm.
  destruct (uniqueStorages_spec localeCompare (map (on_node node) storages)) as (Hnd & Hincl & Hall).
  set (kept := listed_storages localeCompare (map (on_node node) storages)) in *.
  assert (Hnode : forall s, In s kept -> storage_node s = node).
  { intros s Hs. apply (Permutation_in _ Hperm) in Hs. apply Hincl in Hs.
    apply in_map_iff in Hs. destruct Hs as (x & <- & _). reflexivity. }
  assert (Hkey : forall s, In s kept ->
                   storage_key s = storage_name s ++ "-" ++ show node).
  { intros s Hs. unfold storage_key. now rewrite (Hnode s Hs). }
  split; [| split; [| exact Hnode]].
  - assert (Hnd' : NoDup (map storage_key kept)).
    { apply (Permutation_NoDup
               (l := map storage_key (uniqueStorages (map (on_node node) storages))));
        [| exact Hnd].
      apply Permutation_map. now symmetry. }
    exact (NoDup_names_of_keys node kept Hnode Hnd').
  - intros s Hs.
    assert (Hin : In (storage_key (on_node node s))
                    (map storage_key (uniqueStorages (map (on_node node) storages)))).
    { apply Hall. apply in_map_iff. exists s. auto. }
    apply in_map_iff in Hin. destruct Hin as (u & Hk & Hu).
    apply (Permutation_in _ (Permutation_sym Hperm)) in Hu.
    apply in_map_iff. exists u. split; [| exact Hu].
    rewrite (Hkey u Hu) in Hk. unfold storage_key in Hk. cbn in Hk.
    now apply append_inj_r in Hk.
Qed.

End StorageText.

Lemma compare_total (a b : string) :
  0 < Example.compare a b -> Example.compare b a <= 0.
Proof.
  unfold Example.compare. rewrite (String.compare_antisym a b).
  destruct (String.compare b a); cbn; lia.
Qed.

Lemma X12_storage_listing_witness :
  exists listed,
    storages_text Example.compare [Example.local_zfs; Example.local_dir]
    = "💾 **Storage Pools**" ++ nl ++ nl ++ blocks storage_block listed /\
    incl listed [Example.local_zfs; Example.local_dir].
Proof.
  destruct (X12_storage_listing Example.compare [Example.local_zfs; Example.local_dir]
              compare_total ltac:(discriminate)) as (listed & H1 & H2 & _).
  exists listed. split; assumption.
Defined.

(** ** One failing node fails the whole storage listing *)

Section FailFast.

Variable JSON_parse : string -> error + data.
Variable localeCompare : string -> string -> Z.
Variable this : Config.

(** A backend whose answer depends on the request only. *)
Variable answer : request -> fetch_result.

Lemma run_stateless (log : list request)
    (endpoint method : string) (body : option (option string)) :
  run (fun _ r => answer r) log (proxmoxRequest JSON_parse this endpoint method body)
  = (fst (run (fun _ r => answer r) []
            (proxmoxRequest JSON_parse this endpoint method body)),
     (log ++ [fetch_options this endpoint method body])%list).
Proof. rewrite !run_proxmoxRequest. reflexivity. Qed.

Lemma gather_prefix (pre rest : list Node) :
  (forall m, In m pre ->
     exists l, accepted JSON_parse
                 (answer (fetch_options this ("/nodes/" ++ node_name m ++ "/storage")
                            "GET" None))
                 (Storages l)) ->
  forall (acc : list Storage) (log : list request),
  exists acc',
    run (fun _ r => answer r) log
      (for_each (pre ++ rest) acc (fun node storages =>
         d <- GET JSON_parse this ("/nodes/" ++ node_name node ++ "/storage") ;;
         nodeStorages <- expect_storages "nodeStorages" d ;;
         Ret (storages ++ map (on_node (Some (node_name node))) nodeStorages)%list))
    = run (fun _ r => answer r)
        (log ++ map (fun m => fetch_options this
                                ("/nodes/" ++ node_name m ++ "/storage") "GET" None) pre)
        (for_each rest acc' (fun node storages =>
           d <- GET JSON_parse this ("/nodes/" ++ node_name node ++ "/storage") ;;
           nodeStorages <- expect_storages "nodeStorages" d ;;
           Ret (storages ++ map (on_node (Some (node_name node))) nodeStorages)%list)).
Proof.
  induction pre as [| m pre IH]; intros Hpre acc log.
  - exists acc. cbn [app map]. now rewrite app_nil_r.
  - destruct (Hpre m (or_introl eq_refl)) as [l Hl].
    cbn [app for_each map]. rewrite !run_bind. unfold GET at 1.
    rewrite (run_accepted JSON_parse this (fun _ r => answer r) log _ _ _ _ Hl).
    cbn [expect_storages bind run].
    destruct (IH (fun x Hx => Hpre x (or_intror Hx))
                 (acc ++ map (on_node (Some (node_name m))) l)%list
                 (log ++ [fetch_options this ("/nodes/" ++ node_name m ++ "/storage")
                            "GET" None])%list) as [acc' Hacc].
    exists acc'. rewrite Hacc, <- app_assoc. reflexivity.
Qed.

(** X14.  Without a node filter, list-storage asks the nodes in the order
    of the node list and stops at the first node whose storage request
    fails: the nodes after it are not asked, nothing gathered so far is
    shown, and the result is "Error: " with the message of that failure. *)
Theorem X14_storage_listing_fails_fast
    (args : Arguments) (pre post : list Node) (n : Node) (e : error) :
  truthyS (arg_node args) = false ->
  accepted JSON_parse (answer (fetch_options this "/nodes" "GET" None))
    (Nodes (pre ++ n :: post)) ->
  (forall m, In m pre ->
     exists l, accepted JSON_parse
                 (answer (fetch_options this ("/nodes/" ++ node_name m ++ "/storage")
                            "GET" None))
                 (Storages l)) ->
  fst (run (fun _ r => answer r) []
         (proxmoxRequest JSON_parse this ("/nodes/" ++ node_name n ++ "/storage")
            "GET" None)) = Thrown e ->
  run (fun _ r => answer r) []
    (CallTool JSON_parse localeCompare this "proxmox_get_storage" (Some args))
  = (Returned (text_result ("Error: " ++ message e)),
     (fetch_options this "/nodes" "GET" None
        :: map (fun m => fetch_options this ("/nodes/" ++ node_name m ++ "/storage")
                           "GET" None) pre
        ++ [fetch_options this ("/nodes/" ++ node_name n ++ "/storage") "GET" None])%list).
Proof.
  intros Hf Hnodes Hpre Hn.
  change (CallTool JSON_parse localeCompare this "proxmox_get_storage" (Some args))
    with (try_catch (getStorage JSON_parse localeCompare this (arg_node args))
            (fun error => Ret (text_result ("Error: " ++ message error)))).
  rewrite run_try_catch. unfold getStorage, gather_storages. rewrite Hf.
  rewrite !run_bind. unfold GET at 1.
  rewrite (run_accepted JSON_parse this (fun _ r => answer r) [] _ _ _ _ Hnodes).
  cbv beta iota. cbn [iterate_nodes bind run].
  rewrite app_nil_l.
  destruct (gather_prefix pre (n :: post) Hpre []
              [fetch_options this "/nodes" "GET" None]) as [acc' ->].
  cbn [for_each]. rewrite !run_bind. unfold GET at 1.
  rewrite run_stateless, Hn. reflexivity.
Qed.

End FailFast.

Lemma X14_storage_listing_fails_fast_witness :
  result (fun _ r =>
            if (url r =? "https://192.168.6.247:8006/api2/json/nodes")%string
            then Response 200 "nodes" else Response 595 "no route to host")
    (CallTool (Example.parse Example.storage_table) Example.compare (Example.config false)
       "proxmox_get_storage" (Some Example.no_args))
  = Returned (text_result
      "Error: Failed to connect to Proxmox: Proxmox API error: 595 - no route to host").
Proof.
  unfold result.
  rewrite (X14_storage_listing_fails_fast
             (Example.parse Example.storage_table) Example.compare (Example.config false)
             (fun r => if (url r =? "https://192.168.6.247:8006/api2/json/nodes")%string
                       then Response 200 "nodes" else Response 595 "no route to host")
             Example.no_args []
             [mkNode "zfs-pve" (Some "online") None None None None None None]
             (mkNode "pve" (Some "online") None None None None None None)
             (Error "Failed to connect to Proxmox: Proxmox API error: 595 - no route to host")).
  - reflexivity.
  - reflexivity.
  - repeat split.
  - intros m [].
  - reflexivity.
Defined.

(** ** The formatter helpers at their edges *)

(** X15.  [sizes] ends at TB.  Whenever the index the code computes for a
    count below 2^53 is 5 or more, the array has no such element and the
    text is the scaled number followed by " undefined".  The computed index
    is 5 at 1024^5, and already at the three counts below it. *)
Theorem X15_formatBytes_beyond_TB (b i : Z) :
  0 < b < 2 ^ 53 -> unit_index b = Some i -> 5 <= i ->
  formatBytes b = shortest_decimal (hundredths b i) ++ " undefined" /\
  map unit_index [1024 ^ 5 - 4; 1024 ^ 5 - 3; 1024 ^ 5 - 2; 1024 ^ 5 - 1; 1024 ^ 5]
  = [Some 4; Some 5; Some 5; Some 5; Some 5].
Proof.
  intros [Hb _] Hidx Hi. split; [| vm_compute; reflexivity].
  rewrite (formatBytes_indexed b i Hb Hidx) by lia.
  rewrite size_text_nth by lia.
  rewrite (nth_overflow sizes "undefined"); [reflexivity|].
  change (List.length sizes) with 5%nat. lia.
Qed.

(** X16.  When the computed index of a count is the floor of its base-1024
    logarithm, the number [formatBytes] shows lies between 1 and 1024, both
    included: rounding to two decimals can carry a value just below 1024 up
    to 1024, and the unit is not advanced when it does, as for 1024^2 - 1
    bytes. *)
Theorem X16_formatBytes_number_range (b : Z) :
  0 < b < 2 ^ 53 -> unit_index b = Some (floor_log1024 b) ->
  formatBytes b
  = shortest_decimal (hundredths b (floor_log1024 b)) ++ " "
      ++ nth (Z.to_nat (floor_log1024 b)) sizes "undefined" /\
  100 <= hundredths b (floor_log1024 b) <= 102400 /\
  unit_index (1024 ^ 2 - 1) = Some (floor_log1024 (1024 ^ 2 - 1)) /\
  formatBytes (1024 ^ 2 - 1) = "1024 KB".
Proof.
  intros [Hb _] Hidx.
  destruct (floor_log1024_spec b Hb) as (Hi & _).
  split.
  { rewrite (formatBytes_indexed b _ Hb Hidx Hi), (size_text_nth _ Hi). reflexivity. }
  split; [| split; vm_compute; reflexivity].
  destruct (scaled_bounds b Hb) as [H1 H2].
  unfold hundredths, round_half_up.
  assert (Hlo : Qfloor 100%Q <= Qfloor (scaled b (floor_log1024 b) * 100 + (1 # 2)))
    by (apply Qfloor_resp_le; lra).
  assert (Hhi : Qfloor (scaled b (floor_log1024 b) * 100 + (1 # 2))
                <= Qfloor (102400 + (1 # 2))%Q)
    by (apply Qfloor_resp_le; lra).
  change (Qfloor 100%Q) with 100 in Hlo.
  change (Qfloor (102400 + (1 # 2))%Q) with 102400 in Hhi.
  split; assumption.
Qed.

(** X17.  [formatUptime] drops the seconds within the minute: a duration
    and the same duration cut down to whole minutes are written alike, and
    anything under a minute is written "0m". *)
Theorem X17_formatUptime_whole_minutes (s : Z) :
  0 <= s ->
  formatUptime s = formatUptime (60 * (s / 60)) /\
  (s < 60 -> formatUptime s = "0m").
Proof.
  intros Hs.
  assert (Hm : 0 <= 60 * (s / 60)) by (Z.div_mod_to_equations; lia).
  split.
  - unfold formatUptime. rewrite !Z.rem_mod_nonneg by lia.
    assert (E1 : 60 * (s / 60) / 86400 = s / 86400)
      by (Z.div_mod_to_equations; lia).
    assert (E2 : (60 * (s / 60)) mod 86400 / 3600 = s mod 86400 / 3600)
      by (Z.div_mod_to_equations; lia).
    assert (E3 : (60 * (s / 60)) mod 3600 / 60 = s mod 3600 / 60)
      by (Z.div_mod_to_equations; lia).
    now rewrite E1, E2, E3.
  - intros Hlt. unfold formatUptime. rewrite !Z.rem_mod_nonneg by lia.
    rewrite !Z.mod_small by lia. rewrite !Z.div_small by lia. reflexivity.
Qed.

Lemma X15_formatBytes_beyond_TB_witness :
  0 < 2 * 1024 ^ 5 < 2 ^ 53 /\ unit_index (2 * 1024 ^ 5) = Some 5 /\
  formatBytes (2 * 1024 ^ 5) = "2 undefined".
Proof.
  split; [lia|]. split; [vm_compute; reflexivity|].
  exact (proj1 (X15_formatBytes_beyond_TB (2 * 1024 ^ 5) 5 ltac:(lia)
                  ltac:(vm_compute; reflexivity) ltac:(lia))).
Defined.

Lemma X16_formatBytes_number_range_witness :
  0 < 1536 < 2 ^ 53 /\ unit_index 1536 = Some (floor_log1024 1536) /\
  100 <= hundredths 1536 (floor_log1024 1536) <= 102400.
Proof.
  split; [lia|]. split; [vm_compute; reflexivity|].
  exact (proj1 (proj2 (X16_formatBytes_number_range 1536 ltac:(lia)
                         ltac:(vm_compute; reflexivity)))).
Defined.

Lemma X17_formatUptime_whole_minutes_witness :
  0 <= 3659 /\ formatUptime 3659 = formatUptime (60 * (3659 / 60)).
Proof.
  split; [lia|]. exact (proj1 (X17_formatUptime_whole_minutes 3659 ltac:(lia))).
Defined.

(** ** Start-up *)

Lemma split_cons (sep : ascii) (s : string) :
  exists piece pieces, split sep s = piece :: pieces.
Proof.
  induction s as [| c s (p & ps & IH)]; cbn [split]; [eauto|].
  destruct (Ascii.eqb c sep); [eauto|]. rewrite IH. eauto.
Qed.

Lemma split_whole (sep : ascii) (s : string) :
  includes sep s = false -> split sep s = [s].
Proof.
  induction s as [| c s IH]; cbn [split includes]; [reflexivity|].
  intros H. apply orb_false_iff in H. destruct H as [H1 H2].
  rewrite H1, (IH H2). reflexivity.
Qed.

Lemma split_app (sep : ascii) (a b : string) :
  split sep (a ++ String sep b) = (split sep a ++ split sep b)%list.
Proof.
  induction a as [| c a IH]; cbn [append split].
  - now rewrite Ascii.eqb_refl.
  - destruct (Ascii.eqb c sep); [now rewrite IH|].
    rewrite IH. destruct (split_cons sep a) as (p & ps & ->). reflexivity.
Qed.

Lemma concat_cons (sep x y : string) (l : list string) :
  String.concat sep (x :: y :: l) = x ++ sep ++ String.concat sep (y :: l).
Proof. reflexivity. Qed.

(** Joining the pieces of a split gives the text back. *)
Lemma concat_split (sep : ascii) (s : string) :
  String.concat (String sep EmptyString) (split sep s) = s.
Proof.
  induction s as [| c s IH]; cbn [split]; [reflexivity|].
  destruct (split_cons sep s) as (p & ps & E). rewrite E in *.
  destruct (Ascii.eqb_spec c sep) as [-> | _].
  - rewrite concat_cons, IH. reflexivity.
  - destruct ps as [| q ps].
    + cbn [String.concat] in *. now rewrite IH.
    + rewrite concat_cons in *. rewrite <- IH. reflexivity.
Qed.

Lemma includes_app (c : ascii) (a b : string) :
  includes c (a ++ b) = includes c a || includes c b.
Proof.
  induction a as [| x a IH]; cbn [append includes]; [reflexivity|].
  now rewrite IH, orb_assoc.
Qed.

Lemma load_line_assignment (env : Env) (key value : string) :
  includes equals key = false ->
  (key <> EmptyString ->
   load_line env (key ++ "=" ++ value) = setenv (trim key) (trim value) env) /\
  load_line env ("=" ++ value) = env.
Proof.
  intros Hk. split.
  - intros Hne. unfold load_line.
    change (key ++ "=" ++ value) with (key ++ String equals value).
    rewrite split_app, (split_whole equals key Hk). cbn [app].
    destruct (String.eqb_spec key EmptyString) as [E | _]; [contradiction|].
    change (String.concat "=" (split equals value))
      with (String.concat (String equals EmptyString) (split equals value)).
    rewrite concat_split.
    destruct (split_cons equals value) as (p & ps & ->). reflexivity.
  - unfold load_line. cbn [append split]. rewrite Ascii.eqb_refl. reflexivity.
Qed.

(** X18.  One line of the .env file.  When the text before the first
    equals sign is not blank, the variable named by that text, trimmed, is
    set to everything after the first equals sign, trimmed, later equals
    signs included.  A line that starts with the equals sign sets
    nothing. *)
Theorem X18_env_line (env : Env) (key value : string) :
  includes equals key = false ->
  (trim key <> EmptyString ->
   load_line env (key ++ "=" ++ value) = setenv (trim key) (trim value) env) /\
  load_line env ("=" ++ value) = env.
Proof.
  intros Hk. destruct (load_line_assignment env key value Hk) as [H1 H2].
  split; [| exact H2].
  intros Hne. apply H1. intros ->. now apply Hne.
Qed.

Lemma load_env_snoc (file line : string) (env : Env) :
  includes newline line = false ->
  load_env (Some (file ++ nl ++ line)) env
  = if includes equals line then load_line (load_env (Some file) env) line
    else load_env (Some file) env.
Proof.
  intros Hl. unfold load_env.
  change (file ++ nl ++ line) with (file ++ String newline line).
  rewrite split_app, (split_whole newline line Hl), filter_app. cbn [filter].
  destruct (includes equals line).
  - now rewrite fold_left_app.
  - now rewrite app_nil_r.
Qed.

(** X19.  The lines of the .env file are taken in order, and a line
    without an equals sign changes nothing: loading a file followed by one
    more line is loading the file and then that line if it holds an equals
    sign, and just loading the file if not.  A file that cannot be read, and
    an empty file, leave the environment as it is. *)
Theorem X19_env_lines (file line : string) (env : Env) :
  includes newline line = false ->
  load_env (Some (file ++ nl ++ line)) env
  = (if includes equals line then load_line (load_env (Some file) env) line
     else load_env (Some file) env) /\
  load_env None env = env /\
  load_env (Some EmptyString) env = env.
Proof.
  intros Hl. split; [now apply load_env_snoc|]. split; reflexivity.
Qed.

(** X20.  The last line of the .env file that assigns a name decides its
    value, over earlier lines and over what the environment already held:
    after a file that ends with the line key=value, the variable named by
    the trimmed key holds the trimmed value.  So the server starts with
    elevated access exactly when the value on a final
    PROXMOX_ALLOW_ELEVATED line, trimmed, is "true". *)
Theorem X20_env_last_line_wins (file key value : string) (env : Env) :
  trim key <> EmptyString ->
  includes equals key = false ->
  includes newline key = false ->
  includes newline value = false ->
  getenv (load_env (Some (file ++ nl ++ key ++ "=" ++ value)) env) (trim key)
    = Some (trim value) /\
  allowElevated
    (startup (Some (file ++ nl ++ "PROXMOX_ALLOW_ELEVATED" ++ "=" ++ value)) env)
    = (trim value =? "true")%string.
Proof.
  intros Hne Hk Hkn Hvn.
  assert (Hline : forall k, includes newline k = false ->
            includes newline (k ++ "=" ++ value) = false
            /\ includes equals (k ++ "=" ++ value) = true).
  { intros k Hn. rewrite !includes_app, Hn, Hvn. cbn [includes orb].
    split; [reflexivity|]. change (Ascii.eqb "=" equals) with true.
    now rewrite orb_true_r. }
  split.
  - destruct (Hline key Hkn) as [H1 H2].
    rewrite (load_env_snoc file _ env H1), H2.
    rewrite (proj1 (load_line_assignment (load_env (Some file) env) key value Hk))
      by (intros ->; now apply Hne).
    unfold setenv. cbn [getenv]. now rewrite String.eqb_refl.
  - destruct (Hline "PROXMOX_ALLOW_ELEVATED" eq_refl) as [H1 H2].
    unfold startup. rewrite (load_env_snoc file _ env H1), H2.
    rewrite (proj1 (load_line_assignment (load_env (Some file) env)
                      "PROXMOX_ALLOW_ELEVATED" value eq_refl) ltac:(discriminate)).
    reflexivity.
Qed.

Lemma X18_env_line_witness :
  includes equals (Example.bom ++ "PROXMOX_TOKEN_VALUE ") = false /\
  trim (Example.bom ++ "PROXMOX_TOKEN_VALUE ") <> EmptyString /\
  load_line [] ((Example.bom ++ "PROXMOX_TOKEN_VALUE ") ++ "="
                  ++ (" abc=def== " ++ Example.nbsp))
  = [("PROXMOX_TOKEN_VALUE", "abc=def==")].
Proof.
  split; [reflexivity|]. split; [discriminate|].
  exact (proj1 (X18_env_line [] (Example.bom ++ "PROXMOX_TOKEN_VALUE ")
                  (" abc=def== " ++ Example.nbsp) eq_refl)
           ltac:(vm_compute; discriminate)).
Defined.

Lemma X19_env_lines_witness :
  includes newline "# local settings" = false /\
  load_env (Some ("PROXMOX_PORT=8007" ++ nl ++ "# local settings")) []
  = [("PROXMOX_PORT", "8007")].
Proof.
  split; [reflexivity|].
  rewrite (proj1 (X19_env_lines "PROXMOX_PORT=8007" "# local settings" [] eq_refl)).
  reflexivity.
Defined.

Lemma X20_env_last_line_wins_witness :
  allowElevated
    (startup (Some ("PROXMOX_ALLOW_ELEVATED=false" ++ nl
                      ++ "PROXMOX_ALLOW_ELEVATED" ++ "=" ++ (" true" ++ Example.nbsp)))
       [("PROXMOX_ALLOW_ELEVATED", "false")])
  = true.
Proof.
  rewrite (proj2 (X20_env_last_line_wins "PROXMOX_ALLOW_ELEVATED=false"
                    "PROXMOX_ALLOW_ELEVATED" (" true" ++ Example.nbsp)
                    [("PROXMOX_ALLOW_ELEVATED", "false")]
                    ltac:(vm_compute; discriminate) eq_refl eq_refl eq_refl)).
  reflexivity.
Defined.

(** ** The catalog and the dispatcher *)

Section Catalog.

Variable JSON_parse : string -> error + data.
Variable localeCompare : string -> string -> Z.
Variable this : Config.

Lemma fetch_is_no_reply {A : Type} (p : proc A) (a : A) :
  first_request p <> None -> p <> Ret a.
Proof. intros H ->. now apply H. Qed.

(** X21.  The catalog and the dispatcher agree: the names the dispatcher
    answers with "Unknown tool" are exactly the names that are not in the
    catalog, whatever the arguments and the configuration. *)
Theorem X21_catalog_matches_dispatch (name : string) (args : option Arguments) :
  In name tool_names <->
  CallTool JSON_parse localeCompare this name args
    <> Ret (text_result ("Error: Unknown tool: " ++ name)).
Proof.
  split.
  - intros Hin. unfold tool_names in Hin. cbn [map tools tool_name] in Hin.
    repeat (destruct Hin as [<- | Hin]); try destruct Hin;
      destruct args as [args |];
      try (intros H; cbn in H; discriminate H);
      try (apply fetch_is_no_reply; discriminate).
    + unfold CallTool. cbn [String.eqb Ascii.eqb Bool.eqb with_args].
      unfold getNodeStatus. destruct (allowElevated this); cbn [negb].
      * apply fetch_is_no_reply. discriminate.
      * intros H. cbn in H. discriminate H.
    + unfold CallTool. cbn [String.eqb Ascii.eqb Bool.eqb with_args].
      unfold getVMs. destruct (truthyS (arg_node args));
        apply fetch_is_no_reply; discriminate.
    + unfold CallTool. cbn [String.eqb Ascii.eqb Bool.eqb with_args].
      unfold executeVMCommand. destruct (allowElevated this); cbn [negb].
      * destruct (match arg_type args with Some t => t | None => "qemu" end
                    =? "qemu")%string; apply fetch_is_no_reply; discriminate.
      * intros H. cbn in H. discriminate H.
    + unfold CallTool. cbn [String.eqb Ascii.eqb Bool.eqb with_args].
      unfold getStorage, gather_storages. destruct (truthyS (arg_node args));
        apply fetch_is_no_reply; discriminate.
  - intros H.
    destruct (in_dec string_dec name tool_names) as [Hin | Hout]; [exact Hin|].
    exfalso. apply H. unfold CallTool.
    repeat match goal with
    | |- context [String.eqb name ?s] =>
        destruct (String.eqb_spec name s) as [-> | _];
        [ exfalso; apply Hout; unfold tool_names; cbn; tauto | ]
    end.
    reflexivity.
Qed.

End Catalog.

(** ** Cluster health *)

Lemma filter_keeps_all {A : Type} (f : A -> bool) (l : list A) :
  (Z.of_nat (List.length (filter f l)) =? Z.of_nat (List.length l)) = forallb f l.
Proof.
  assert (Hle : forall l', (List.length (filter f l') <= List.length l')%nat).
  { intros l'. induction l' as [| y l' IH]; cbn; [lia|]. destruct (f y); cbn; lia. }
  induction l as [| x l IH]; [reflexivity|].
  cbn [filter forallb]. destruct (f x); cbn [List.length andb].
  - rewrite <- IH.
    destruct (Z.eqb_spec (Z.of_nat (List.length (filter f l))) (Z.of_nat (List.length l)));
      [apply Z.eqb_eq | apply Z.eqb_neq]; lia.
  - apply Z.eqb_neq. specialize (Hle l). lia.
Qed.

(** X22.  cluster-status calls the cluster healthy exactly when every node
    of the list has status "online", and so also when the list is empty; the
    line after it counts the online nodes against all nodes. *)
Theorem X22_cluster_health (localeCompare : string -> string -> Z) (this : Config)
    (nodes : list Node) :
  exists rest,
    cluster_text localeCompare this nodes
    = "🏗️  **Proxmox Cluster Status**" ++ nl ++ nl
        ++ "**Cluster Health**: "
        ++ (if forallb online nodes then "🟢 Healthy" else "🟡 Warning") ++ nl
        ++ "**Nodes**: " ++ Z_to_string (Z.of_nat (List.length (filter online nodes)))
        ++ "/" ++ Z_to_string (Z.of_nat (List.length nodes)) ++ " online" ++ nl ++ nl
        ++ rest.
Proof.
  unfold cluster_text. cbv zeta. rewrite filter_keeps_all.
  eexists. reflexivity.
Qed.

(** ** Node usage *)



